(** * SQL Query Assistant: the tool-use loops of [main.py]

    A shallow embedding of [src/client_for_multi_server/main.py]:
    [format_sql_result], [get_table_info], [process_query] and [main].

    Python [str] values are modelled as [string], read as the UTF-8
    encoding of the text.  The Bedrock gateway, the MCP tool executor
    and pandas are external collaborators: they are the operations of
    the classes [Pandas] and [Services] below, and every theorem holds
    for all of their implementations.  [json.loads] is embedded as the
    executable decoder [json_loads]. *)

From Stdlib Require Import String Ascii List Bool ZArith NArith Arith Lia.
Import ListNotations.
Open Scope string_scope.
Open Scope list_scope.
Set Warnings "-register-all".

(* ================================================================= *)
(** ** JSON values and [json.loads] *)

(** A decoded JSON document.  A Python [float] keeps the text it was read
    from; a [dict] is the list of its items in insertion order.  The
    limits of the interpreter (recursion depth, digits of an integer)
    are not modelled. *)
Inductive json : Type :=
| JNull
| JBool (b : bool)
| JInt (z : Z)
| JFloat (lexeme : string)
| JStr (s : string)
| JArr (items : list json)
| JObj (members : list (string * json)).

Module Json.

Local Open Scope string_scope.

Definition dquote : ascii := "034"%char.
Definition backslash : ascii := "092"%char.

Definition code (c : ascii) : N := N_of_ascii c.

(** The whitespace of [json.decoder.WHITESPACE]: space, tab, LF, CR. *)
Definition is_ws (c : ascii) : bool :=
  let n := code c in
  ((n =? 32) || (n =? 9) || (n =? 10) || (n =? 13))%N.

Definition is_digit (c : ascii) : bool :=
  let n := code c in ((48 <=? n) && (n <=? 57))%N.

Fixpoint skip_ws (s : string) : string :=
  match s with
  | String c r => if is_ws c then skip_ws r else s
  | EmptyString => s
  end.

Fixpoint strip_prefix (p s : string) : option string :=
  match p, s with
  | EmptyString, _ => Some s
  | String a p', String b s' =>
      if Ascii.eqb a b then strip_prefix p' s' else None
  | String _ _, EmptyString => None
  end.

(** [dict[k] = v]: a key already present keeps its position. *)
Fixpoint dict_set (k : string) (v : json) (d : list (string * json))
  : list (string * json) :=
  match d with
  | [] => [(k, v)]
  | (k', v') :: r =>
      if String.eqb k k' then (k, v) :: r else (k', v') :: dict_set k v r
  end.

Fixpoint dict_get (k : string) (d : list (string * json)) : option json :=
  match d with
  | [] => None
  | (k', v) :: r => if String.eqb k k' then Some v else dict_get k r
  end.

(** *** Numbers: [NUMBER_RE] of [json.scanner] *)

Fixpoint span_digits (s : string) : string * string :=
  match s with
  | String c r =>
      if is_digit c
      then let (ds, rest) := span_digits r in (String c ds, rest)
      else (EmptyString, s)
  | EmptyString => (EmptyString, EmptyString)
  end.

Fixpoint digits_value (s : string) (acc : Z) : Z :=
  match s with
  | String c r => digits_value r (10 * acc + Z.of_N (code c - 48))%Z
  | EmptyString => acc
  end.

(** The integer group of the pattern, an optional minus sign and then
    either a single zero or a nonzero digit followed by digits:
    the sign flag, the digits, the rest. *)
Definition integer_part (s : string) : option (bool * string * string) :=
  let (neg, s1) :=
    match s with
    | String c r => if Ascii.eqb c "-" then (true, r) else (false, s)
    | EmptyString => (false, s)
    end in
  match s1 with
  | String c r =>
      if Ascii.eqb c "0" then Some (neg, "0", r)
      else if is_digit c
           then let (ds, rest) := span_digits s1 in Some (neg, ds, rest)
           else None
  | EmptyString => None
  end.

(** The optional fraction group: a dot and at least one digit. *)
Definition fraction_part (s : string) : string * string :=
  match s with
  | String c r =>
      if Ascii.eqb c "." then
        match span_digits r with
        | (EmptyString, _) => (EmptyString, s)
        | (ds, rest) => (String c ds, rest)
        end
      else (EmptyString, s)
  | EmptyString => (EmptyString, s)
  end.

(** The optional exponent group: e or E, an optional sign, and at least
    one digit. *)
Definition exponent_part (s : string) : string * string :=
  match s with
  | String e r =>
      if Ascii.eqb e "e" || Ascii.eqb e "E" then
        let (sign, r1) :=
          match r with
          | String c r' =>
              if Ascii.eqb c "-" || Ascii.eqb c "+"
              then (String c EmptyString, r') else (EmptyString, r)
          | EmptyString => (EmptyString, r)
          end in
        match span_digits r1 with
        | (EmptyString, _) => (EmptyString, s)
        | (ds, rest) => (String e (sign ++ ds), rest)
        end
      else (EmptyString, s)
  | EmptyString => (EmptyString, s)
  end.

Definition match_number (s : string) : option (json * string) :=
  match integer_part s with
  | None => None
  | Some (neg, ds, r) =>
      let (frac, r1) := fraction_part r in
      let (exp, r2) := exponent_part r1 in
      match frac, exp with
      | EmptyString, EmptyString =>
          let v := digits_value ds 0 in
          Some (JInt (if neg then (- v)%Z else v), r2)
      | _, _ =>
          Some (JFloat ((if neg then "-" else "") ++ ds ++ frac ++ exp), r2)
      end
  end.

(** *** Strings: [py_scanstring] with [strict=True] *)

Definition hex_value (c : ascii) : option N :=
  let n := code c in
  if is_digit c then Some (n - 48)%N
  else if ((97 <=? n) && (n <=? 102))%N then Some (n - 87)%N
  else if ((65 <=? n) && (n <=? 70))%N then Some (n - 55)%N
  else None.

Definition decode_uXXXX (s : string) : option (N * string) :=
  match s with
  | String a (String b (String c (String d r))) =>
      match hex_value a, hex_value b, hex_value c, hex_value d with
      | Some x3, Some x2, Some x1, Some x0 =>
          Some (x3 * 4096 + x2 * 256 + x1 * 16 + x0, r)%N
      | _, _, _, _ => None
      end
  | _ => None
  end.

Definition byte (n : N) : string := String (ascii_of_N n) EmptyString.

(** The UTF-8 bytes of a code point (a lone surrogate is written in the
    same three-byte form). *)
Definition utf8 (n : N) : string :=
  (if n <? 128 then byte n
   else if n <? 2048 then byte (192 + n / 64) ++ byte (128 + n mod 64)
   else if n <? 65536 then
          byte (224 + n / 4096) ++ byte (128 + (n / 64) mod 64)
          ++ byte (128 + n mod 64)
   else byte (240 + n / 262144) ++ byte (128 + (n / 4096) mod 64)
        ++ byte (128 + (n / 64) mod 64) ++ byte (128 + n mod 64))%N.

(** The [BACKSLASH] table. *)
Definition unescape (c : ascii) : option string :=
  let n := code c in
  (if n =? 34 then Some (byte 34)
   else if n =? 92 then Some (byte 92)
   else if n =? 47 then Some (byte 47)
   else if n =? 98 then Some (byte 8)
   else if n =? 102 then Some (byte 12)
   else if n =? 110 then Some (byte 10)
   else if n =? 114 then Some (byte 13)
   else if n =? 116 then Some (byte 9)
   else None)%N.

(** [s] starts right after the opening quote; the result is the decoded
    text and what follows the closing quote. *)
Fixpoint py_scanstring (fuel : nat) (s acc : string)
  : option (string * string) :=
  match fuel with
  | O => None
  | S f =>
      match s with
      | EmptyString => None
      | String c r =>
          if Ascii.eqb c dquote then Some (acc, r)
          else if Ascii.eqb c backslash then
            match r with
            | EmptyString => None
            | String esc r1 =>
                if Ascii.eqb esc "u" then
                  match decode_uXXXX r1 with
                  | None => None
                  | Some (uni, r2) =>
                      if ((55296 <=? uni) && (uni <=? 56319))%N then
                        match strip_prefix (String backslash "u") r2 with
                        | Some r3 =>
                            match decode_uXXXX r3 with
                            | None => None
                            | Some (uni2, r4) =>
                                if ((56320 <=? uni2) && (uni2 <=? 57343))%N
                                then py_scanstring f r4
                                       (acc ++ utf8 (65536
                                          + ((uni - 55296) * 1024
                                             + (uni2 - 56320))))%N
                                else py_scanstring f r2 (acc ++ utf8 uni)
                            end
                        | None => py_scanstring f r2 (acc ++ utf8 uni)
                        end
                      else py_scanstring f r2 (acc ++ utf8 uni)
                  end
                else
                  match unescape esc with
                  | Some ch => py_scanstring f r1 (acc ++ ch)
                  | None => None
                  end
            end
          else if (code c <? 32)%N then None
          else py_scanstring f r (acc ++ String c EmptyString)
      end
  end.

Definition scanstring (s : string) : option (string * string) :=
  py_scanstring (S (String.length s)) s EmptyString.

(** *** Values: [py_make_scanner], [JSONArray], [JSONObject] *)

Definition starts (c : ascii) (s : string) : option string :=
  match s with
  | String c' r => if Ascii.eqb c c' then Some r else None
  | EmptyString => None
  end.

Definition constant (s : string) : option (json * string) :=
  match strip_prefix "NaN" s with
  | Some r => Some (JFloat "NaN", r)
  | None =>
      match strip_prefix "Infinity" s with
      | Some r => Some (JFloat "Infinity", r)
      | None =>
          match strip_prefix "-Infinity" s with
          | Some r => Some (JFloat "-Infinity", r)
          | None => None
          end
      end
  end.

Definition scalar (s : string) : option (json * string) :=
  match strip_prefix "null" s with
  | Some r => Some (JNull, r)
  | None =>
      match strip_prefix "true" s with
      | Some r => Some (JBool true, r)
      | None =>
          match strip_prefix "false" s with
          | Some r => Some (JBool false, r)
          | None =>
              match match_number s with
              | Some v => Some v
              | None => constant s
              end
          end
      end
  end.

Fixpoint scan_once (fuel : nat) (s : string) : option (json * string) :=
  match fuel with
  | O => None
  | S f =>
      match s with
      | EmptyString => None
      | String c r =>
          if Ascii.eqb c dquote then
            match scanstring r with
            | Some (v, rest) => Some (JStr v, rest)
            | None => None
            end
          else if Ascii.eqb c "{" then
            let r1 := skip_ws r in
            match starts "}" r1 with
            | Some rest => Some (JObj [], rest)
            | None =>
                match starts dquote r1 with
                | Some r2 => object_items f r2 []
                | None => None
                end
            end
          else if Ascii.eqb c "[" then
            let r1 := skip_ws r in
            match starts "]" r1 with
            | Some rest => Some (JArr [], rest)
            | None => array_items f r1 []
            end
          else scalar s
      end
  end

with array_items (fuel : nat) (s : string) (values : list json)
  : option (json * string) :=
  match fuel with
  | O => None
  | S f =>
      match scan_once f s with
      | None => None
      | Some (value, r) =>
          let r1 := skip_ws r in
          match starts "]" r1 with
          | Some rest => Some (JArr (values ++ [value])%list, rest)
          | None =>
              match starts "," r1 with
              | Some r2 => array_items f (skip_ws r2) (values ++ [value])%list
              | None => None
              end
          end
      end
  end

with object_items (fuel : nat) (s : string) (pairs : list (string * json))
  : option (json * string) :=
  match fuel with
  | O => None
  | S f =>
      match scanstring s with
      | None => None
      | Some (key, r) =>
          match starts ":" (skip_ws r) with
          | None => None
          | Some r1 =>
              match scan_once f (skip_ws r1) with
              | None => None
              | Some (value, r2) =>
                  let r3 := skip_ws r2 in
                  match starts "}" r3 with
                  | Some rest => Some (JObj (dict_set key value pairs), rest)
                  | None =>
                      match starts "," r3 with
                      | None => None
                      | Some r4 =>
                          match starts dquote (skip_ws r4) with
                          | Some r5 =>
                              object_items f r5 (dict_set key value pairs)
                          | None => None
                          end
                      end
                  end
              end
          end
      end
  end.

(** [json.loads]: [None] stands for a raised [JSONDecodeError]. *)
Definition loads (s : string) : option json :=
  match scan_once (S (String.length s)) (skip_ws s) with
  | Some (v, r) =>
      match skip_ws r with
      | EmptyString => Some v
      | String _ _ => None
      end
  | None => None
  end.

End Json.

Definition json_loads := Json.loads.


(* ================================================================= *)
(** ** Python values, exceptions and the message data model *)

(** The exceptions the program can meet.  [ServiceError] stands for
    whatever an external service raises. *)
Inductive exn : Type :=
| JSONDecodeError
| IndexError
| KeyError
| TypeError
| AttributeError
| RerunException
| ServiceError (msg : string).

(** What a call of an external operation yields. *)
Inductive reply (A : Type) : Type :=
| Ok (a : A)
| Fail (e : exn).
Arguments Ok {A} a.
Arguments Fail {A} e.

Inductive Role : Type := user | assistant.

Record ToolUse : Type := mkToolUse {
  toolUseId : string;
  name : string;
  input : json
}.

Record ToolResultBlock : Type := mkToolResult {
  tr_toolUseId : string;
  tr_content : list string      (* the text of each [{"text": ...}] *)
}.

Inductive ContentBlock : Type :=
| text (s : string)
| toolUse (t : ToolUse)
| toolResult (r : ToolResultBlock).

Record Message : Type := mkMessage {
  role : Role;
  content : list ContentBlock
}.

(** An entry of the tool catalog; the loops pass the catalog through. *)
Record ToolSpec : Type := mkToolSpec {
  tool_name : string;
  description : string;
  inputSchema : json
}.

(** The keyword arguments of [bedrock_client.converse]. *)
Record ConverseRequest : Type := mkRequest {
  modelId : string;
  messages : list Message;
  system : string;
  toolConfig : list ToolSpec
}.

(** [response['stopReason']] and [response['output']['message']]. *)
Record Response : Type := mkResponse {
  stopReason : string;
  output_message : Message
}.

(** The value of [mcp_client.call_tool]: [content] holds the [text] of
    each content element. *)
Record CallToolResult : Type := mkCallToolResult {
  cr_content : list string
}.

(** [st.session_state]: [None] is a key that is not set. *)
Record SessionState : Type := mkSession {
  is_running : option bool;
  should_cancel : option bool
}.

(** The widgets of one script run: the text area and the two buttons. *)
Record Widgets : Type := mkWidgets {
  query_text : string;
  run_clicked : bool;
  cancel_clicked : bool
}.

(* ================================================================= *)
(** ** External collaborators *)

(** pandas: [pd.DataFrame(data)] on a list, which may raise. *)
Class Pandas : Type := {
  DataFrame : Type;
  pd_DataFrame : list json -> reply DataFrame
}.

(** The Bedrock gateway and the MCP client, as transitions of a world
    that the program cannot inspect. *)
Class Services : Type := {
  World : Type;
  converse : World -> ConverseRequest -> reply Response * World;
  call_tool : World -> string -> json -> reply CallToolResult * World;
  list_all_tools : World -> reply (list ToolSpec) * World;
  mcp_enter : World -> reply unit * World
}.

(* ================================================================= *)
(** ** Result shaping: [format_sql_result] *)

(** The values [format_sql_result] can return: a data frame, a [str], or
    [None]. *)
Inductive formatted `{Pandas} : Type :=
| Frame (df : DataFrame)
| Text (s : string)
| PyNone.

(** The body of the [try]: [Ok None] is reaching the end of the block
    without a [return]. *)
Definition format_sql_result_try `{Pandas} (result_text : string)
  : reply (option DataFrame) :=
  match json_loads result_text with
  | None => Fail JSONDecodeError
  | Some data =>
      match data with
      | JArr (x :: l) =>                 (* isinstance(data, list), len > 0 *)
          match pd_DataFrame (x :: l) with
          | Ok df => Ok (Some df)
          | Fail e => Fail e
          end
      | _ => Ok None
      end
  end.

(** The bare [except:] turns every exception of the body into the
    original text; a body that falls through leaves the function at its
    end, which returns [None]. *)
Definition format_sql_result `{Pandas} (result_text : string)
  : reply formatted :=
  match format_sql_result_try result_text with
  | Ok (Some df) => Ok (Frame df)
  | Ok None => Ok PyNone
  | Fail _ => Ok (Text result_text)
  end.

(* ================================================================= *)
(** ** Runs: state, exceptions and the log of external requests *)

(** How a piece of the program ends: with a value, with an exception,
    or still running when the fuel of the model is spent. *)
Inductive outcome (A : Type) : Type :=
| Returns (a : A)
| Raises (e : exn)
| OutOfFuel.
Arguments Returns {A} a.
Arguments Raises {A} e.
Arguments OutOfFuel {A}.

(** How the body of a [while True:] loop ends: it falls through to the
    next iteration or leaves the loop by [break]. *)
Inductive control (L : Type) : Type :=
| Continue (locals : L)
| Break (locals : L).
Arguments Continue {L} locals.
Arguments Break {L} locals.

Section Program.

Context `{Pandas} `{Services}.

(** What the user interface is asked to show.  Spinners, expanders and
    page layout show nothing of the data and are left out. *)
Inductive display : Type :=
| StMarkdown (body : string)
| StCode (body : json)
| StDataframe (df : DataFrame)
| StWrite (v : formatted)
| StWarning (body : string)
| StRerun.

(** The log of a run: every request that leaves the program, with its
    answer, and everything shown to the user, in order.  A [Converse]
    entry holds the request as it is when the call is made: its
    [messages] are the contents of [message_list] at that moment. *)
Inductive event : Type :=
| Converse (request : ConverseRequest) (response : reply Response)
| CallTool (tool : string) (arguments : json) (result : reply CallToolResult)
| ListTools (result : reply (list ToolSpec))
| McpEnter (result : reply unit)
| McpExit
| Display (d : display).

(** What a run can change: the world behind the services and the
    session state of Streamlit. *)
Record State : Type := mkState {
  world : World;
  session : SessionState
}.

Record run (A : Type) : Type := mkRun {
  result : outcome A;
  state_after : State;
  events : list event
}.
Arguments mkRun {A}.
Arguments result {A}.
Arguments state_after {A}.
Arguments events {A}.

Definition M (A : Type) : Type := State -> run A.

Definition ret {A} (a : A) : M A := fun s => mkRun (Returns a) s [].
Definition raise {A} (e : exn) : M A := fun s => mkRun (Raises e) s [].
Definition out_of_fuel {A} : M A := fun s => mkRun OutOfFuel s [].

Definition bind {A B} (m : M A) (f : A -> M B) : M B :=
  fun s =>
    let r := m s in
    match result r with
    | Returns a =>
        let r' := f a (state_after r) in
        mkRun (result r') (state_after r') (events r ++ events r')
    | Raises e => mkRun (Raises e) (state_after r) (events r)
    | OutOfFuel => mkRun OutOfFuel (state_after r) (events r)
    end.

Notation "x <- m ;; k" := (bind m (fun x => k))
  (at level 61, m at next level, right associativity).
Notation "m ;; k" := (bind m (fun _ => k))
  (at level 61, right associativity).

Definition emit (e : event) : M unit := fun s => mkRun (Returns tt) s [e].

Definition of_reply {A} (r : reply A) : outcome A :=
  match r with Ok a => Returns a | Fail e => Raises e end.

(** A request to a service: the world moves on and the exchange is
    logged. *)
Definition request {A} (call : World -> reply A * World)
           (log : reply A -> event) : M A :=
  fun s =>
    let (r, w) := call (world s) in
    mkRun (of_reply r) (mkState w (session s)) [log r].

Definition bedrock_converse (req : ConverseRequest) : M Response :=
  request (fun w => converse w req) (Converse req).

Definition mcp_call_tool (tool_name : string) (tool_input : json)
  : M CallToolResult :=
  request (fun w => call_tool w tool_name tool_input)
          (CallTool tool_name tool_input).

Definition mcp_list_all_tools : M (list ToolSpec) :=
  request list_all_tools ListTools.

(** [tool_result.content[0].text] *)
Definition first_text (tool_result : CallToolResult) : M string :=
  match cr_content tool_result with
  | t :: _ => ret t
  | [] => raise IndexError
  end.

(** [value[key]] for a [str] key. *)
Definition subscript (value : json) (key : string) : M json :=
  match value with
  | JObj members =>
      match Json.dict_get key members with
      | Some v => ret v
      | None => raise KeyError
      end
  | _ => raise TypeError
  end.

(** [while True:] run for at most [fuel] iterations; a loop that is
    still running then ends the model's run with [OutOfFuel]. *)
Fixpoint while_true {L} (body : L -> M (control L)) (fuel : nat) (locals : L)
  : M L :=
  match fuel with
  | O => out_of_fuel
  | S fuel' =>
      c <- body locals ;;
      match c with
      | Break locals' => ret locals'
      | Continue locals' => while_true body fuel' locals'
      end
  end.

(** [for x in xs:] with a body that updates the locals. *)
Fixpoint for_each {X L} (body : X -> L -> M L) (xs : list X) (locals : L)
  : M L :=
  match xs with
  | [] => ret locals
  | x :: rest =>
      locals' <- body x locals ;;
      for_each body rest locals'
  end.

Definition model_id : string :=
  "us.anthropic.claude-3-7-sonnet-20250219-v1:0".

Definition user_text (s : string) : Message :=
  mkMessage user [text s].

(** The message that answers one tool request. *)
Definition tool_result_message (tool_id result_text : string) : Message :=
  mkMessage user [toolResult (mkToolResult tool_id [result_text])].

(* --------------------------------------------------------------- *)
(** *** [get_table_info] *)

Definition table_info_system_prompt : string :=
"PostgreSQL 데이터베이스의 테이블 정보를 조회합니다.
다음 SQL 쿼리를 사용하여 테이블 정보를 조회해주세요:

SELECT
    t.table_name,
    c.column_name,
    c.data_type,
    c.is_nullable
FROM
    information_schema.tables t
    JOIN information_schema.columns c ON t.table_name = c.table_name
WHERE
    t.table_schema = 'public'
ORDER BY
    t.table_name,
    c.ordinal_position;

결과는 반드시 JSON 배열 형태로 반환해주세요.".

(** The body of [for tool_request in tool_requests]; the locals it
    updates are [message_list] and [table_info]. *)
Definition get_table_info_tool (tool_request : ContentBlock)
           (locals : list Message * string) : M (list Message * string) :=
  let (message_list, table_info) := locals in
  match tool_request with
  | toolUse tool =>
      let tool_id := toolUseId tool in
      let tool_name := name tool in
      let tool_input := input tool in
      tool_result <- mcp_call_tool tool_name tool_input ;;
      table_info <- first_text tool_result ;;
      ret (message_list ++ [tool_result_message tool_id table_info],
           table_info)
  | _ => ret (message_list, table_info)
  end.

(** One iteration of the [while True] loop. *)
Definition get_table_info_turn (tools : list ToolSpec)
           (locals : list Message * string)
  : M (control (list Message * string)) :=
  let (message_list, table_info) := locals in
  response <- bedrock_converse
                (mkRequest model_id message_list
                           table_info_system_prompt tools) ;;
  if negb (stopReason response =? "tool_use")%string
  then ret (Break (message_list, table_info))
  else
    let tool_requests := content (output_message response) in
    let message_list := message_list ++ [output_message response] in
    locals' <- for_each get_table_info_tool tool_requests
                        (message_list, table_info) ;;
    ret (Continue locals').

(** The text of the first message: the f-string around the request. *)
Definition table_info_request (query_request : string) : string :=
  ("다음 요청과 관련된 테이블 정보를 조회해주세요: " ++ query_request)%string.

(** The loop of [get_table_info], with the locals it ends with:
    [message_list] and [table_info]. *)
Definition get_table_info_loop (fuel : nat) (tools : list ToolSpec)
           (query_request : string) : M (list Message * string) :=
  let message_list := [user_text (table_info_request query_request)] in
  let table_info := ""%string in
  while_true (get_table_info_turn tools) fuel (message_list, table_info).

Definition get_table_info (fuel : nat) (tools : list ToolSpec)
           (query_request : string) : M string :=
  locals <- get_table_info_loop fuel tools query_request ;;
  ret (snd locals).

(* --------------------------------------------------------------- *)
(** *** [process_query] *)

Definition show_result (shaped : formatted) : M unit :=
  match shaped with
  | Frame df => emit (Display (StDataframe df))
  | other => emit (Display (StWrite other))
  end.

(** [format_sql_result] is a plain function call: it leaves the state
    alone and logs nothing. *)
Definition call_format_sql_result (result_text : string) : M formatted :=
  fun s => mkRun (of_reply (format_sql_result result_text)) s [].

(** The body of [for tool_request in tool_requests]; [message_list] is
    the local it updates. *)
Definition process_query_tool (tool_request : ContentBlock)
           (message_list : list Message) : M (list Message) :=
  match tool_request with
  | toolUse tool =>
      let tool_id := toolUseId tool in
      let tool_name := name tool in
      let tool_input := input tool in
      emit (Display (StMarkdown "---")) ;;
      emit (Display (StMarkdown "### 실행 쿼리")) ;;
      sql <- subscript tool_input "sql" ;;
      emit (Display (StCode sql)) ;;
      tool_result <- mcp_call_tool tool_name tool_input ;;
      emit (Display (StMarkdown "---")) ;;
      emit (Display (StMarkdown "### 실행 결과")) ;;
      result_text <- first_text tool_result ;;
      shaped <- call_format_sql_result result_text ;;
      show_result shaped ;;
      result_text <- first_text tool_result ;;
      ret (message_list ++ [tool_result_message tool_id result_text])
  | _ => ret message_list
  end.

(** The texts of the assistant message, each under a rule. *)
Fixpoint show_texts (blocks : list ContentBlock) : M unit :=
  match blocks with
  | [] => ret tt
  | text s :: rest =>
      emit (Display (StMarkdown "---")) ;;
      emit (Display (StMarkdown s)) ;;
      show_texts rest
  | _ :: rest => show_texts rest
  end.

Definition process_query_turn (tools : list ToolSpec) (system_prompt : string)
           (message_list : list Message) : M (control (list Message)) :=
  response <- bedrock_converse
                (mkRequest model_id message_list system_prompt tools) ;;
  show_texts (content (output_message response)) ;;
  if negb (stopReason response =? "tool_use")%string
  then ret (Break message_list)
  else
    let tool_requests := content (output_message response) in
    let message_list := message_list ++ [output_message response] in
    message_list <- for_each process_query_tool tool_requests message_list ;;
    ret (Continue message_list).

(** [process_query], with the local [message_list] it ends with: [None]
    when the function returned before building one. *)
Definition process_query_loop (fuel : nat) (prompt : string)
           (tools : list ToolSpec) (system_prompt : string)
  : M (option (list Message)) :=
  if (prompt =? "")%string then ret None
  else
    message_list <- while_true (process_query_turn tools system_prompt)
                               fuel [user_text prompt] ;;
    ret (Some message_list).

Definition process_query (fuel : nat) (prompt : string)
           (tools : list ToolSpec) (system_prompt : string) : M unit :=
  process_query_loop fuel prompt tools system_prompt ;;
  ret tt.

(* --------------------------------------------------------------- *)
(** *** [main]: one run of the Streamlit script *)

Definition get_session : M SessionState :=
  fun s => mkRun (Returns (session s)) s [].

Definition put_session (ss : SessionState) : M unit :=
  fun s => mkRun (Returns tt) (mkState (world s) ss) [].

(** Reading [st.session_state.<key>]. *)
Definition read_flag (key : SessionState -> option bool) : M bool :=
  ss <- get_session ;;
  match key ss with
  | Some b => ret b
  | None => raise AttributeError
  end.

Definition set_is_running (b : bool) : M unit :=
  ss <- get_session ;;
  put_session (mkSession (Some b) (should_cancel ss)).

Definition set_should_cancel (b : bool) : M unit :=
  ss <- get_session ;;
  put_session (mkSession (is_running ss) (Some b)).

(** [if key not in st.session_state: st.session_state.key = False] *)
Definition init_session : M unit :=
  ss <- get_session ;;
  put_session
    (mkSession
       (match is_running ss with None => Some false | set => set end)
       (match should_cancel ss with None => Some false | set => set end)).

(** [st.rerun()] stops the script by raising. *)
Definition st_rerun {A} : M A :=
  emit (Display StRerun) ;; raise RerunException.

(** [st.button]: a disabled button is never reported as clicked. *)
Definition st_button (clicked disabled : bool) : bool :=
  clicked && negb disabled.

(** [async with MultiMCPClient(...) as mcp_client:] entering may fail,
    and then the block is not run; the connection is released however
    the block is left. *)
Definition with_mcp_client {A} (block : M A) : M A :=
  request mcp_enter McpEnter ;;
  fun s =>
    let r := block s in
    match result r with
    | OutOfFuel => r
    | _ => mkRun (result r) (state_after r) (events r ++ [McpExit])
    end.

Definition cancelled : M unit :=
  emit (Display (StWarning "쿼리 실행이 취소되었습니다.")) ;;
  set_is_running false ;;
  st_rerun.

Definition query_system_prompt (table_info : string) : string :=
  ("다음은 요청하신 쿼리와 관련된 테이블 구조입니다:

" ++ table_info ++ "

위 테이블 구조를 참고하여 사용자의 요청에 맞는 SQL SELECT 쿼리를 생성해주세요.
생성된 쿼리는 실제 실행 가능해야 합니다.
WHERE 절이나 조건문에는 적절한 임의의 값을 사용해주세요. (예: id = '123', date = '2024-03-21' 등)
CREATE나 INSERT 문은 생성하지 말고, SELECT 문만 작성해주세요.
결과는 반드시 JSON 배열 형태로 반환해주세요.")%string.

(** The block under [if st.session_state.is_running and query:]. *)
Definition run_body (fuel : nat) (query : string) : M unit :=
  with_mcp_client
    (tools <- mcp_list_all_tools ;;
     cancel <- read_flag should_cancel ;;
     if cancel then cancelled
     else
       table_info <- get_table_info fuel tools query ;;
       cancel <- read_flag should_cancel ;;
       if cancel then cancelled
       else
         emit (Display (StMarkdown "---")) ;;
         emit (Display (StMarkdown "### 테이블 구조")) ;;
         emit (Display (StCode (JStr table_info))) ;;
         let system_prompt := query_system_prompt table_info in
         process_query fuel query tools system_prompt ;;
         set_is_running false ;;
         st_rerun).

(** One run of the script.  The page configuration, the title, the
    construction of the Bedrock client and [print(tools)] make no
    request and show no data of the run; they are left out. *)
Definition main (fuel : nat) (widgets : Widgets) : M unit :=
  emit (Display (StWrite
                   (Text "테이블 구조를 기반으로 SQL 쿼리를 생성하고 실행합니다."))) ;;
  init_session ;;
  let query := query_text widgets in
  running <- read_flag is_running ;;
  (if st_button (run_clicked widgets) running
   then set_is_running true ;; set_should_cancel false ;; st_rerun
   else ret tt) ;;
  running <- read_flag is_running ;;
  (if running
   then if st_button (cancel_clicked widgets) false
        then set_should_cancel true ;; set_is_running false ;; st_rerun
        else ret tt
   else ret tt) ;;
  running <- read_flag is_running ;;
  if running && negb (query =? "")%string
  then run_body fuel query
  else ret tt.

End Program.

Arguments mkRun {_ _ A} result state_after events.
Arguments result {_ _ A} r.
Arguments state_after {_ _ A} r.
Arguments events {_ _ A} r.

Notation "x <- m ;; k" := (bind m (fun x => k))
  (at level 61, m at next level, right associativity).
Notation "m ;; k" := (bind m (fun _ => k))
  (at level 61, right associativity).

(* ================================================================= *)
(** ** Reading a log and a transcript *)

Section Observers.

Context `{Pandas}.

(** The requests sent to the gateway, in order. *)
Definition gateway_calls (evs : list event) : list ConverseRequest :=
  flat_map (fun ev => match ev with Converse req _ => [req] | _ => [] end) evs.

(** The tool invocations sent to the executor, in order. *)
Definition executor_calls (evs : list event) : list (string * json) :=
  flat_map (fun ev => match ev with
                      | CallTool tool arguments _ => [(tool, arguments)]
                      | _ => []
                      end) evs.

(** The log without what was only shown to the user. *)
Definition requests (evs : list event) : list event :=
  filter (fun ev => match ev with Display _ => false | _ => true end) evs.

(** The text of each tool result that came back with one. *)
Definition tool_result_texts (evs : list event) : list string :=
  flat_map (fun ev => match ev with
                      | CallTool _ _ (Ok res) =>
                          match cr_content res with
                          | t :: _ => [t]
                          | [] => []
                          end
                      | _ => []
                      end) evs.

(** A log in which no tool invocation failed. *)
Definition no_failed_call (evs : list event) : Prop :=
  Forall (fun ev => match ev with
                    | CallTool _ _ (Fail _) => False
                    | _ => True
                    end) evs.

(** A log in which every message the gateway returned is an assistant
    message. *)
Definition assistant_replies (evs : list event) : Prop :=
  Forall (fun ev => match ev with
                    | Converse _ (Ok response) =>
                        role (output_message response) = assistant
                    | _ => True
                    end) evs.

End Observers.

Definition tool_uses (blocks : list ContentBlock) : list ToolUse :=
  flat_map (fun b => match b with toolUse t => [t] | _ => [] end) blocks.

Definition tool_results (blocks : list ContentBlock) : list ToolResultBlock :=
  flat_map (fun b => match b with toolResult r => [r] | _ => [] end) blocks.

(** The [toolUse] blocks of the assistant messages of a transcript. *)
Definition transcript_tool_uses (t : list Message) : list ToolUse :=
  flat_map (fun m => match role m with
                     | assistant => tool_uses (content m)
                     | user => []
                     end) t.

(** The [toolResult] blocks of the user messages of a transcript. *)
Definition transcript_tool_results (t : list Message) : list ToolResultBlock :=
  flat_map (fun m => match role m with
                     | user => tool_results (content m)
                     | assistant => []
                     end) t.

(** The ids of the tool requests and of the tool results of a transcript,
    in order. *)
Definition tool_use_ids (t : list Message) : list string :=
  map toolUseId (transcript_tool_uses t).

Definition tool_result_ids (t : list Message) : list string :=
  map tr_toolUseId (transcript_tool_results t).


(** The [toolResult] blocks of a transcript that answer a given id. *)
Definition answers_to (id : string) (t : list Message) : list ToolResultBlock :=
  filter (fun r => (tr_toolUseId r =? id)%string) (transcript_tool_results t).

(** The messages that answer the tool requests [uses] with the results
    [results]: one user message per request. *)
Definition answer_messages (uses : list ToolUse)
           (results : list CallToolResult) : list Message :=
  map (fun ur => tool_result_message (toolUseId (fst ur))
                                     (hd ""%string (cr_content (snd ur))))
      (combine uses results).

(** The log entry of a tool invocation that was answered. *)
Definition answered_call `{Pandas} (ur : ToolUse * CallToolResult) : event :=
  CallTool (name (fst ur)) (input (fst ur)) (Ok (snd ur)).

(** The single user message that would carry all the results of a turn. *)
Definition bundled_results (uses : list ToolUse) (texts : list string)
  : Message :=
  mkMessage user
    (map (fun ut => toolResult (mkToolResult (toolUseId (fst ut)) [snd ut]))
         (combine uses texts)).

(** The transcript after a turn, were the results of the turn bundled. *)
Definition results_bundled (before : list Message) (reply_message : Message)
           (after : list Message) : Prop :=
  exists texts,
    length texts = length (tool_uses (content reply_message)) /\
    after = before ++ [reply_message;
                       bundled_results (tool_uses (content reply_message))
                                       texts].

(* ================================================================= *)
(** ** A scripted world *)

(** The gateway and the executor answer from lists, whatever they are
    asked; a list that has run out answers with an error. *)
Record Script : Type := mkScript {
  gateway_script : list (reply Response);
  executor_script : list (reply CallToolResult);
  catalog : reply (list ToolSpec)
}.

Definition next_reply {A} (l : list (reply A)) : reply A * list (reply A) :=
  match l with
  | r :: rest => (r, rest)
  | [] => (Fail (ServiceError "script exhausted"), [])
  end.

Definition scripted : Services := {|
  World := Script;
  converse := fun w _ =>
    let (r, rest) := next_reply (gateway_script w) in
    (r, mkScript rest (executor_script w) (catalog w));
  call_tool := fun w _ _ =>
    let (r, rest) := next_reply (executor_script w) in
    (r, mkScript (gateway_script w) rest (catalog w));
  list_all_tools := fun w => (catalog w, w);
  mcp_enter := fun w => (Ok tt, w)
|}.

(** A stand-in for pandas that keeps the records as they are. *)
Definition rows : Pandas := {|
  DataFrame := list json;
  pd_DataFrame := fun data => Ok data
|}.

Definition sql_input (query : string) : json :=
  JObj [("sql"%string, JStr query)].

Definition first_tool_use : ToolUse :=
  mkToolUse "t1" "query" (sql_input "SELECT 1").

Definition two_tools_message : Message :=
  mkMessage assistant
    [text "looking up";
     toolUse first_tool_use;
     toolUse (mkToolUse "t2" "query" (sql_input "SELECT 2"))].

Definition final_message : Message := mkMessage assistant [text "done"].

Definition text_result (s : string) : reply CallToolResult :=
  Ok (mkCallToolResult [s]).

(** The gateway asks for two tools in one turn and then stops. *)
Definition two_tools_world : Script :=
  mkScript [Ok (mkResponse "tool_use" two_tools_message);
            Ok (mkResponse "end_turn" final_message)]
           [text_result "first"; text_result "second"]
           (Ok []).

(** The gateway stops at once. *)
Definition no_tool_world : Script :=
  mkScript [Ok (mkResponse "end_turn" final_message)] [] (Ok []).

(** The first tool invocation fails. *)
Definition failing_tool_world : Script :=
  mkScript [Ok (mkResponse "tool_use" two_tools_message);
            Ok (mkResponse "end_turn" final_message)]
           [Fail (ServiceError "connection lost"); text_result "second"]
           (Ok []).

Definition start_state (w : Script) (ss : SessionState)
  : @State scripted :=
  @mkState scripted w ss.

Definition idle : SessionState := mkSession (Some false) (Some false).

Definition q_transcript : list Message := [user_text "q"].

(** The transcript after the turn of [two_tools_world]. *)
Definition two_tools_transcript : list Message :=
  [user_text "q"; two_tools_message;
   tool_result_message "t1" "first"; tool_result_message "t2" "second"].

Definition two_tools_state : @State scripted :=
  start_state two_tools_world idle.


Definition no_tool_state : @State scripted := start_state no_tool_world idle.

Definition failing_tool_state : @State scripted :=
  start_state failing_tool_world idle.


(** A session in which a run was started and cancellation is set. *)
Definition cancelled_state : @State scripted :=
  start_state two_tools_world (mkSession (Some true) (Some true)).

Definition q_widgets : Widgets := mkWidgets "q" false false.

(** The second gateway call of each loop in [two_tools_world]. *)
Definition second_table_info_request : ConverseRequest :=
  mkRequest model_id
            (user_text (table_info_request "q") :: tl two_tools_transcript)
            table_info_system_prompt [].

Definition second_query_request : ConverseRequest :=
  mkRequest model_id two_tools_transcript "sys" [].

Definition final_reply : reply Response :=
  Ok (mkResponse "end_turn" final_message).

(** The executor answers with two content elements. *)
Definition two_elements_state : @State scripted :=
  start_state (mkScript [] [Ok (mkCallToolResult ["first"; "more"])] (Ok []))
              idle.


(* ================================================================= *)
(** ** The protocol of the loops, as relations on transcripts and logs

    Both loops follow one protocol.  The relations below describe it in
    terms of the transcript and of the requests that leave the program;
    the two loops are shown to follow them, and the properties of the
    transcript are then proved once. *)

Definition outcome_map {A B} (f : A -> B) (o : outcome A) : outcome B :=
  match o with
  | Returns a => Returns (f a)
  | Raises e => Raises e
  | OutOfFuel => OutOfFuel
  end.

Definition control_map {A B} (f : A -> B) (c : control A) : control B :=
  match c with
  | Continue a => Continue (f a)
  | Break a => Break (f a)
  end.

Section Protocol.

Context `{Pandas}.

(** One request of the [for] loop, from the transcript [ml]. *)
Inductive tool_step (ml : list Message)
  : ContentBlock -> outcome (list Message) -> list event -> Prop :=
| step_text s :
    tool_step ml (text s) (Returns ml) []
| step_result r :
    tool_step ml (toolResult r) (Returns ml) []
| step_refused u e :
    tool_step ml (toolUse u) (Raises e) []
| step_failed u e :
    tool_step ml (toolUse u) (Raises e)
              [CallTool (name u) (input u) (Fail e)]
| step_empty u res :
    cr_content res = [] ->
    tool_step ml (toolUse u) (Raises IndexError)
              [CallTool (name u) (input u) (Ok res)]
| step_answered u res t more :
    cr_content res = t :: more ->
    tool_step ml (toolUse u)
              (Returns (ml ++ [tool_result_message (toolUseId u) t]))
              [CallTool (name u) (input u) (Ok res)].

(** The [for] loop over the content of an assistant message. *)
Inductive tools_run
  : list Message -> list ContentBlock -> outcome (list Message) ->
    list event -> Prop :=
| tools_done ml :
    tools_run ml [] (Returns ml) []
| tools_next ml x xs ml1 ev1 o ev2 :
    tool_step ml x (Returns ml1) ev1 ->
    tools_run ml1 xs o ev2 ->
    tools_run ml (x :: xs) o (ev1 ++ ev2)
| tools_raise ml x xs e ev :
    tool_step ml x (Raises e) ev ->
    tools_run ml (x :: xs) (Raises e) ev.

(** One iteration of the [while] loop. *)
Inductive turn_step (ml : list Message)
  : outcome (control (list Message)) -> list event -> Prop :=
| turn_gateway_failed req e :
    messages req = ml ->
    turn_step ml (Raises e) [Converse req (Fail e)]
| turn_break req response :
    messages req = ml ->
    stopReason response <> "tool_use"%string ->
    turn_step ml (Returns (Break ml)) [Converse req (Ok response)]
| turn_tools req response ml' evs :
    messages req = ml ->
    stopReason response = "tool_use"%string ->
    tools_run (ml ++ [output_message response])
              (content (output_message response)) (Returns ml') evs ->
    turn_step ml (Returns (Continue ml')) (Converse req (Ok response) :: evs)
| turn_tools_raise req response e evs :
    messages req = ml ->
    stopReason response = "tool_use"%string ->
    tools_run (ml ++ [output_message response])
              (content (output_message response)) (Raises e) evs ->
    turn_step ml (Raises e) (Converse req (Ok response) :: evs).

(** The [while] loop. *)
Inductive loop_run
  : list Message -> outcome (list Message) -> list event -> Prop :=
| loop_out_of_fuel ml :
    loop_run ml OutOfFuel []
| loop_break ml ml' evs :
    turn_step ml (Returns (Break ml')) evs ->
    loop_run ml (Returns ml') evs
| loop_continue ml ml1 ev1 o ev2 :
    turn_step ml (Returns (Continue ml1)) ev1 ->
    loop_run ml1 o ev2 ->
    loop_run ml o (ev1 ++ ev2)
| loop_raise ml e evs :
    turn_step ml (Raises e) evs ->
    loop_run ml (Raises e) evs.

End Protocol.

(** A log and an outcome in which a failed tool invocation, if there is
    one, is the last entry and is what the program raised. *)
Definition failure_is_final `{Pandas} {A} (o : outcome A) (evs : list event)
  : Prop :=
  no_failed_call evs \/
  exists pre tool arguments e,
    evs = pre ++ [CallTool tool arguments (Fail e)] /\
    no_failed_call pre /\
    o = Raises e.


(** The relation between the locals of [get_table_info] before and after
    a piece of the loop that logged [evs]. *)
Definition keeps_last_text `{Pandas} (l : list Message * string) (evs : list event)
           (l' : list Message * string) : Prop :=
  snd l' = last (tool_result_texts evs) (snd l).

(** A program meets a specification when every run of it does. *)
Definition sat `{Pandas} `{Services} {A} (m : M A)
           (Q : outcome A -> list event -> Prop) : Prop :=
  forall s, Q (result (m s)) (events (m s)).

(** The same for one start state, with the state the run ends in. *)
Definition wp `{Pandas} `{Services} {A} (m : M A)
           (Q : outcome A -> State -> list event -> Prop) (s : State) : Prop :=
  Q (result (m s)) (state_after (m s)) (events (m s)).

(** What a run of [main] that starts cancelled must look like: no
    gateway call, no executor call, no loop left running, and, once the
    tool catalog was listed, the warning and a rerun. *)
Definition no_call_made `{Pandas} (o : outcome unit) (evs : list event)
  : Prop :=
  gateway_calls evs = [] /\
  executor_calls evs = [] /\
  o <> OutOfFuel /\
  (forall tools,
      In (ListTools (Ok tools)) evs ->
      o = Raises RerunException /\
      In (Display (StWarning "쿼리 실행이 취소되었습니다.")) evs).

(* ================================================================= *)
(** ** Further readings of a log *)

Section MoreObservers.

Context `{Pandas} `{Services}.

(** The entries a tool-use loop may log: calls of the gateway and of the
    executor, and the texts, queries and results it shows. *)
Definition loop_event (ev : event) : Prop :=
  match ev with
  | Converse _ _ | CallTool _ _ _ => True
  | Display (StMarkdown _) | Display (StCode _)
  | Display (StDataframe _) | Display (StWrite _) => True
  | _ => False
  end.

(** The entries that are calls of the gateway or of the executor. *)
Definition service_event (ev : event) : Prop :=
  match ev with
  | Converse _ _ | CallTool _ _ _ => True
  | _ => False
  end.

(** A gateway call made with the given system prompt and tool catalog,
    and the model the program names. *)
Definition asks_with (system_prompt : string) (tools : list ToolSpec)
           (ev : event) : Prop :=
  match ev with
  | Converse req _ =>
      modelId req = model_id /\
      system req = system_prompt /\
      toolConfig req = tools
  | _ => True
  end.

(** A program that leaves the session state alone and logs only entries
    of one kind. *)
Definition only {A} (P : event -> Prop) (m : M A) : Prop :=
  forall s,
    session (state_after (m s)) = session s /\ Forall P (events (m s)).

(** The tools the gateway asked for, by name and input, over the replies
    with stop reason [tool_use], in order. *)
Definition requested_tools (evs : list event) : list (string * json) :=
  flat_map (fun ev =>
              match ev with
              | Converse _ (Ok response) =>
                  if (stopReason response =? "tool_use")%string
                  then map (fun u => (name u, input u))
                           (tool_uses (content (output_message response)))
                  else []
              | _ => []
              end) evs.

(** Successive transcripts in which each one extends the one before by
    at least one message. *)
Fixpoint grows (reqs : list ConverseRequest) : Prop :=
  match reqs with
  | r1 :: (r2 :: _) as later =>
      (exists added, added <> [] /\ messages r2 = messages r1 ++ added) /\
      grows later
  | _ => True
  end.

(** What [show_texts] shows for the content of a message. *)
Definition shown_texts (blocks : list ContentBlock) : list event :=
  flat_map (fun b => match b with
                     | text t => [Display (StMarkdown "---");
                                  Display (StMarkdown t)]
                     | _ => []
                     end) blocks.

(** What [show_result] shows for a shaped result. *)
Definition shown_result (shaped : formatted) : event :=
  match shaped with
  | Frame df => Display (StDataframe df)
  | other => Display (StWrite other)
  end.

End MoreObservers.

(** Session flags that are not both set: a run in progress has no
    pending cancellation. *)
Definition consistent (ss : SessionState) : Prop :=
  ~ (is_running ss = Some true /\ should_cancel ss = Some true).

(** The shaped value of a text, [format_sql_result] never raising. *)
Definition shaped `{Pandas} (result_text : string) : formatted :=
  match format_sql_result result_text with
  | Ok v => v
  | Fail _ => Text result_text
  end.


(** The exception of [tool_input['sql']], when it raises: [KeyError]
    for a dict without the key, [TypeError] for any other value. *)
Definition sql_error (tool_input : json) : option exn :=
  match tool_input with
  | JObj members =>
      match Json.dict_get "sql" members with
      | Some _ => None
      | None => Some KeyError
      end
  | _ => Some TypeError
  end.

(** The gateway asks for a tool whose input has no SQL text. *)
Definition no_sql_message : Message :=
  mkMessage assistant
    [text "listing"; toolUse (mkToolUse "t1" "list_tables" (JObj []))].

Definition no_sql_state : @State scripted :=
  start_state (mkScript [Ok (mkResponse "tool_use" no_sql_message);
                         Ok (mkResponse "end_turn" final_message)]
                        [text_result "first"] (Ok []))
              idle.


(* ----------------------------------------------------------------- *)
(** *** Reading a run of [main] *)

Section MainObservers.

Context `{Pandas} `{Services}.

(** The line [main] writes under the title at every run. *)
Definition banner : event :=
  Display (StWrite (Text "테이블 구조를 기반으로 SQL 쿼리를 생성하고 실행합니다.")).

(** The table structure, as [main] shows it between the two loops. *)
Definition shown_table_info (table_info : string) : list event :=
  [Display (StMarkdown "---");
   Display (StMarkdown "### 테이블 구조");
   Display (StCode (JStr table_info))].

(** An entry that is not the cancellation warning. *)
Definition not_warning (ev : event) : Prop :=
  match ev with
  | Display (StWarning _) => False
  | _ => True
  end.

(** An entry that [main] logs without opening the MCP client. *)
Definition page_event (ev : event) : Prop :=
  ev = banner \/ ev = Display StRerun.

End MainObservers.

(** The session state once [main] has set the keys that were missing. *)
Definition initialized (ss : SessionState) : SessionState :=
  mkSession
    (match is_running ss with None => Some false | set => set end)
    (match should_cancel ss with None => Some false | set => set end).

(** A flag that is set and true. *)
Definition is_set (flag : option bool) : bool :=
  match flag with
  | Some b => b
  | None => false
  end.

(** A session in which a run is in progress and not cancelled. *)
Definition running_state (w : Script) : @State scripted :=
  start_state w (mkSession (Some true) (Some false)).

(** The gateway asks for two tools while the table structure is looked
    up, stops, and then answers the query at once. *)
Definition full_run_world : Script :=
  mkScript [Ok (mkResponse "tool_use" two_tools_message);
            Ok (mkResponse "end_turn" final_message);
            Ok (mkResponse "end_turn" final_message)]
           [text_result "first"; text_result "second"]
           (Ok []).

(** What is left of [full_run_world] when [get_table_info] has returned,
    and at the end of the run. *)
Definition query_phase_world : Script :=
  mkScript [Ok (mkResponse "end_turn" final_message)] [] (Ok []).

Definition spent_world : Script := mkScript [] [] (Ok []).


(* ================================================================= *)
(** ** Proofs *)

Section Proofs.

Context `{Pandas} `{Services}.

(** *** The loops follow the protocol *)

Lemma requests_app (ev1 ev2 : list event) :
  requests (ev1 ++ ev2) = requests ev1 ++ requests ev2.
Proof. unfold requests. apply filter_app. Qed.

Lemma get_table_info_tool_step x ml ti :
  sat (get_table_info_tool x (ml, ti))
      (fun o evs => tool_step ml x (outcome_map fst o) (requests evs)).
Proof.
  intros s. destruct x as [t | u | r]; simpl; try constructor.
  unfold bind, mcp_call_tool, request.
  destruct (call_tool (world s) (name u) (input u)) as [[res | e] w]; simpl.
  - unfold first_text.
    destruct (cr_content res) as [| t more] eqn:E; simpl.
    + now apply step_empty.
    + now apply step_answered with (more := more).
  - apply step_failed.
Qed.

(** Rules that take a program apart without unfolding its runs. *)
Lemma sat_bind {A B} (m : M A) (f : A -> M B)
      (Q : outcome B -> list event -> Prop) :
  sat m (fun o ev1 =>
           match o with
           | Returns a => sat (f a) (fun o2 ev2 => Q o2 (ev1 ++ ev2))
           | Raises e => Q (Raises e) ev1
           | OutOfFuel => Q OutOfFuel ev1
           end) ->
  sat (bind m f) Q.
Proof.
  intros Hm s. unfold bind. specialize (Hm s).
  destruct (result (m s)) as [a | e |]; simpl; auto.
Qed.

Lemma sat_ret {A} (a : A) (Q : outcome A -> list event -> Prop) :
  Q (Returns a) [] -> sat (ret a) Q.
Proof. intros HQ s. exact HQ. Qed.

Lemma sat_raise {A} (e : exn) (Q : outcome A -> list event -> Prop) :
  Q (Raises e) [] -> sat (raise e) Q.
Proof. intros HQ s. exact HQ. Qed.

Lemma sat_emit (ev : event) (Q : outcome unit -> list event -> Prop) :
  Q (Returns tt) [ev] -> sat (emit ev) Q.
Proof. intros HQ s. exact HQ. Qed.

Lemma sat_request {A} (call : World -> reply A * World)
      (log : reply A -> event) (Q : outcome A -> list event -> Prop) :
  (forall r, Q (of_reply r) [log r]) -> sat (request call log) Q.
Proof.
  intros HQ s. unfold request. destruct (call (world s)) as [r w].
  apply HQ.
Qed.

Lemma process_query_tool_step x ml :
  sat (process_query_tool x ml)
      (fun o evs => tool_step ml x (outcome_map (fun l => l) o)
                              (requests evs)).
Proof.
  destruct x as [t | u | r];
    [apply sat_ret, step_text | | apply sat_ret, step_result].
  unfold process_query_tool.
  apply sat_bind, sat_emit. apply sat_bind, sat_emit.
  apply sat_bind. unfold subscript.
  destruct (input u) as [ | | | | | | members] eqn:Ein;
    try (apply sat_raise, step_refused).
  destruct (Json.dict_get "sql" members) as [sql |];
    [| apply sat_raise, step_refused].
  apply sat_ret. apply sat_bind, sat_emit.
  apply sat_bind, sat_request. rewrite <- Ein.
  intros [res | e]; [| apply step_failed].
  apply sat_bind, sat_emit. apply sat_bind, sat_emit.
  apply sat_bind. unfold first_text.
  destruct (cr_content res) as [| t more] eqn:E;
    [now apply sat_raise, step_empty |].
  apply sat_ret. apply sat_bind. intros s.
  unfold call_format_sql_result, format_sql_result.
  destruct (format_sql_result_try t) as [[df |] | e];
    (apply sat_bind, sat_emit; apply sat_bind, sat_ret, sat_ret;
     now apply step_answered with (more := more)).
Qed.
Lemma for_each_tools_run {L} (tr : L -> list Message)
      (body : ContentBlock -> L -> M L) :
  (forall x l, sat (body x l)
                   (fun o evs => tool_step (tr l) x (outcome_map tr o)
                                           (requests evs))) ->
  forall xs l,
    sat (for_each body xs l)
        (fun o evs => tools_run (tr l) xs (outcome_map tr o) (requests evs)).
Proof.
  intros Hbody xs. induction xs as [| x xs IH]; intros l s; simpl.
  - constructor.
  - unfold bind. specialize (Hbody x l s).
    destruct (result (body x l s)) as [l1 | e |] eqn:E; simpl in *.
    + rewrite requests_app. eapply tools_next; [exact Hbody | apply IH].
    + now apply tools_raise.
    + inversion Hbody.
Qed.

Lemma tools_run_ends ml xs o evs :
  tools_run ml xs o evs -> o <> OutOfFuel.
Proof.
  induction 1 as [ml | ml x xs ml1 ev1 o ev2 _ _ IH | ml x xs e ev _].
  - discriminate.
  - exact IH.
  - discriminate.
Qed.

Lemma while_true_loop_run {L} (tr : L -> list Message)
      (body : L -> M (control L)) :
  (forall l, sat (body l)
                 (fun o evs => turn_step (tr l)
                                         (outcome_map (control_map tr) o)
                                         (requests evs))) ->
  forall fuel l,
    sat (while_true body fuel l)
        (fun o evs => loop_run (tr l) (outcome_map tr o) (requests evs)).
Proof.
  intros Hbody fuel. induction fuel as [| fuel IH]; intros l s; simpl.
  - constructor.
  - unfold bind. specialize (Hbody l s).
    destruct (result (body l s)) as [[l1 | l1] | e |] eqn:E; simpl in *.
    + rewrite requests_app. eapply loop_continue; [exact Hbody | apply IH].
    + rewrite app_nil_r. now apply loop_break.
    + now apply loop_raise.
    + inversion Hbody.
Qed.

Lemma get_table_info_turn_step tools ml ti :
  sat (get_table_info_turn tools (ml, ti))
      (fun o evs => turn_step ml (outcome_map (control_map fst) o)
                              (requests evs)).
Proof.
  intros s. unfold get_table_info_turn, bind, bedrock_converse, request.
  destruct (converse (world s) _) as [[response | e] w] eqn:Ec; simpl.
  - destruct (stopReason response =? "tool_use")%string eqn:Es; simpl.
    + apply String.eqb_eq in Es.
      pose proof (for_each_tools_run fst get_table_info_tool
                    (fun x l => match l with
                                | (ml0, ti0) =>
                                    get_table_info_tool_step x ml0 ti0
                                end)
                    (content (output_message response))
                    (ml ++ [output_message response], ti)
                    (mkState w (session s))) as Hrun.
      simpl in Hrun.
      destruct (result (for_each _ _ _ _)) as [l1 | e |] eqn:E; simpl in *.
      * rewrite app_nil_r. now apply turn_tools.
      * now apply turn_tools_raise.
      * now apply tools_run_ends in Hrun.
    + apply String.eqb_neq in Es. now apply turn_break.
  - now apply turn_gateway_failed.
Qed.

Lemma show_texts_run blocks s :
  result (show_texts blocks s) = Returns tt /\
  state_after (show_texts blocks s) = s /\
  requests (events (show_texts blocks s)) = [].
Proof.
  induction blocks as [| b blocks IH]; simpl.
  - repeat split.
  - destruct b as [t | u | r]; exact IH.
Qed.

Lemma process_query_turn_step tools system_prompt ml :
  sat (process_query_turn tools system_prompt ml)
      (fun o evs => turn_step ml (outcome_map (control_map (fun l => l)) o)
                              (requests evs)).
Proof.
  intros s. unfold process_query_turn, bind, bedrock_converse, request.
  destruct (converse (world s) _) as [[response | e] w] eqn:Ec; simpl.
  - destruct (show_texts_run (content (output_message response))
                             (mkState w (session s))) as (Hr & Hs & He).
    rewrite Hr, Hs; simpl.
    destruct (stopReason response =? "tool_use")%string eqn:Es; simpl.
    + apply String.eqb_eq in Es.
      pose proof (for_each_tools_run (fun l => l) process_query_tool
                    process_query_tool_step
                    (content (output_message response))
                    (ml ++ [output_message response])
                    (mkState w (session s))) as Hrun.
      simpl in Hrun.
      destruct (result (for_each _ _ _ _)) as [l1 | e |] eqn:E; simpl in *;
        rewrite ?requests_app, ?He, ?app_nil_r; simpl.
      * now apply turn_tools.
      * now apply turn_tools_raise.
      * now apply tools_run_ends in Hrun.
    + apply String.eqb_neq in Es.
      rewrite ?requests_app, ?He, ?app_nil_r; simpl. now apply turn_break.
  - now apply turn_gateway_failed.
Qed.

Lemma outcome_map_id {A} (o : outcome A) : outcome_map (fun a => a) o = o.
Proof. now destruct o. Qed.

(** Every run of the loop of [get_table_info] follows the protocol from
    the first message. *)
Lemma get_table_info_loop_run fuel tools query_request s :
  let r := get_table_info_loop fuel tools query_request s in
  loop_run [user_text (table_info_request query_request)]
           (outcome_map fst (result r)) (requests (events r)).
Proof.
  unfold get_table_info_loop.
  apply (while_true_loop_run fst (get_table_info_turn tools)
           (fun l => match l with
                     | (ml, ti) => get_table_info_turn_step tools ml ti
                     end)
           fuel (_, ""%string) s).
Qed.

(** Every run of [process_query] on a prompt that is not empty follows
    the protocol from the first message. *)
Lemma process_query_loop_run fuel prompt tools system_prompt s :
  prompt <> ""%string ->
  let r := process_query_loop fuel prompt tools system_prompt s in
  exists o,
    loop_run [user_text prompt] o (requests (events r)) /\
    result r = outcome_map Some o.
Proof.
  intros Hp. unfold process_query_loop.
  destruct (prompt =? "")%string eqn:E;
    [apply String.eqb_eq in E; contradiction |].
  pose proof (while_true_loop_run (fun l => l)
                (process_query_turn tools system_prompt)
                (process_query_turn_step tools system_prompt)
                fuel [user_text prompt] s) as Hrun.
  simpl in *. rewrite outcome_map_id in Hrun.
  unfold bind.
  destruct (result (while_true _ _ _ _)) as [l1 | e |] eqn:Er; simpl.
  - exists (Returns l1). rewrite app_nil_r. now split.
  - exists (Raises e). now split.
  - exists OutOfFuel. now split.
Qed.


(** *** What a completed [for] loop did *)

Lemma tool_step_returns ml x ml1 evs :
  tool_step ml x (Returns ml1) evs ->
  ((forall xs, tool_uses (x :: xs) = tool_uses xs) /\ ml1 = ml /\ evs = []) \/
  (exists u res t more,
      x = toolUse u /\ cr_content res = t :: more /\
      ml1 = ml ++ [tool_result_message (toolUseId u) t] /\
      evs = [answered_call (u, res)]).
Proof.
  inversion 1; subst; auto.
  right. now exists u, res, t, more.
Qed.

Lemma tools_run_returns ml xs ml' evs :
  tools_run ml xs (Returns ml') evs ->
  exists results,
    length results = length (tool_uses xs) /\
    Forall (fun res => cr_content res <> []) results /\
    evs = map answered_call (combine (tool_uses xs) results) /\
    ml' = ml ++ answer_messages (tool_uses xs) results.
Proof.
  intros Hrun. remember (Returns ml') as o eqn:Eo.
  induction Hrun as [ml | ml x xs ml1 ev1 o ev2 Hstep _ IH | ml x xs e ev _];
    try discriminate.
  - injection Eo as <-. exists []. unfold answer_messages; simpl.
    now rewrite app_nil_r.
  - destruct (IH Eo) as (results & Hlen & Hne & Hev & Hml).
    apply tool_step_returns in Hstep.
    destruct Hstep as [(Hx & -> & ->) | (u & res & t & more & -> & Hc & -> & ->)].
    + exists results. rewrite Hx. simpl. auto.
    + exists (res :: results). simpl. repeat split.
      * now rewrite Hlen.
      * constructor; [now rewrite Hc | exact Hne].
      * now rewrite Hev.
      * rewrite Hml. unfold answer_messages; simpl.
        rewrite Hc; simpl. now rewrite <- app_assoc.
Qed.


Lemma turn_step_continue ml ml' evs :
  turn_step ml (Returns (Continue ml')) evs ->
  exists req response results,
    let uses := tool_uses (content (output_message response)) in
    evs = Converse req (Ok response)
            :: map answered_call (combine uses results) /\
    messages req = ml /\
    stopReason response = "tool_use"%string /\
    length results = length uses /\
    Forall (fun res => cr_content res <> []) results /\
    ml' = ml ++ output_message response :: answer_messages uses results.
Proof.
  inversion 1 as [| | req response ml0 evs0 Hreq Hstop Hrun |]; subst.
  apply tools_run_returns in Hrun.
  destruct Hrun as (results & Hlen & Hne & -> & ->).
  exists req, response, results. simpl.
  rewrite <- app_assoc. simpl. auto 10.
Qed.

(** *** Claim C1, as the code has it *)

(** C1 (amended): in every iteration of either loop that runs to its end
    on an assistant message with tool requests, the requests that leave
    the program are the gateway call followed by one executor call per
    [toolUse] block, in the order of the blocks, and the transcript grows
    by the assistant message followed by one user message per [toolUse]
    block, each holding the single [toolResult] of that block, in the
    same order. *)
Theorem tool_results_one_message_each :
  (forall tools ml ti s ml' ti',
      result (get_table_info_turn tools (ml, ti) s)
      = Returns (Continue (ml', ti')) ->
      exists req response results,
        let uses := tool_uses (content (output_message response)) in
        requests (events (get_table_info_turn tools (ml, ti) s))
        = Converse req (Ok response)
            :: map answered_call (combine uses results) /\
        messages req = ml /\
        length results = length uses /\
        ml' = ml ++ output_message response :: answer_messages uses results)
  /\
  (forall tools system_prompt ml s ml',
      result (process_query_turn tools system_prompt ml s)
      = Returns (Continue ml') ->
      exists req response results,
        let uses := tool_uses (content (output_message response)) in
        requests (events (process_query_turn tools system_prompt ml s))
        = Converse req (Ok response)
            :: map answered_call (combine uses results) /\
        messages req = ml /\
        length results = length uses /\
        ml' = ml ++ output_message response :: answer_messages uses results).
Proof.
  split.
  - intros tools ml ti s ml' ti' Hr.
    pose proof (get_table_info_turn_step tools ml ti s) as Hstep.
    cbv beta in Hstep. rewrite Hr in Hstep. simpl in Hstep.
    apply turn_step_continue in Hstep.
    destruct Hstep as (req & response & results & He & Hm & _ & Hl & _ & Hml).
    now exists req, response, results.
  - intros tools system_prompt ml s ml' Hr.
    pose proof (process_query_turn_step tools system_prompt ml s) as Hstep.
    cbv beta in Hstep. rewrite Hr in Hstep. simpl in Hstep.
    apply turn_step_continue in Hstep.
    destruct Hstep as (req & response & results & He & Hm & _ & Hl & _ & Hml).
    now exists req, response, results.
Qed.


(** *** The functions and their loops *)

Lemma get_table_info_run fuel tools query_request s :
  let r := get_table_info_loop fuel tools query_request s in
  result (get_table_info fuel tools query_request s)
  = outcome_map snd (result r) /\
  events (get_table_info fuel tools query_request s) = events r.
Proof.
  unfold get_table_info, bind.
  destruct (result (get_table_info_loop _ _ _ _)); simpl;
    now rewrite ?app_nil_r.
Qed.

Lemma process_query_run fuel prompt tools system_prompt s :
  let r := process_query_loop fuel prompt tools system_prompt s in
  result (process_query fuel prompt tools system_prompt s)
  = outcome_map (fun _ => tt) (result r) /\
  events (process_query fuel prompt tools system_prompt s) = events r.
Proof.
  unfold process_query, bind.
  destruct (result (process_query_loop _ _ _ _ _)); simpl;
    now rewrite ?app_nil_r.
Qed.

Lemma process_query_loop_empty fuel tools system_prompt s :
  process_query_loop fuel "" tools system_prompt s = mkRun (Returns None) s [].
Proof. reflexivity. Qed.

Lemma gateway_calls_requests (evs : list event) :
  gateway_calls (requests evs) = gateway_calls evs.
Proof.
  induction evs as [| ev evs IH]; [reflexivity |].
  destruct ev; simpl; now rewrite ?IH.
Qed.

Lemma executor_calls_requests (evs : list event) :
  executor_calls (requests evs) = executor_calls evs.
Proof.
  induction evs as [| ev evs IH]; [reflexivity |].
  destruct ev; simpl; now rewrite ?IH.
Qed.

(** *** A failed tool invocation ends the run *)

Lemma no_failed_call_app (ev1 ev2 : list event) :
  no_failed_call ev1 -> no_failed_call ev2 -> no_failed_call (ev1 ++ ev2).
Proof. unfold no_failed_call. intros. now apply Forall_app. Qed.

Lemma failure_is_final_prepend {A} (o : outcome A) (ev1 ev2 : list event) :
  no_failed_call ev1 -> failure_is_final o ev2 ->
  failure_is_final o (ev1 ++ ev2).
Proof.
  intros H1 [H2 | (pre & tool & arguments & e & -> & Hpre & ->)].
  - left. now apply no_failed_call_app.
  - right. exists (ev1 ++ pre), tool, arguments, e.
    rewrite app_assoc. repeat split. now apply no_failed_call_app.
Qed.

Lemma failure_is_final_returns {A} (a : A) (evs : list event) :
  failure_is_final (Returns a) evs -> no_failed_call evs.
Proof.
  intros [Hc | (pre & tool & arguments & e & _ & _ & Hr)];
    [exact Hc | discriminate Hr].
Qed.

Lemma failure_is_final_map {A B} (f : A -> B) (o : outcome A) evs :
  failure_is_final (outcome_map f o) evs <-> failure_is_final o evs.
Proof.
  unfold failure_is_final. split.
  - intros [Hc | (pre & tool & arguments & e & He & Hpre & Hr)]; [now left |].
    right. exists pre, tool, arguments, e. repeat split; auto.
    destruct o; simpl in Hr; congruence.
  - intros [Hc | (pre & tool & arguments & e & He & Hpre & Hr)]; [now left |].
    right. exists pre, tool, arguments, e. repeat split; auto.
    now rewrite Hr.
Qed.

Lemma failure_is_final_raises {A B} (e : exn) (evs : list event) :
  failure_is_final (A := A) (Raises e) evs ->
  failure_is_final (A := B) (Raises e) evs.
Proof.
  intros [Hc | (pre & tool & arguments & e' & He & Hpre & Hr)]; [now left |].
  right. exists pre, tool, arguments, e'. repeat split; auto. congruence.
Qed.

Lemma tool_step_failure ml x o evs :
  tool_step ml x o evs -> failure_is_final o evs.
Proof.
  inversion 1; subst;
    try (left; repeat constructor; fail).
  right. exists [], (name u), (input u), e. repeat split. constructor.
Qed.

Lemma tools_run_failure ml xs o evs :
  tools_run ml xs o evs -> failure_is_final o evs.
Proof.
  induction 1 as [ml | ml x xs ml1 ev1 o ev2 Hstep _ IH | ml x xs e ev Hstep].
  - left. constructor.
  - apply failure_is_final_prepend; [| exact IH].
    apply tool_step_failure in Hstep.
    now apply failure_is_final_returns in Hstep.
  - apply tool_step_failure in Hstep.
    destruct Hstep as [Hc | (pre & tool & arguments & e' & He & Hpre & Hr)];
      [now left |].
    right. now exists pre, tool, arguments, e'.
Qed.

Lemma turn_step_failure ml o evs :
  turn_step ml o evs -> failure_is_final o evs.
Proof.
  inversion 1 as [ | | req response ml' evs0 _ _ Hrun
                   | req response e evs0 _ _ Hrun]; subst.
  - left. repeat constructor.
  - left. repeat constructor.
  - apply tools_run_failure, failure_is_final_returns in Hrun.
    left. now constructor.
  - apply tools_run_failure in Hrun.
    apply (failure_is_final_prepend _ [Converse req (Ok response)]).
    + constructor; [exact I | constructor].
    + now apply (failure_is_final_raises (A := list Message)).
Qed.

Lemma loop_run_failure ml o evs :
  loop_run ml o evs -> failure_is_final o evs.
Proof.
  induction 1 as [ml | ml ml' evs Hturn | ml ml1 ev1 o ev2 Hturn _ IH
                  | ml e evs Hturn].
  - left. constructor.
  - apply turn_step_failure, failure_is_final_returns in Hturn. now left.
  - apply failure_is_final_prepend; [| exact IH].
    now apply turn_step_failure, failure_is_final_returns in Hturn.
  - apply turn_step_failure in Hturn.
    now apply (failure_is_final_raises (A := control (list Message))).
Qed.

Lemma no_failed_call_not_in (evs : list event) pre tool arguments e post :
  no_failed_call evs ->
  evs <> pre ++ CallTool tool arguments (Fail e) :: post.
Proof.
  intros Hc ->. unfold no_failed_call in Hc.
  apply Forall_app in Hc. destruct Hc as [_ Hc].
  now inversion Hc.
Qed.

Lemma failure_is_final_spec {A} (o : outcome A) (evs : list event)
      pre tool arguments e post :
  failure_is_final o evs ->
  evs = pre ++ CallTool tool arguments (Fail e) :: post ->
  post = [] /\ o = Raises e.
Proof.
  intros [Hc | (pre0 & tool0 & arguments0 & e0 & -> & Hpre & ->)] Heq.
  - now apply no_failed_call_not_in in Heq.
  - destruct (exists_last (l := CallTool tool arguments (Fail e) :: post))
      as (front & last_ev & Hlast); [discriminate |].
    rewrite Hlast, app_assoc in Heq.
    apply app_inj_tail in Heq. destruct Heq as [Hfront <-].
    destruct front as [| ev front]; simpl in Hlast.
    + injection Hlast as -> -> -> ->. auto.
    + exfalso. injection Hlast as <- ->.
      rewrite Hfront in Hpre.
      eapply no_failed_call_not_in; [exact Hpre | reflexivity].
Qed.


(** C8: in every run of [get_table_info] and of [process_query], a tool
    invocation that fails is the last request the run makes, with no
    retry and no further gateway call, and the run ends by raising the
    failure of the executor. *)
Theorem executor_failure_propagates :
  (forall fuel tools query_request s pre tool arguments e post,
      requests (events (get_table_info fuel tools query_request s))
      = pre ++ CallTool tool arguments (Fail e) :: post ->
      post = [] /\
      result (get_table_info fuel tools query_request s) = Raises e)
  /\
  (forall fuel prompt tools system_prompt s pre tool arguments e post,
      requests (events (process_query fuel prompt tools system_prompt s))
      = pre ++ CallTool tool arguments (Fail e) :: post ->
      post = [] /\
      result (process_query fuel prompt tools system_prompt s) = Raises e).
Proof.
  split.
  - intros fuel tools q s pre tool arguments e post Hev.
    destruct (get_table_info_run fuel tools q s) as [Hres Hevs].
    rewrite Hres. rewrite Hevs in Hev.
    pose proof (get_table_info_loop_run fuel tools q s) as Hrun.
    cbv zeta in Hrun. apply loop_run_failure, failure_is_final_map in Hrun.
    eapply failure_is_final_spec; [| exact Hev].
    apply failure_is_final_map. exact Hrun.
  - intros fuel prompt tools sp s pre tool arguments e post Hev.
    destruct (process_query_run fuel prompt tools sp s) as [Hres Hevs].
    rewrite Hres. rewrite Hevs in Hev.
    destruct (String.eqb_spec prompt "") as [-> | Hp].
    + rewrite process_query_loop_empty in Hev. simpl in Hev.
      now destruct pre.
    + destruct (process_query_loop_run fuel prompt tools sp s Hp)
        as (o & Hrun & Ho).
      apply loop_run_failure in Hrun.
      eapply failure_is_final_spec; [| exact Hev].
      apply failure_is_final_map. rewrite Ho.
      apply failure_is_final_map. exact Hrun.
Qed.


(** *** The base case and the end of the loop *)

Lemma turn_step_break ml ml' evs :
  turn_step ml (Returns (Break ml')) evs ->
  ml' = ml /\
  exists req response,
    evs = [Converse req (Ok response)] /\
    stopReason response <> "tool_use"%string /\
    messages req = ml.
Proof.
  inversion 1; subst. split; [reflexivity |]. now exists req, response.
Qed.

Lemma turn_step_first ml o evs :
  turn_step ml o evs ->
  exists req reply rest,
    evs = Converse req reply :: rest /\ messages req = ml /\
    match reply with
    | Fail e => rest = [] /\ o = Raises e
    | Ok response =>
        if (stopReason response =? "tool_use")%string
        then (exists ml', o = Returns (Continue ml')) \/ (exists e, o = Raises e)
        else rest = [] /\ o = Returns (Break ml)
    end.
Proof.
  inversion 1 as [req e Hm | req response Hm Hs
                  | req response ml' evs0 Hm Hs Hrun
                  | req response e evs0 Hm Hs Hrun]; subst.
  - exists req, (Fail e), []. auto.
  - exists req, (Ok response), []. apply String.eqb_neq in Hs.
    rewrite Hs. auto.
  - exists req, (Ok response), evs0. apply String.eqb_eq in Hs.
    rewrite Hs. eauto.
  - exists req, (Ok response), evs0. apply String.eqb_eq in Hs.
    rewrite Hs. eauto.
Qed.

Lemma loop_run_base ml o evs req response rest :
  loop_run ml o evs ->
  evs = Converse req (Ok response) :: rest ->
  stopReason response <> "tool_use"%string ->
  rest = [] /\ o = Returns ml.
Proof.
  intros Hrun.
  destruct Hrun as [ml | ml ml' evs Hturn | ml ml1 ev1 o ev2 Hturn _
                    | ml e evs Hturn];
    intros Hev Hstop; apply String.eqb_neq in Hstop;
    try discriminate;
    apply turn_step_first in Hturn;
    destruct Hturn as (req0 & reply & rest0 & Heq & _ & Hcase);
    rewrite Heq in Hev; simpl in Hev.
  - injection Hev as -> -> ->. rewrite Hstop in Hcase.
    destruct Hcase as [-> Ho]. injection Ho as ->. auto.
  - injection Hev as -> -> _. rewrite Hstop in Hcase.
    destruct Hcase as [_ Ho]. discriminate Ho.
  - injection Hev as -> -> ->. rewrite Hstop in Hcase.
    destruct Hcase as [_ Ho]. discriminate Ho.
Qed.

Lemma gateway_calls_single (evs : list event) req reply :
  requests evs = [Converse req reply] ->
  length (gateway_calls evs) = 1 /\ executor_calls evs = [].
Proof.
  intros He.
  rewrite <- gateway_calls_requests, <- executor_calls_requests, He.
  split; reflexivity.
Qed.

(** Read from the log: in every run of [get_table_info] and of
    [process_query] whose first request, the first gateway call, is
    answered with a stop reason other than [tool_use], the function
    returns after exactly one gateway call and without any executor
    call. *)
Lemma first_reply_ends_run :
  (forall fuel tools query_request s req response rest,
      requests (events (get_table_info fuel tools query_request s))
      = Converse req (Ok response) :: rest ->
      stopReason response <> "tool_use"%string ->
      length (gateway_calls
                (events (get_table_info fuel tools query_request s))) = 1 /\
      executor_calls (events (get_table_info fuel tools query_request s))
      = [] /\
      exists table_info,
        result (get_table_info fuel tools query_request s)
        = Returns table_info)
  /\
  (forall fuel prompt tools system_prompt s req response rest,
      requests (events (process_query fuel prompt tools system_prompt s))
      = Converse req (Ok response) :: rest ->
      stopReason response <> "tool_use"%string ->
      length (gateway_calls
                (events (process_query fuel prompt tools system_prompt s)))
      = 1 /\
      executor_calls (events (process_query fuel prompt tools system_prompt s))
      = [] /\
      result (process_query fuel prompt tools system_prompt s) = Returns tt).
Proof.
  split.
  - intros fuel tools q s req response rest Hev Hstop.
    destruct (get_table_info_run fuel tools q s) as [Hres Hevs].
    rewrite Hres, Hevs in *.
    pose proof (get_table_info_loop_run fuel tools q s) as Hrun.
    cbv zeta in Hrun.
    destruct (loop_run_base _ _ _ _ _ _ Hrun Hev Hstop) as [-> Ho].
    destruct (gateway_calls_single _ _ _ Hev) as [Hg He].
    repeat split; auto.
    destruct (result (get_table_info_loop fuel tools q s)) as [[ml ti] | |];
      try discriminate Ho.
    now exists ti.
  - intros fuel prompt tools sp s req response rest Hev Hstop.
    destruct (process_query_run fuel prompt tools sp s) as [Hres Hevs].
    rewrite Hres, Hevs in *.
    destruct (String.eqb_spec prompt "") as [-> | Hp].
    + rewrite process_query_loop_empty in Hev. discriminate Hev.
    + destruct (process_query_loop_run fuel prompt tools sp s Hp)
        as (o & Hrun & Ho).
      destruct (loop_run_base _ _ _ _ _ _ Hrun Hev Hstop) as [-> ->].
      destruct (gateway_calls_single _ _ _ Hev) as [Hg He].
      rewrite Ho. repeat split; auto.
Qed.


Lemma loop_run_returns_last ml ml' evs :
  loop_run ml (Returns ml') evs ->
  exists pre req response,
    evs = pre ++ [Converse req (Ok response)] /\
    stopReason response <> "tool_use"%string /\
    messages req = ml'.
Proof.
  intros Hrun. remember (Returns ml') as o eqn:Eo.
  induction Hrun as [ml | ml ml0 evs Hturn | ml ml1 ev1 o ev2 Hturn _ IH
                     | ml e evs Hturn]; try discriminate.
  - injection Eo as ->. apply turn_step_break in Hturn.
    destruct Hturn as (-> & req & response & -> & Hs & Hm).
    now exists [], req, response.
  - destruct (IH Eo) as (pre & req & response & -> & Hs & Hm).
    exists (ev1 ++ pre), req, response. now rewrite app_assoc.
Qed.

(** C4 (amended): in every iteration of either loop the stop reason is
    examined before anything is appended.  When the reply of the gateway
    has a stop reason other than [tool_use] the iteration leaves the loop
    with the locals as they were; an iteration that goes on to the next
    one had the stop reason [tool_use] and appended the assistant message
    first, before the answers of the tools.  So when a loop terminates,
    the last request it made is a gateway call whose reply has a stop
    reason other than [tool_use], and the transcript it ends with is the
    one sent with that call: the message of that reply, the terminal
    assistant message, has not been appended. *)
Theorem terminal_message_not_appended :
  (forall tools ml ti s req response rest,
      requests (events (get_table_info_turn tools (ml, ti) s))
      = Converse req (Ok response) :: rest ->
      stopReason response <> "tool_use"%string ->
      result (get_table_info_turn tools (ml, ti) s)
      = Returns (Break (ml, ti)))
  /\
  (forall tools system_prompt ml s req response rest,
      requests (events (process_query_turn tools system_prompt ml s))
      = Converse req (Ok response) :: rest ->
      stopReason response <> "tool_use"%string ->
      result (process_query_turn tools system_prompt ml s)
      = Returns (Break ml))
  /\
  (forall tools ml ti s ml' ti',
      result (get_table_info_turn tools (ml, ti) s)
      = Returns (Continue (ml', ti')) ->
      exists req response rest answers,
        requests (events (get_table_info_turn tools (ml, ti) s))
        = Converse req (Ok response) :: rest /\
        stopReason response = "tool_use"%string /\
        ml' = ml ++ output_message response :: answers)
  /\
  (forall tools system_prompt ml s ml',
      result (process_query_turn tools system_prompt ml s)
      = Returns (Continue ml') ->
      exists req response rest answers,
        requests (events (process_query_turn tools system_prompt ml s))
        = Converse req (Ok response) :: rest /\
        stopReason response = "tool_use"%string /\
        ml' = ml ++ output_message response :: answers)
  /\
  (forall fuel tools query_request s ml' ti',
      result (get_table_info_loop fuel tools query_request s)
      = Returns (ml', ti') ->
      exists pre req response,
        requests (events (get_table_info_loop fuel tools query_request s))
        = pre ++ [Converse req (Ok response)] /\
        stopReason response <> "tool_use"%string /\
        messages req = ml')
  /\
  (forall fuel prompt tools system_prompt s ml',
      result (process_query_loop fuel prompt tools system_prompt s)
      = Returns (Some ml') ->
      exists pre req response,
        requests (events (process_query_loop fuel prompt tools
                                             system_prompt s))
        = pre ++ [Converse req (Ok response)] /\
        stopReason response <> "tool_use"%string /\
        messages req = ml').
Proof.
  split; [| split; [| split; [| split; [| split]]]].
  - intros tools ml ti s req response rest.
    unfold get_table_info_turn, bind, bedrock_converse, request.
    destruct (converse (world s) _) as [[response0 | e] w]; simpl;
      [| discriminate].
    destruct (stopReason response0 =? "tool_use")%string eqn:Es; simpl.
    + intros Hev Hstop. exfalso. apply Hstop.
      apply String.eqb_eq in Es. rewrite <- Es. f_equal.
      destruct (result (for_each _ _ _ _)); simpl in Hev; congruence.
    + reflexivity.
  - intros tools sp ml s req response rest Hev Hstop.
    pose proof (process_query_turn_step tools sp ml s) as Hstep.
    cbv beta in Hstep. apply turn_step_first in Hstep.
    destruct Hstep as (req0 & reply & rest0 & Heq & _ & Hcase).
    rewrite Heq in Hev. injection Hev as -> -> ->.
    apply String.eqb_neq in Hstop. rewrite Hstop in Hcase.
    destruct Hcase as [_ Ho].
    destruct (result (process_query_turn tools sp ml s)) as [[l | l] | |];
      simpl in Ho; congruence.
  - intros tools ml ti s ml' ti' Hr.
    pose proof (get_table_info_turn_step tools ml ti s) as Hstep.
    cbv beta in Hstep. rewrite Hr in Hstep. simpl in Hstep.
    apply turn_step_continue in Hstep.
    destruct Hstep as (req & response & results & He & _ & Hs & _ & _ & Hml).
    eauto 10.
  - intros tools sp ml s ml' Hr.
    pose proof (process_query_turn_step tools sp ml s) as Hstep.
    cbv beta in Hstep. rewrite Hr in Hstep. simpl in Hstep.
    apply turn_step_continue in Hstep.
    destruct Hstep as (req & response & results & He & _ & Hs & _ & _ & Hml).
    eauto 10.
  - intros fuel tools q s ml' ti' Hr.
    pose proof (get_table_info_loop_run fuel tools q s) as Hrun.
    cbv zeta in Hrun. rewrite Hr in Hrun.
    exact (loop_run_returns_last _ _ _ Hrun).
  - intros fuel prompt tools sp s ml' Hr.
    destruct (String.eqb_spec prompt "") as [-> | Hp].
    + rewrite process_query_loop_empty in Hr. discriminate Hr.
    + destruct (process_query_loop_run fuel prompt tools sp s Hp)
        as (o & Hrun & Ho).
      rewrite Hr in Ho. destruct o; try discriminate Ho.
      injection Ho as <-.
      exact (loop_run_returns_last _ _ _ Hrun).
Qed.

(** *** Referential integrity of the transcript *)

Lemma tool_use_ids_app t1 t2 :
  tool_use_ids (t1 ++ t2) = tool_use_ids t1 ++ tool_use_ids t2.
Proof.
  unfold tool_use_ids, transcript_tool_uses.
  now rewrite flat_map_app, map_app.
Qed.

Lemma tool_result_ids_app t1 t2 :
  tool_result_ids (t1 ++ t2) = tool_result_ids t1 ++ tool_result_ids t2.
Proof.
  unfold tool_result_ids, transcript_tool_results.
  now rewrite flat_map_app, map_app.
Qed.

Lemma answer_messages_use_ids uses results :
  tool_use_ids (answer_messages uses results) = [].
Proof.
  unfold answer_messages.
  induction (combine uses results) as [| ur l IH]; [reflexivity | exact IH].
Qed.

Lemma answer_messages_result_ids uses results :
  length results = length uses ->
  tool_result_ids (answer_messages uses results) = map toolUseId uses.
Proof.
  revert results.
  induction uses as [| u uses IH]; intros [| res results] Hlen;
    try discriminate Hlen; [reflexivity |].
  injection Hlen as Hlen. specialize (IH results Hlen).
  unfold tool_result_ids, answer_messages in *. simpl. now rewrite IH.
Qed.

(** A transcript in which the tool results answer the tool requests one
    for one, in order. *)
Lemma turn_step_answered ml ml' evs :
  turn_step ml (Returns (Continue ml')) evs ->
  assistant_replies evs ->
  tool_result_ids ml = tool_use_ids ml ->
  tool_result_ids ml' = tool_use_ids ml'.
Proof.
  intros Hturn Hroles Hml. apply turn_step_continue in Hturn.
  destruct Hturn as (req & response & results & -> & _ & _ & Hlen & _ & ->).
  apply Forall_inv in Hroles.
  change (ml ++ output_message response :: ?l)
    with (ml ++ [output_message response] ++ l).
  rewrite !tool_result_ids_app, !tool_use_ids_app.
  rewrite answer_messages_use_ids, answer_messages_result_ids by exact Hlen.
  rewrite Hml, app_nil_r. f_equal.
  unfold tool_result_ids, tool_use_ids; simpl. rewrite Hroles; simpl.
  now rewrite app_nil_r.
Qed.

Lemma tool_step_no_gateway ml x o evs :
  tool_step ml x o evs -> gateway_calls evs = [].
Proof. inversion 1; reflexivity. Qed.

Lemma gateway_calls_app (ev1 ev2 : list event) :
  gateway_calls (ev1 ++ ev2) = gateway_calls ev1 ++ gateway_calls ev2.
Proof. unfold gateway_calls. apply flat_map_app. Qed.

Lemma tools_run_no_gateway ml xs o evs :
  tools_run ml xs o evs -> gateway_calls evs = [].
Proof.
  induction 1 as [ml | ml x xs ml1 ev1 o ev2 Hstep _ IH | ml x xs e ev Hstep].
  - reflexivity.
  - rewrite gateway_calls_app, IH.
    now rewrite (tool_step_no_gateway _ _ _ _ Hstep).
  - exact (tool_step_no_gateway _ _ _ _ Hstep).
Qed.

Lemma turn_step_gateway ml o evs :
  turn_step ml o evs ->
  exists req, gateway_calls evs = [req] /\ messages req = ml.
Proof.
  inversion 1 as [ | | req response ml' evs0 Hm _ Hrun
                   | req response e evs0 Hm _ Hrun]; subst;
    exists req; simpl; rewrite ?(tools_run_no_gateway _ _ _ _ Hrun); auto.
Qed.

Lemma assistant_replies_app (ev1 ev2 : list event) :
  assistant_replies (ev1 ++ ev2) ->
  assistant_replies ev1 /\ assistant_replies ev2.
Proof. apply Forall_app. Qed.

Lemma loop_run_answered ml o evs :
  loop_run ml o evs ->
  assistant_replies evs ->
  tool_result_ids ml = tool_use_ids ml ->
  forall req, In req (gateway_calls evs) ->
              tool_result_ids (messages req) = tool_use_ids (messages req).
Proof.
  induction 1 as [ml | ml ml' evs Hturn | ml ml1 ev1 o ev2 Hturn _ IH
                  | ml e evs Hturn];
    intros Hroles Hml req Hin.
  - destruct Hin.
  - apply turn_step_gateway in Hturn. destruct Hturn as (req0 & Hg & Hm).
    rewrite Hg in Hin. destruct Hin as [<- | []]. now rewrite Hm.
  - apply assistant_replies_app in Hroles. destruct Hroles as [Hr1 Hr2].
    rewrite gateway_calls_app in Hin. apply in_app_or in Hin.
    destruct Hin as [Hin | Hin].
    + apply turn_step_gateway in Hturn. destruct Hturn as (req0 & Hg & Hm).
      rewrite Hg in Hin. destruct Hin as [<- | []]. now rewrite Hm.
    + apply IH; auto. eapply turn_step_answered; eauto.
  - apply turn_step_gateway in Hturn. destruct Hturn as (req0 & Hg & Hm).
    rewrite Hg in Hin. destruct Hin as [<- | []]. now rewrite Hm.
Qed.

Lemma assistant_replies_requests (evs : list event) :
  assistant_replies evs -> assistant_replies (requests evs).
Proof.
  unfold assistant_replies, requests. rewrite !Forall_forall.
  intros Hall ev Hin. apply filter_In in Hin. now apply Hall.
Qed.

Lemma in_gateway_calls (evs : list event) req reply :
  In (Converse req reply) evs -> In req (gateway_calls evs).
Proof.
  intros Hin. unfold gateway_calls. apply in_flat_map.
  exists (Converse req reply). simpl. auto.
Qed.

Lemma answers_to_count id t :
  length (answers_to id t) = count_occ string_dec (tool_result_ids t) id.
Proof.
  unfold answers_to, tool_result_ids.
  induction (transcript_tool_results t) as [| r l IH]; [reflexivity |].
  simpl. destruct (string_dec (tr_toolUseId r) id) as [-> | Hne].
  - rewrite String.eqb_refl. simpl. now rewrite IH.
  - apply String.eqb_neq in Hne. now rewrite Hne.
Qed.

Lemma answered_once t u :
  tool_result_ids t = tool_use_ids t ->
  NoDup (tool_use_ids t) ->
  In u (transcript_tool_uses t) ->
  length (answers_to (toolUseId u) t) = 1.
Proof.
  intros Heq Hnodup Hin. rewrite answers_to_count, Heq.
  apply NoDup_count_occ'; [exact Hnodup |].
  unfold tool_use_ids. now apply in_map.
Qed.


Lemma in_requests_gateway (evs : list event) req reply :
  In (Converse req reply) evs -> In req (gateway_calls (requests evs)).
Proof.
  intros Hin. apply in_gateway_calls with (reply := reply).
  unfold requests. apply filter_In. auto.
Qed.

(** C6: in every run of [get_table_info] and of [process_query] in which
    the gateway answers with assistant messages, the transcript sent with
    any gateway call answers the tool requests it holds one for one and
    in order; so every [toolUse] block of its assistant messages, its id
    being unique in the transcript, is answered there by exactly one
    [toolResult] block with that id. *)
Theorem tool_requests_answered_before_next_call :
  (forall fuel tools query_request s req reply u,
      assistant_replies (events (get_table_info fuel tools query_request s)) ->
      In (Converse req reply)
         (events (get_table_info fuel tools query_request s)) ->
      NoDup (tool_use_ids (messages req)) ->
      In u (transcript_tool_uses (messages req)) ->
      tool_result_ids (messages req) = tool_use_ids (messages req) /\
      length (answers_to (toolUseId u) (messages req)) = 1)
  /\
  (forall fuel prompt tools system_prompt s req reply u,
      assistant_replies
        (events (process_query fuel prompt tools system_prompt s)) ->
      In (Converse req reply)
         (events (process_query fuel prompt tools system_prompt s)) ->
      NoDup (tool_use_ids (messages req)) ->
      In u (transcript_tool_uses (messages req)) ->
      tool_result_ids (messages req) = tool_use_ids (messages req) /\
      length (answers_to (toolUseId u) (messages req)) = 1).
Proof.
  split.
  - intros fuel tools q s req reply u Hroles Hin Hnodup Hu.
    destruct (get_table_info_run fuel tools q s) as [_ Hevs].
    rewrite Hevs in *.
    pose proof (get_table_info_loop_run fuel tools q s) as Hrun.
    cbv zeta in Hrun.
    assert (Heq : tool_result_ids (messages req)
                  = tool_use_ids (messages req)).
    { eapply loop_run_answered; [exact Hrun | | reflexivity |].
      - now apply assistant_replies_requests.
      - eapply in_requests_gateway, Hin. }
    split; [exact Heq | now apply answered_once].
  - intros fuel prompt tools sp s req reply u Hroles Hin Hnodup Hu.
    destruct (process_query_run fuel prompt tools sp s) as [_ Hevs].
    rewrite Hevs in *.
    destruct (String.eqb_spec prompt "") as [-> | Hp].
    + rewrite process_query_loop_empty in Hin. destruct Hin.
    + destruct (process_query_loop_run fuel prompt tools sp s Hp)
        as (o & Hrun & _).
      assert (Heq : tool_result_ids (messages req)
                    = tool_use_ids (messages req)).
      { eapply loop_run_answered; [exact Hrun | | reflexivity |].
        - now apply assistant_replies_requests.
        - eapply in_requests_gateway, Hin. }
      split; [exact Heq | now apply answered_once].
Qed.


(** *** What a loop returns, from what it logged *)

Lemma for_each_returns {X L} (R : L -> list event -> L -> Prop)
      (body : X -> L -> M L) :
  (forall l, R l [] l) ->
  (forall l ev1 l1 ev2 l2, R l ev1 l1 -> R l1 ev2 l2 -> R l (ev1 ++ ev2) l2) ->
  (forall x l s l', result (body x l s) = Returns l' ->
                    R l (events (body x l s)) l') ->
  forall xs l s l',
    result (for_each body xs l s) = Returns l' ->
    R l (events (for_each body xs l s)) l'.
Proof.
  intros Hrefl Htrans Hbody xs.
  induction xs as [| x xs IH]; intros l s l'; simpl.
  - intros [= <-]. apply Hrefl.
  - unfold bind. specialize (Hbody x l s).
    destruct (result (body x l s)) as [l1 | e |]; simpl; try discriminate.
    intros Hr. eapply Htrans; [now apply Hbody | now apply IH].
Qed.

Lemma while_true_returns {L} (R : L -> list event -> L -> Prop)
      (body : L -> M (control L)) :
  (forall l ev1 l1 ev2 l2, R l ev1 l1 -> R l1 ev2 l2 -> R l (ev1 ++ ev2) l2) ->
  (forall l s c, result (body l s) = Returns c ->
                 R l (events (body l s))
                   (match c with Continue l' => l' | Break l' => l' end)) ->
  forall fuel l s l',
    result (while_true body fuel l s) = Returns l' ->
    R l (events (while_true body fuel l s)) l'.
Proof.
  intros Htrans Hbody fuel.
  induction fuel as [| fuel IH]; intros l s l'; simpl; [discriminate |].
  unfold bind. specialize (Hbody l s).
  destruct (result (body l s)) as [[l1 | l1] | e |]; simpl; try discriminate.
  - intros Hr. eapply Htrans; [exact (Hbody _ eq_refl) | now apply IH].
  - intros [= <-]. rewrite app_nil_r. exact (Hbody _ eq_refl).
Qed.

Lemma last_cons {A} (l : list A) (a d : A) :
  last (a :: l) d = last l a.
Proof.
  revert a d. induction l as [| b l IH]; intros a d; [reflexivity |].
  change (last (a :: b :: l) d) with (last (b :: l) d).
  now rewrite !IH.
Qed.

Lemma last_app_default {A} (l1 l2 : list A) (d : A) :
  last (l1 ++ l2) d = last l2 (last l1 d).
Proof.
  revert d. induction l1 as [| a l1 IH]; intros d; [reflexivity |].
  rewrite <- app_comm_cons, !last_cons. apply IH.
Qed.

Lemma tool_result_texts_app (ev1 ev2 : list event) :
  tool_result_texts (ev1 ++ ev2)
  = tool_result_texts ev1 ++ tool_result_texts ev2.
Proof. unfold tool_result_texts. apply flat_map_app. Qed.

Lemma keeps_last_text_trans l ev1 l1 ev2 l2 :
  keeps_last_text l ev1 l1 -> keeps_last_text l1 ev2 l2 ->
  keeps_last_text l (ev1 ++ ev2) l2.
Proof.
  unfold keeps_last_text. intros H1 H2.
  now rewrite tool_result_texts_app, last_app_default, <- H1.
Qed.

Lemma get_table_info_tool_last x l s l' :
  result (get_table_info_tool x l s) = Returns l' ->
  keeps_last_text l (events (get_table_info_tool x l s)) l'.
Proof.
  destruct l as [ml ti]. unfold keeps_last_text.
  destruct x as [t | u | r]; simpl; try (now intros [= <-]).
  unfold bind, mcp_call_tool, request.
  destruct (call_tool (world s) (name u) (input u)) as [[res | e] w]; simpl;
    [| discriminate].
  unfold first_text.
  destruct (cr_content res) as [| t more]; simpl; [discriminate |].
  now intros [= <-].
Qed.

Lemma get_table_info_turn_last tools l s c :
  result (get_table_info_turn tools l s) = Returns c ->
  keeps_last_text l (events (get_table_info_turn tools l s))
                  (match c with Continue l' => l' | Break l' => l' end).
Proof.
  destruct l as [ml ti].
  unfold get_table_info_turn, bind, bedrock_converse, request.
  destruct (converse (world s) _) as [[response | e] w]; simpl;
    [| discriminate].
  destruct (stopReason response =? "tool_use")%string; simpl.
  - pose proof (for_each_returns keeps_last_text get_table_info_tool
                  (fun l => eq_refl) keeps_last_text_trans
                  get_table_info_tool_last
                  (content (output_message response))
                  (ml ++ [output_message response], ti)
                  (mkState w (session s))) as Hfor.
    destruct (result (for_each _ _ _ _)) as [l1 | e |]; simpl;
      try discriminate.
    intros [= <-]. rewrite app_nil_r. exact (Hfor l1 eq_refl).
  - now intros [= <-].
Qed.

Lemma no_executor_call_no_text (evs : list event) :
  executor_calls evs = [] -> tool_result_texts evs = [].
Proof.
  induction evs as [| ev evs IH]; [reflexivity |].
  destruct ev; simpl; try exact IH. discriminate.
Qed.

(** C3: whenever [get_table_info] returns, the value it returns is the
    text of the last tool result of the run, as the executor gave it
    (the first content element of that result), whatever the assistant
    wrote; and it is the empty string when no tool was invoked. *)
Theorem table_info_is_last_tool_result :
  forall fuel tools query_request s table_info,
    result (get_table_info fuel tools query_request s) = Returns table_info ->
    table_info
    = last (tool_result_texts
              (events (get_table_info fuel tools query_request s)))
           ""%string
    /\
    (executor_calls (events (get_table_info fuel tools query_request s)) = []
     -> table_info = ""%string).
Proof.
  intros fuel tools q s v Hr.
  destruct (get_table_info_run fuel tools q s) as [Hres Hevs].
  rewrite Hres in Hr. rewrite Hevs.
  destruct (result (get_table_info_loop fuel tools q s)) as [l' | |] eqn:El;
    try discriminate Hr.
  injection Hr as <-.
  pose proof (while_true_returns keeps_last_text (get_table_info_turn tools)
                keeps_last_text_trans (get_table_info_turn_last tools)
                fuel _ s l' El) as Hlast.
  unfold keeps_last_text in Hlast. simpl in Hlast.
  split; [exact Hlast |].
  intros Hnone. apply no_executor_call_no_text in Hnone.
  unfold get_table_info_loop in Hnone. now rewrite Hlast, Hnone.
Qed.


(** *** Single tool invocations, the empty prompt, result shaping *)

Lemma in_requests_call (evs : list event) tool arguments reply :
  In (CallTool tool arguments reply) evs ->
  In (CallTool tool arguments reply) (requests evs).
Proof. intros Hin. unfold requests. apply filter_In. auto. Qed.

(** C10: for every tool invocation of either loop that the executor
    answers, only the first element of the content of the answer is
    read: with an empty content the step raises [IndexError]; otherwise
    the step appends one user message whose only block is a [toolResult]
    with the id of the request and exactly one text, the text of the
    first content element ([get_table_info] also keeps that text as
    [table_info]). *)
Theorem only_first_content_element_is_read :
  (forall u ml ti s res,
      In (CallTool (name u) (input u) (Ok res))
         (events (get_table_info_tool (toolUse u) (ml, ti) s)) ->
      match cr_content res with
      | [] =>
          result (get_table_info_tool (toolUse u) (ml, ti) s)
          = Raises IndexError
      | t :: _ =>
          result (get_table_info_tool (toolUse u) (ml, ti) s)
          = Returns (ml ++ [mkMessage user
                              [toolResult (mkToolResult (toolUseId u) [t])]],
                     t)
      end)
  /\
  (forall u ml s res,
      In (CallTool (name u) (input u) (Ok res))
         (events (process_query_tool (toolUse u) ml s)) ->
      match cr_content res with
      | [] =>
          result (process_query_tool (toolUse u) ml s) = Raises IndexError
      | t :: _ =>
          result (process_query_tool (toolUse u) ml s)
          = Returns (ml ++ [mkMessage user
                              [toolResult (mkToolResult (toolUseId u) [t])]])
      end).
Proof.
  split.
  - intros u ml ti s res. simpl.
    unfold bind, mcp_call_tool, request.
    destruct (call_tool (world s) (name u) (input u)) as [[res0 | e] w];
      simpl.
    + unfold first_text.
      destruct (cr_content res0) as [| t more] eqn:Ec; simpl;
        intros [[= <-] | []]; now rewrite Ec.
    + intros [[=] | []].
  - intros u ml s res Hin. apply in_requests_call in Hin.
    pose proof (process_query_tool_step (toolUse u) ml s) as Hstep.
    cbv beta in Hstep. rewrite outcome_map_id in Hstep.
    remember (result (process_query_tool (toolUse u) ml s)) as o.
    remember (requests (events (process_query_tool (toolUse u) ml s)))
      as reqs.
    inversion Hstep as [ | | u0 e Hu Ho He | u0 e Hu Ho He
                         | u0 res0 Hc Hu Ho He
                         | u0 res0 t more Hc Hu Ho He];
      rewrite <- He in Hin.
    + destruct Hin.
    + destruct Hin as [[=] | []].
    + destruct Hin as [[= <-] | []]. now rewrite Hc.
    + destruct Hin as [[= <-] | []]. now rewrite Hc.
Qed.

(** C9: [process_query] on the empty prompt returns at once: the state
    is untouched, nothing is logged, so no gateway call and no executor
    call is made, and no [message_list] is built. *)
Theorem empty_prompt_returns_immediately :
  forall fuel tools system_prompt s,
    process_query fuel "" tools system_prompt s = mkRun (Returns tt) s [] /\
    process_query_loop fuel "" tools system_prompt s
    = mkRun (Returns None) s [].
Proof. intros. split; reflexivity. Qed.

Lemma format_sql_result_returns (result_text : string) :
  exists v, format_sql_result result_text = Ok v.
Proof.
  unfold format_sql_result.
  destruct (format_sql_result_try result_text) as [[df |] | e]; eauto.
Qed.

Lemma format_sql_result_not_json (result_text : string) :
  json_loads result_text = None ->
  format_sql_result result_text = Ok (Text result_text).
Proof.
  intros Hl. unfold format_sql_result, format_sql_result_try.
  now rewrite Hl.
Qed.

Lemma format_sql_result_records (result_text : string) x l :
  json_loads result_text = Some (JArr (x :: l)) ->
  format_sql_result result_text
  = match pd_DataFrame (x :: l) with
    | Ok df => Ok (Frame df)
    | Fail _ => Ok (Text result_text)
    end.
Proof.
  intros Hl. unfold format_sql_result, format_sql_result_try.
  rewrite Hl. now destruct (pd_DataFrame (x :: l)).
Qed.

(** C2 at the failing input: the text of an empty JSON array parses, is
    not a non-empty list, and [format_sql_result] falls off its end: it
    returns [None], not the text. *)
Theorem format_sql_result_empty_array :
  json_loads "[]" = Some (JArr []) /\
  format_sql_result "[]" = Ok PyNone.
Proof. split; reflexivity. Qed.

(** The same holds for every JSON text that is not a non-empty array. *)
Lemma format_sql_result_falls_through (result_text : string) (data : json) :
  json_loads result_text = Some data ->
  (forall x l, data <> JArr (x :: l)) ->
  format_sql_result result_text = Ok PyNone.
Proof.
  intros Hl Hd. unfold format_sql_result, format_sql_result_try.
  rewrite Hl. destruct data as [ | | | | | [| x l] | ]; try reflexivity.
  now destruct (Hd x l).
Qed.


(** *** Cancellation *)

Lemma wp_bind {A B} (m : M A) (f : A -> M B)
      (Q : outcome B -> State -> list event -> Prop) s :
  wp m (fun o s1 ev1 =>
          match o with
          | Returns a => wp (f a) (fun o2 s2 ev2 => Q o2 s2 (ev1 ++ ev2)) s1
          | Raises e => Q (Raises e) s1 ev1
          | OutOfFuel => Q OutOfFuel s1 ev1
          end) s ->
  wp (bind m f) Q s.
Proof.
  unfold wp, bind. destruct (result (m s)) as [a | e |]; simpl; auto.
Qed.

Lemma wp_ret {A} (a : A) (Q : outcome A -> State -> list event -> Prop) s :
  Q (Returns a) s [] -> wp (ret a) Q s.
Proof. exact (fun HQ => HQ). Qed.

Lemma wp_emit ev (Q : outcome unit -> State -> list event -> Prop) s :
  Q (Returns tt) s [ev] -> wp (emit ev) Q s.
Proof. exact (fun HQ => HQ). Qed.

Lemma wp_read_flag key (Q : outcome bool -> State -> list event -> Prop) s :
  match key (session s) with
  | Some b => Q (Returns b) s []
  | None => Q (Raises AttributeError) s []
  end ->
  wp (read_flag key) Q s.
Proof.
  unfold wp, read_flag, bind, get_session; simpl.
  now destruct (key (session s)).
Qed.

Lemma wp_set_is_running b
      (Q : outcome unit -> State -> list event -> Prop) s :
  Q (Returns tt)
    (mkState (world s) (mkSession (Some b) (should_cancel (session s)))) [] ->
  wp (set_is_running b) Q s.
Proof. exact (fun HQ => HQ). Qed.

Lemma wp_set_should_cancel b
      (Q : outcome unit -> State -> list event -> Prop) s :
  Q (Returns tt)
    (mkState (world s) (mkSession (is_running (session s)) (Some b))) [] ->
  wp (set_should_cancel b) Q s.
Proof. exact (fun HQ => HQ). Qed.

Lemma wp_init_session (Q : outcome unit -> State -> list event -> Prop) s :
  Q (Returns tt)
    (mkState (world s)
       (mkSession
          (match is_running (session s) with
           | None => Some false
           | set => set
           end)
          (match should_cancel (session s) with
           | None => Some false
           | set => set
           end))) [] ->
  wp init_session Q s.
Proof. exact (fun HQ => HQ). Qed.

Lemma wp_st_rerun {A} (Q : outcome A -> State -> list event -> Prop) s :
  Q (Raises RerunException) s [Display StRerun] -> wp st_rerun Q s.
Proof. exact (fun HQ => HQ). Qed.

Lemma wp_request {A} (call : World -> reply A * World)
      (log : reply A -> event)
      (Q : outcome A -> State -> list event -> Prop) s :
  (forall r w, Q (of_reply r) (mkState w (session s)) [log r]) ->
  wp (request call log) Q s.
Proof.
  intros HQ. unfold wp, request. destruct (call (world s)) as [r w].
  apply HQ.
Qed.

Lemma wp_with_mcp_client {A} (block : M A)
      (Q : outcome A -> State -> list event -> Prop) s :
  (forall e w, Q (Raises e) (mkState w (session s)) [McpEnter (Fail e)]) ->
  (forall w,
      wp block
         (fun o s2 ev2 =>
            match o with
            | OutOfFuel => Q OutOfFuel s2 (McpEnter (Ok tt) :: ev2)
            | _ => Q o s2 (McpEnter (Ok tt) :: ev2 ++ [McpExit])
            end)
         (mkState w (session s))) ->
  wp (with_mcp_client block) Q s.
Proof.
  intros Hfail Hblock. unfold with_mcp_client.
  apply wp_bind, wp_request. intros [[] | e] w; simpl; [| apply Hfail].
  specialize (Hblock w). unfold wp in *.
  destruct (result (block _)) eqn:E; simpl; rewrite ?E; exact Hblock.
Qed.

Lemma wp_mono {A} (m : M A)
      (Q Q' : outcome A -> State -> list event -> Prop) s :
  wp m Q' s -> (forall o s2 evs, Q' o s2 evs -> Q o s2 evs) -> wp m Q s.
Proof. unfold wp. auto. Qed.

Lemma no_call_made_display o d (evs : list event) :
  no_call_made o evs -> no_call_made o (Display d :: evs).
Proof.
  intros (Hg & He & Ho & Hl). split; [| split; [| split]]; auto.
  intros tools [Hin | Hin]; [discriminate Hin |].
  destruct (Hl tools Hin) as [Hr Hw]. split; [exact Hr | now right].
Qed.

Ltac no_call :=
  unfold no_call_made; simpl;
  split; [reflexivity | split; [reflexivity | split; [discriminate |]]];
  let Hin := fresh "Hin" in
  intros ? Hin;
  repeat (destruct Hin as [Hin | Hin]; try discriminate Hin);
  try (now destruct Hin);
  (split; [reflexivity | auto 10]).

Ltac wp_step :=
  lazymatch goal with
  | |- wp (bind _ _) _ _ => apply wp_bind
  | |- wp (ret _) _ _ => apply wp_ret
  | |- wp (emit _) _ _ => apply wp_emit
  | |- wp (read_flag _) _ _ => apply wp_read_flag
  | |- wp (set_is_running _) _ _ => apply wp_set_is_running
  | |- wp (set_should_cancel _) _ _ => apply wp_set_should_cancel
  | |- wp init_session _ _ => apply wp_init_session
  | |- wp st_rerun _ _ => apply wp_st_rerun
  end;
  cbv beta iota delta [session world is_running should_cancel
                       st_button andb negb].

(** The block under the [if] stops at its first checkpoint. *)
Lemma run_body_cancelled fuel query w running :
  wp (run_body fuel query)
     (fun o _ evs => no_call_made o evs)
     (mkState w (mkSession running (Some true))).
Proof.
  unfold run_body. apply wp_with_mcp_client.
  - intros e w1. no_call.
  - intros w1. apply wp_bind. unfold mcp_list_all_tools.
    apply wp_request. intros [tools | e] w2; simpl; [| no_call].
    unfold cancelled. repeat wp_step. no_call.
Qed.

(** C5: in every run of [main] that starts with [should_cancel] set,
    whatever the widgets report, no gateway call and no executor call is
    made, and neither loop is entered (the run ends without spending
    fuel); when the run gets as far as the tool catalog, it shows the
    cancellation warning and stops at that first checkpoint by a
    rerun. *)
Theorem cancelled_run_makes_no_call :
  forall fuel widgets s,
    should_cancel (session s) = Some true ->
    gateway_calls (events (main fuel widgets s)) = [] /\
    executor_calls (events (main fuel widgets s)) = [] /\
    result (main fuel widgets s) <> OutOfFuel /\
    (forall tools,
        In (ListTools (Ok tools)) (events (main fuel widgets s)) ->
        result (main fuel widgets s) = Raises RerunException /\
        In (Display (StWarning "쿼리 실행이 취소되었습니다."))
           (events (main fuel widgets s))).
Proof.
  intros fuel [query run_click cancel_click] [w [running cancel]] Hc.
  simpl in Hc. subst cancel.
  change (wp (main fuel (mkWidgets query run_click cancel_click))
             (fun o _ evs => no_call_made o evs)
             (mkState w (mkSession running (Some true)))).
  unfold main. cbv beta iota zeta delta [query_text run_clicked cancel_clicked].
  do 4 wp_step.
  destruct running as [[|] |]; destruct run_click; destruct cancel_click;
    repeat wp_step; try no_call;
    (destruct (query =? "")%string;
     cbv beta iota delta [andb negb]; [wp_step; no_call |];
     eapply wp_mono; [apply run_body_cancelled |];
     intros o s2 evs Hno; now apply no_call_made_display).
Qed.

(** *** Runs with a known first reply, and fuel *)

Lemma wp_request_known {A} (call : World -> reply A * World)
      (log : reply A -> event)
      (Q : outcome A -> State -> list event -> Prop) s r w :
  call (world s) = (r, w) ->
  Q (of_reply r) (mkState w (session s)) [log r] ->
  wp (request call log) Q s.
Proof. intros Hc HQ. unfold wp, request. now rewrite Hc. Qed.

Lemma wp_show_texts blocks
      (Q : outcome unit -> State -> list event -> Prop) s :
  (forall evs, requests evs = [] -> Q (Returns tt) s evs) ->
  wp (show_texts blocks) Q s.
Proof.
  intros HQ. unfold wp.
  destruct (show_texts_run blocks s) as (-> & -> & He). now apply HQ.
Qed.

Lemma no_request_no_call (evs : list event) :
  requests evs = [] -> gateway_calls evs = [] /\ executor_calls evs = [].
Proof.
  intros He. rewrite <- gateway_calls_requests, <- executor_calls_requests.
  now rewrite He.
Qed.

Lemma executor_calls_app (ev1 ev2 : list event) :
  executor_calls (ev1 ++ ev2) = executor_calls ev1 ++ executor_calls ev2.
Proof. unfold executor_calls. apply flat_map_app. Qed.

(** A run that ended keeps its result, its state and its log when it is
    given more fuel. *)
Lemma while_true_more_fuel {L} (body : L -> M (control L)) fuel extra l s :
  result (while_true body fuel l s) <> OutOfFuel ->
  while_true body (fuel + extra) l s = while_true body fuel l s.
Proof.
  revert l s. induction fuel as [| fuel IH]; intros l s; simpl.
  - intros Hr. now destruct Hr.
  - unfold bind. destruct (result (body l s)) as [[l1 | l1] | e |];
      simpl; try reflexivity.
    intros Hr. now rewrite IH.
Qed.

Lemma get_table_info_more_fuel fuel extra tools query_request s :
  result (get_table_info fuel tools query_request s) <> OutOfFuel ->
  get_table_info (fuel + extra) tools query_request s
  = get_table_info fuel tools query_request s.
Proof.
  unfold get_table_info, get_table_info_loop, bind. intros Hr.
  rewrite while_true_more_fuel; [reflexivity |].
  intros Ho. rewrite Ho in Hr. now apply Hr.
Qed.

Lemma process_query_more_fuel fuel extra prompt tools system_prompt s :
  result (process_query fuel prompt tools system_prompt s) <> OutOfFuel ->
  process_query (fuel + extra) prompt tools system_prompt s
  = process_query fuel prompt tools system_prompt s.
Proof.
  unfold process_query, process_query_loop.
  destruct (prompt =? "")%string; [reflexivity |].
  unfold bind. intros Hr.
  rewrite while_true_more_fuel; [reflexivity |].
  intros Ho. rewrite Ho in Hr. now apply Hr.
Qed.

(** C7: whatever the fuel, when the gateway answers the first call of
    [get_table_info] or of [process_query] (on a prompt that is not
    empty) with a stop reason other than [tool_use], the function returns
    after that one gateway call and without any executor call;
    [get_table_info] returns the empty string. *)
Theorem base_case_one_gateway_call :
  (forall fuel tools query_request s response w,
      let req := mkRequest model_id
                           [user_text (table_info_request query_request)]
                           table_info_system_prompt tools in
      converse (world s) req = (Ok response, w) ->
      stopReason response <> "tool_use"%string ->
      result (get_table_info (S fuel) tools query_request s)
      = Returns ""%string /\
      gateway_calls (events (get_table_info (S fuel) tools query_request s))
      = [req] /\
      executor_calls (events (get_table_info (S fuel) tools query_request s))
      = [])
  /\
  (forall fuel prompt tools system_prompt s response w,
      let req := mkRequest model_id [user_text prompt] system_prompt tools in
      prompt <> ""%string ->
      converse (world s) req = (Ok response, w) ->
      stopReason response <> "tool_use"%string ->
      result (process_query (S fuel) prompt tools system_prompt s)
      = Returns tt /\
      gateway_calls
        (events (process_query (S fuel) prompt tools system_prompt s))
      = [req] /\
      executor_calls
        (events (process_query (S fuel) prompt tools system_prompt s))
      = []).
Proof.
  split.
  - intros fuel tools q s response w req Hc Hstop.
    apply String.eqb_neq in Hstop.
    change (wp (get_table_info (S fuel) tools q)
               (fun o _ evs => o = Returns ""%string /\
                               gateway_calls evs = [req] /\
                               executor_calls evs = []) s).
    unfold get_table_info, get_table_info_loop.
    apply wp_bind. change (while_true ?b (S fuel) ?l)
      with (c <- b l ;; match c with
                        | Break l' => ret l'
                        | Continue l' => while_true b fuel l'
                        end).
    apply wp_bind. unfold get_table_info_turn.
    apply wp_bind. unfold bedrock_converse.
    eapply wp_request_known; [exact Hc |].
    cbv beta iota delta [of_reply]. rewrite Hstop.
    cbv beta iota delta [negb]. apply wp_ret. cbv beta iota.
    apply wp_ret. cbv beta iota. apply wp_ret. auto.
  - intros fuel prompt tools sp s response w req Hp Hc Hstop.
    apply String.eqb_neq in Hstop. apply String.eqb_neq in Hp.
    change (wp (process_query (S fuel) prompt tools sp)
               (fun o _ evs => o = Returns tt /\
                               gateway_calls evs = [req] /\
                               executor_calls evs = []) s).
    unfold process_query, process_query_loop. rewrite Hp.
    apply wp_bind. apply wp_bind.
    change (while_true ?b (S fuel) ?l)
      with (c <- b l ;; match c with
                        | Break l' => ret l'
                        | Continue l' => while_true b fuel l'
                        end).
    apply wp_bind. unfold process_query_turn.
    apply wp_bind. unfold bedrock_converse.
    eapply wp_request_known; [exact Hc |].
    cbv beta iota delta [of_reply].
    apply wp_bind, wp_show_texts. intros evs Hev.
    rewrite Hstop. cbv beta iota delta [negb].
    apply wp_ret. cbv beta iota. apply wp_ret. cbv beta iota.
    apply wp_ret. cbv beta iota. apply wp_ret.
    destruct (no_request_no_call _ Hev) as [Hg He].
    rewrite !app_nil_r, gateway_calls_app, executor_calls_app, Hg, He.
    auto.
Qed.


(* ----------------------------------------------------------------- *)
(** *** What the loops log and what they leave alone *)

Lemma only_ret {A} (P : event -> Prop) (a : A) : only P (ret a).
Proof. intros s. split; [reflexivity | constructor]. Qed.

Lemma only_raise {A} (P : event -> Prop) (e : exn) : only P (raise (A := A) e).
Proof. intros s. split; [reflexivity | constructor]. Qed.

Lemma only_out_of_fuel {A} (P : event -> Prop) : only P (out_of_fuel (A := A)).
Proof. intros s. split; [reflexivity | constructor]. Qed.

Lemma only_emit (P : event -> Prop) ev : P ev -> only P (emit ev).
Proof. intros HP s. split; [reflexivity | now repeat constructor]. Qed.

Lemma only_request {A} (P : event -> Prop)
      (call : World -> reply A * World) (log : reply A -> event) :
  (forall r, P (log r)) -> only P (request call log).
Proof.
  intros HP s. unfold request. destruct (call (world s)) as [r w]. simpl.
  split; [reflexivity | now repeat constructor].
Qed.

Lemma only_bind {A B} (P : event -> Prop) (m : M A) (f : A -> M B) :
  only P m -> (forall a, only P (f a)) -> only P (bind m f).
Proof.
  intros Hm Hf s. unfold bind. destruct (Hm s) as [Hs He].
  destruct (result (m s)) as [a | e |]; simpl; auto.
  destruct (Hf a (state_after (m s))) as [Hs' He'].
  split; [congruence | now apply Forall_app].
Qed.

Lemma only_for_each {X L} (P : event -> Prop) (body : X -> L -> M L) :
  (forall x l, only P (body x l)) ->
  forall xs l, only P (for_each body xs l).
Proof.
  intros Hbody xs. induction xs as [| x xs IH]; intros l; simpl.
  - apply only_ret.
  - apply only_bind; auto.
Qed.

Lemma only_while_true {L} (P : event -> Prop) (body : L -> M (control L)) :
  (forall l, only P (body l)) ->
  forall fuel l, only P (while_true body fuel l).
Proof.
  intros Hbody fuel. induction fuel as [| fuel IH]; intros l; simpl.
  - apply only_out_of_fuel.
  - apply only_bind; [apply Hbody |].
    intros [l' | l']; [apply IH | apply only_ret].
Qed.

Lemma only_first_text (P : event -> Prop) res : only P (first_text res).
Proof.
  unfold first_text. destruct (cr_content res);
    [apply only_raise | apply only_ret].
Qed.

Lemma only_subscript (P : event -> Prop) v key : only P (subscript v key).
Proof.
  unfold subscript. destruct v; try apply only_raise.
  destruct (Json.dict_get key members); [apply only_ret | apply only_raise].
Qed.

Lemma only_show_texts (P : event -> Prop) blocks :
  (forall t, P (Display (StMarkdown t))) -> only P (show_texts blocks).
Proof.
  intros HP. induction blocks as [| b blocks IH]; simpl.
  - apply only_ret.
  - destruct b; try exact IH.
    apply only_bind; [now apply only_emit |]. intros _.
    apply only_bind; [now apply only_emit |]. intros _. exact IH.
Qed.

Lemma only_call_format_sql_result (P : event -> Prop) t :
  only P (call_format_sql_result t).
Proof. intros s. split; [reflexivity | constructor]. Qed.

Lemma only_show_result (P : event -> Prop) v :
  (forall df, P (Display (StDataframe df))) ->
  (forall w, P (Display (StWrite w))) ->
  only P (show_result v).
Proof. intros Hd Hw. destruct v; now apply only_emit. Qed.

(** What [P] must allow for [get_table_info] to log only [P]. *)
Lemma only_get_table_info_loop (P : event -> Prop) fuel tools query_request :
  (forall ml response,
      P (Converse (mkRequest model_id ml table_info_system_prompt tools)
                  response)) ->
  (forall tool arguments result, P (CallTool tool arguments result)) ->
  only P (get_table_info_loop fuel tools query_request).
Proof.
  intros Hc Ht. unfold get_table_info_loop.
  apply only_while_true. intros [ml ti]. unfold get_table_info_turn.
  apply only_bind; [apply only_request; intros r; apply Hc |].
  intros response. destruct (negb _); [apply only_ret |].
  apply only_bind; [| intros l; apply only_ret].
  apply only_for_each. intros [t | u | r] [ml' ti']; simpl;
    try apply only_ret.
  apply only_bind; [apply only_request; intros r; apply Ht |].
  intros res. apply only_bind; [apply only_first_text |].
  intros t. apply only_ret.
Qed.


Lemma only_get_table_info (P : event -> Prop) fuel tools query_request :
  (forall ml response,
      P (Converse (mkRequest model_id ml table_info_system_prompt tools)
                  response)) ->
  (forall tool arguments result, P (CallTool tool arguments result)) ->
  only P (get_table_info fuel tools query_request).
Proof.
  intros Hc Ht. unfold get_table_info.
  apply only_bind; [now apply only_get_table_info_loop |].
  intros l. apply only_ret.
Qed.

Lemma only_process_query_loop (P : event -> Prop) fuel prompt tools
      system_prompt :
  (forall ml response,
      P (Converse (mkRequest model_id ml system_prompt tools) response)) ->
  (forall tool arguments result, P (CallTool tool arguments result)) ->
  (forall t, P (Display (StMarkdown t))) ->
  (forall v, P (Display (StCode v))) ->
  (forall df, P (Display (StDataframe df))) ->
  (forall w, P (Display (StWrite w))) ->
  only P (process_query_loop fuel prompt tools system_prompt).
Proof.
  intros Hc Ht Hm Hcode Hdf Hw. unfold process_query_loop.
  destruct (prompt =? "")%string; [apply only_ret |].
  apply only_bind; [| intros l; apply only_ret].
  apply only_while_true. intros ml. unfold process_query_turn.
  apply only_bind; [apply only_request; intros r; apply Hc |].
  intros response. apply only_bind; [now apply only_show_texts |].
  intros _. destruct (negb _); [apply only_ret |].
  apply only_bind; [| intros l; apply only_ret].
  apply only_for_each. intros [t | u | r] ml'; simpl; try apply only_ret.
  apply only_bind; [now apply only_emit |]. intros _.
  apply only_bind; [now apply only_emit |]. intros _.
  apply only_bind; [apply only_subscript |]. intros sql.
  apply only_bind; [now apply only_emit |]. intros _.
  apply only_bind; [apply only_request; intros r; apply Ht |]. intros res.
  apply only_bind; [now apply only_emit |]. intros _.
  apply only_bind; [now apply only_emit |]. intros _.
  apply only_bind; [apply only_first_text |]. intros t.
  apply only_bind; [apply only_call_format_sql_result |]. intros v.
  apply only_bind; [now apply only_show_result |]. intros _.
  apply only_bind; [apply only_first_text |]. intros t'.
  apply only_ret.
Qed.

Lemma only_process_query (P : event -> Prop) fuel prompt tools system_prompt :
  (forall ml response,
      P (Converse (mkRequest model_id ml system_prompt tools) response)) ->
  (forall tool arguments result, P (CallTool tool arguments result)) ->
  (forall t, P (Display (StMarkdown t))) ->
  (forall v, P (Display (StCode v))) ->
  (forall df, P (Display (StDataframe df))) ->
  (forall w, P (Display (StWrite w))) ->
  only P (process_query fuel prompt tools system_prompt).
Proof.
  intros Hc Ht Hm Hcode Hdf Hw. unfold process_query.
  apply only_bind; [now apply only_process_query_loop |].
  intros l. apply only_ret.
Qed.

(** X1: [get_table_info] and [process_query] never change the session
    state.  [get_table_info] logs nothing but calls of the gateway and
    of the executor: it shows nothing.  [process_query] logs, besides
    such calls, only markdown, code, data frames and written values: it
    never warns, never asks for a rerun and never opens, lists or closes
    the MCP client. *)
Theorem loops_keep_session_and_log_kinds :
  (forall fuel tools query_request s,
      session (state_after (get_table_info fuel tools query_request s))
      = session s /\
      Forall service_event
             (events (get_table_info fuel tools query_request s)))
  /\
  (forall fuel prompt tools system_prompt s,
      session (state_after (process_query fuel prompt tools system_prompt s))
      = session s /\
      Forall loop_event
             (events (process_query fuel prompt tools system_prompt s))).
Proof.
  split.
  - intros fuel tools q s.
    apply (only_get_table_info service_event); intros; exact I.
  - intros fuel prompt tools sp s.
    apply (only_process_query loop_event); intros; exact I.
Qed.

(** X2: every gateway call of a run of [get_table_info] names the model
    of the program, the fixed system prompt of the function and the tool
    catalog the function was given; every gateway call of a run of
    [process_query] names that model, the system prompt and the tool
    catalog it was given.  Only the transcript changes from call to
    call. *)
Theorem gateway_requests_keep_their_setting :
  (forall fuel tools query_request s,
      Forall (asks_with table_info_system_prompt tools)
             (events (get_table_info fuel tools query_request s)))
  /\
  (forall fuel prompt tools system_prompt s,
      Forall (asks_with system_prompt tools)
             (events (process_query fuel prompt tools system_prompt s))).
Proof.
  split.
  - intros fuel tools q s.
    apply (only_get_table_info (asks_with table_info_system_prompt tools));
      intros; simpl; auto.
  - intros fuel prompt tools sp s.
    apply (only_process_query (asks_with sp tools)); intros; simpl; auto.
Qed.


(* ----------------------------------------------------------------- *)
(** *** The transcript only grows *)

Lemma loop_run_grows ml o evs :
  loop_run ml o evs ->
  match gateway_calls evs with
  | [] => True
  | req :: _ => messages req = ml
  end /\
  grows (gateway_calls evs).
Proof.
  induction 1 as [ml | ml ml' evs Hturn | ml ml1 ev1 o ev2 Hturn _ IH
                  | ml e evs Hturn].
  - split; exact I.
  - apply turn_step_gateway in Hturn. destruct Hturn as (req & -> & Hm).
    split; [exact Hm | exact I].
  - pose proof (turn_step_continue _ _ _ Hturn)
      as (req0 & response & results & _ & _ & _ & _ & _ & Hml).
    apply turn_step_gateway in Hturn. destruct Hturn as (req & Hg & Hm).
    rewrite gateway_calls_app, Hg. simpl. split; [exact Hm |].
    destruct IH as [Hhead Hgrows].
    destruct (gateway_calls ev2) as [| r2 later]; [exact I |].
    split; [| exact Hgrows].
    exists (output_message response :: answer_messages
              (tool_uses (content (output_message response))) results).
    split; [discriminate | congruence].
  - apply turn_step_gateway in Hturn. destruct Hturn as (req & -> & Hm).
    split; [exact Hm | exact I].
Qed.

(** X3: in every run of [get_table_info] and of [process_query] the
    first gateway call sends the transcript that holds only the first
    user message, and every later gateway call sends the transcript of
    the call before it with at least one message added at its end:
    within a run nothing is ever removed from the transcript or changed
    in it. *)
Theorem transcript_is_append_only :
  (forall fuel tools query_request s,
      match gateway_calls (events (get_table_info fuel tools query_request s))
      with
      | [] => True
      | req :: _ =>
          messages req = [user_text (table_info_request query_request)]
      end /\
      grows (gateway_calls
               (events (get_table_info fuel tools query_request s))))
  /\
  (forall fuel prompt tools system_prompt s,
      match gateway_calls
              (events (process_query fuel prompt tools system_prompt s))
      with
      | [] => True
      | req :: _ => messages req = [user_text prompt]
      end /\
      grows (gateway_calls
               (events (process_query fuel prompt tools system_prompt s)))).
Proof.
  split.
  - intros fuel tools q s.
    destruct (get_table_info_run fuel tools q s) as [_ ->].
    pose proof (get_table_info_loop_run fuel tools q s) as Hrun.
    cbv zeta in Hrun. apply loop_run_grows in Hrun.
    now rewrite gateway_calls_requests in Hrun.
  - intros fuel prompt tools sp s.
    destruct (process_query_run fuel prompt tools sp s) as [_ ->].
    destruct (String.eqb_spec prompt "") as [-> | Hp].
    + rewrite process_query_loop_empty. split; exact I.
    + destruct (process_query_loop_run fuel prompt tools sp s Hp)
        as (o & Hrun & _).
      apply loop_run_grows in Hrun.
      now rewrite gateway_calls_requests in Hrun.
Qed.

(* ----------------------------------------------------------------- *)
(** *** Only requested tools are run *)

Lemma requested_tools_app (ev1 ev2 : list event) :
  requested_tools (ev1 ++ ev2) = requested_tools ev1 ++ requested_tools ev2.
Proof. unfold requested_tools. apply flat_map_app. Qed.

Lemma requested_tools_requests (evs : list event) :
  requested_tools (requests evs) = requested_tools evs.
Proof.
  induction evs as [| ev evs IH]; [reflexivity |].
  destruct ev; simpl; now rewrite ?IH.
Qed.

Lemma tool_step_calls ml x o evs :
  tool_step ml x o evs ->
  exists rest,
    map (fun u => (name u, input u)) (tool_uses [x])
    = executor_calls evs ++ rest /\
    requested_tools evs = [] /\
    (forall ml', o = Returns ml' -> rest = []).
Proof.
  inversion 1; subst; simpl.
  - exists []. auto.
  - exists []. auto.
  - exists [(name u, input u)]. repeat split. discriminate.
  - exists []. repeat split.
  - exists []. repeat split.
  - exists []. repeat split.
Qed.

Lemma tools_run_calls ml xs o evs :
  tools_run ml xs o evs ->
  exists rest,
    map (fun u => (name u, input u)) (tool_uses xs)
    = executor_calls evs ++ rest /\
    requested_tools evs = [] /\
    (forall ml', o = Returns ml' -> rest = []).
Proof.
  induction 1 as [ml | ml x xs ml1 ev1 o ev2 Hstep _ IH | ml x xs e ev Hstep].
  - exists []. auto.
  - apply tool_step_calls in Hstep.
    destruct Hstep as (rest1 & H1 & Hr1 & Hnil1).
    destruct IH as (rest & H2 & Hr2 & Hnil).
    rewrite (Hnil1 _ eq_refl), app_nil_r in H1.
    exists rest. change (x :: xs) with ([x] ++ xs).
    unfold tool_uses in *.
    rewrite flat_map_app, map_app, H1, H2.
    rewrite executor_calls_app, requested_tools_app, Hr1, Hr2, app_assoc.
    auto.
  - apply tool_step_calls in Hstep.
    destruct Hstep as (rest1 & H1 & Hr1 & _).
    exists (rest1 ++ map (fun u => (name u, input u)) (tool_uses xs)).
    change (x :: xs) with ([x] ++ xs). unfold tool_uses in *.
    rewrite flat_map_app, map_app, H1, app_assoc.
    repeat split; [exact Hr1 | discriminate].
Qed.

Lemma turn_step_calls ml o evs :
  turn_step ml o evs ->
  exists rest,
    requested_tools evs = executor_calls evs ++ rest /\
    (forall c, o = Returns c -> rest = []).
Proof.
  inversion 1 as [req e Hm | req response Hm Hs
                  | req response ml' evs0 Hm Hs Hrun
                  | req response e evs0 Hm Hs Hrun]; subst.
  - exists []. auto.
  - exists []. apply String.eqb_neq in Hs. simpl. rewrite Hs. auto.
  - apply tools_run_calls in Hrun. destruct Hrun as (rest & Hc & Hr & Hnil).
    exists rest. apply String.eqb_eq in Hs. simpl. rewrite Hs, Hr, app_nil_r.
    split; [exact Hc |]. intros c _. now apply (Hnil ml').
  - apply tools_run_calls in Hrun. destruct Hrun as (rest & Hc & Hr & _).
    exists rest. apply String.eqb_eq in Hs. simpl. rewrite Hs, Hr, app_nil_r.
    split; [exact Hc | discriminate].
Qed.

Lemma loop_run_calls ml o evs :
  loop_run ml o evs ->
  exists rest,
    requested_tools evs = executor_calls evs ++ rest /\
    (forall ml', o = Returns ml' -> rest = []).
Proof.
  induction 1 as [ml | ml ml' evs Hturn | ml ml1 ev1 o ev2 Hturn _ IH
                  | ml e evs Hturn].
  - exists []. auto.
  - apply turn_step_calls in Hturn. destruct Hturn as (rest & Hc & Hnil).
    exists rest. split; [exact Hc |]. intros l _. now apply (Hnil (Break ml')).
  - apply turn_step_calls in Hturn. destruct Hturn as (rest1 & Hc1 & Hnil1).
    rewrite (Hnil1 _ eq_refl), app_nil_r in Hc1.
    destruct IH as (rest & Hc & Hnil). exists rest.
    rewrite requested_tools_app, executor_calls_app, Hc1, Hc, app_assoc.
    auto.
  - apply turn_step_calls in Hturn. destruct Hturn as (rest & Hc & _).
    exists rest. split; [exact Hc | discriminate].
Qed.

(** X4: in every run of [get_table_info] and of [process_query] the
    tools the executor is asked to run are, in order, the tools the
    gateway asked for in its replies with stop reason [tool_use], each
    with the name and the input the gateway gave: a tool is never run
    unasked, twice, or out of order.  When the function returns, every
    requested tool was run. *)
Theorem only_requested_tools_are_run :
  (forall fuel tools query_request s,
      exists rest,
        requested_tools (events (get_table_info fuel tools query_request s))
        = executor_calls (events (get_table_info fuel tools query_request s))
          ++ rest /\
        (forall table_info,
            result (get_table_info fuel tools query_request s)
            = Returns table_info -> rest = []))
  /\
  (forall fuel prompt tools system_prompt s,
      exists rest,
        requested_tools
          (events (process_query fuel prompt tools system_prompt s))
        = executor_calls
            (events (process_query fuel prompt tools system_prompt s))
          ++ rest /\
        (result (process_query fuel prompt tools system_prompt s)
         = Returns tt -> rest = [])).
Proof.
  split.
  - intros fuel tools q s.
    destruct (get_table_info_run fuel tools q s) as [-> ->].
    pose proof (get_table_info_loop_run fuel tools q s) as Hrun.
    cbv zeta in Hrun. apply loop_run_calls in Hrun.
    destruct Hrun as (rest & Hc & Hnil).
    rewrite requested_tools_requests, executor_calls_requests in Hc.
    exists rest. split; [exact Hc |].
    intros ti Hr.
    destruct (result (get_table_info_loop fuel tools q s)) as [l | |];
      try discriminate Hr.
    now apply (Hnil (fst l)).
  - intros fuel prompt tools sp s.
    destruct (process_query_run fuel prompt tools sp s) as [-> ->].
    destruct (String.eqb_spec prompt "") as [-> | Hp].
    + rewrite process_query_loop_empty. exists []. auto.
    + destruct (process_query_loop_run fuel prompt tools sp s Hp)
        as (o & Hrun & Ho).
      apply loop_run_calls in Hrun. destruct Hrun as (rest & Hc & Hnil).
      rewrite requested_tools_requests, executor_calls_requests in Hc.
      exists rest. split; [exact Hc |].
      rewrite Ho. intros Hr. destruct o as [l | |]; try discriminate Hr.
      now apply (Hnil l).
Qed.


(* ----------------------------------------------------------------- *)
(** *** Result shaping, case by case *)

(** X5: [format_sql_result] never raises, and what it returns tells how
    the text was read: a data frame exactly when the text is a JSON array
    that is not empty and pandas built a frame from it; the text itself,
    unchanged, exactly when the text is not JSON or pandas raised on such
    an array (the bare [except] swallows both); [None] exactly when the
    text is JSON of any other shape. *)
Theorem format_sql_result_cases :
  forall result_text,
    match format_sql_result result_text with
    | Ok (Frame df) =>
        exists x l,
          json_loads result_text = Some (JArr (x :: l)) /\
          pd_DataFrame (x :: l) = Ok df
    | Ok (Text s) =>
        s = result_text /\
        (json_loads result_text = None \/
         exists x l e,
           json_loads result_text = Some (JArr (x :: l)) /\
           pd_DataFrame (x :: l) = Fail e)
    | Ok PyNone =>
        exists data,
          json_loads result_text = Some data /\
          forall x l, data <> JArr (x :: l)
    | Fail _ => False
    end.
Proof.
  intros t. unfold format_sql_result, format_sql_result_try.
  destruct (json_loads t) as [data |] eqn:El; [| auto].
  destruct data as [ | b | z | f | s | [| x l] | members];
    try (exists (JArr []); split; [reflexivity | discriminate]);
    try (eexists; split; [reflexivity | discriminate]).
  destruct (pd_DataFrame (x :: l)) as [df | e] eqn:Ed.
  - now exists x, l.
  - split; [reflexivity |]. right. now exists x, l, e.
Qed.

(* ----------------------------------------------------------------- *)
(** *** What [process_query] shows *)

Lemma show_texts_events blocks s :
  show_texts blocks s = mkRun (Returns tt) s (shown_texts blocks).
Proof.
  induction blocks as [| b blocks IH]; [reflexivity |].
  destruct b as [t | u | r]; simpl; try exact IH.
  unfold bind; simpl. now rewrite IH.
Qed.

Lemma wp_show_texts_events blocks
      (Q : outcome unit -> State -> list event -> Prop) s :
  Q (Returns tt) s (shown_texts blocks) -> wp (show_texts blocks) Q s.
Proof. intros HQ. unfold wp. now rewrite show_texts_events. Qed.

(** The value [tool_input['sql']], when there is one. *)
Lemma wp_subscript v key (Q : outcome json -> State -> list event -> Prop) s :
  match v with
  | JObj members =>
      match Json.dict_get key members with
      | Some x => Q (Returns x) s []
      | None => Q (Raises KeyError) s []
      end
  | _ => Q (Raises TypeError) s []
  end ->
  wp (subscript v key) Q s.
Proof.
  unfold wp, subscript. destruct v; auto.
  now destruct (Json.dict_get key members).
Qed.

Lemma wp_first_text res (Q : outcome string -> State -> list event -> Prop) s :
  match cr_content res with
  | t :: _ => Q (Returns t) s []
  | [] => Q (Raises IndexError) s []
  end ->
  wp (first_text res) Q s.
Proof. unfold wp, first_text. now destruct (cr_content res). Qed.

Lemma wp_call_format_sql_result t
      (Q : outcome formatted -> State -> list event -> Prop) s :
  Q (Returns (shaped t)) s [] -> wp (call_format_sql_result t) Q s.
Proof.
  unfold wp, call_format_sql_result, shaped.
  destruct (format_sql_result_returns t) as [v ->]. auto.
Qed.

Lemma wp_show_result v (Q : outcome unit -> State -> list event -> Prop) s :
  Q (Returns tt) s [shown_result v] -> wp (show_result v) Q s.
Proof. unfold wp. now destruct v. Qed.

(** X6: what one tool invocation of [process_query] shows, in order:
    the heading and the SQL text of the input before the executor is
    called; then, when the executor answers with some content, the
    heading of the result and the shaped first text, as a data frame
    when it is one and written out otherwise (so a result that shapes to
    [None] is written as [None]).  When the executor fails, nothing is
    shown after the call. *)
Theorem process_query_tool_shows :
  forall u ml s members sql,
    input u = JObj members ->
    Json.dict_get "sql" members = Some sql ->
    match call_tool (world s) (name u) (input u) with
    | (Ok res, w) =>
        match cr_content res with
        | t :: _ =>
            process_query_tool (toolUse u) ml s
            = mkRun (Returns (ml ++ [tool_result_message (toolUseId u) t]))
                    (mkState w (session s))
                    [Display (StMarkdown "---");
                     Display (StMarkdown "### 실행 쿼리");
                     Display (StCode sql);
                     CallTool (name u) (input u) (Ok res);
                     Display (StMarkdown "---");
                     Display (StMarkdown "### 실행 결과");
                     shown_result (shaped t)]
        | [] =>
            process_query_tool (toolUse u) ml s
            = mkRun (Raises IndexError) (mkState w (session s))
                    [Display (StMarkdown "---");
                     Display (StMarkdown "### 실행 쿼리");
                     Display (StCode sql);
                     CallTool (name u) (input u) (Ok res);
                     Display (StMarkdown "---");
                     Display (StMarkdown "### 실행 결과")]
        end
    | (Fail e, w) =>
        process_query_tool (toolUse u) ml s
        = mkRun (Raises e) (mkState w (session s))
                [Display (StMarkdown "---");
                 Display (StMarkdown "### 실행 쿼리");
                 Display (StCode sql);
                 CallTool (name u) (input u) (Fail e)]
    end.
Proof.
  intros u ml s members sql Hin Hsql.
  destruct (call_tool (world s) (name u) (input u)) as [r w] eqn:Ec.
  assert (Hwp : wp (process_query_tool (toolUse u) ml)
                   (fun o s2 evs =>
                      mkRun o s2 evs
                      = match r with
                        | Ok res =>
                            match cr_content res with
                            | t :: _ =>
                                mkRun (Returns
                                         (ml ++ [tool_result_message
                                                   (toolUseId u) t]))
                                      (mkState w (session s))
                                      [Display (StMarkdown "---");
                                       Display (StMarkdown "### 실행 쿼리");
                                       Display (StCode sql);
                                       CallTool (name u) (input u) (Ok res);
                                       Display (StMarkdown "---");
                                       Display (StMarkdown "### 실행 결과");
                                       shown_result (shaped t)]
                            | [] =>
                                mkRun (Raises IndexError)
                                      (mkState w (session s))
                                      [Display (StMarkdown "---");
                                       Display (StMarkdown "### 실행 쿼리");
                                       Display (StCode sql);
                                       CallTool (name u) (input u) (Ok res);
                                       Display (StMarkdown "---");
                                       Display (StMarkdown "### 실행 결과")]
                            end
                        | Fail e =>
                            mkRun (Raises e) (mkState w (session s))
                                  [Display (StMarkdown "---");
                                   Display (StMarkdown "### 실행 쿼리");
                                   Display (StCode sql);
                                   CallTool (name u) (input u) (Fail e)]
                        end) s).
  { unfold process_query_tool.
    apply wp_bind, wp_emit. cbv beta iota.
    apply wp_bind, wp_emit. cbv beta iota.
    apply wp_bind, wp_subscript. rewrite Hin, Hsql. cbv beta iota.
    apply wp_bind, wp_emit. cbv beta iota.
    apply wp_bind. unfold mcp_call_tool.
    eapply wp_request_known; [rewrite <- Hin; exact Ec |].
    rewrite <- Hin. destruct r as [res | e]; cbv beta iota delta [of_reply];
      [| reflexivity].
    apply wp_bind, wp_emit. cbv beta iota.
    apply wp_bind, wp_emit. cbv beta iota.
    apply wp_bind, wp_first_text.
    destruct (cr_content res) as [| t more] eqn:Ecr; cbv beta iota;
      [reflexivity |].
    apply wp_bind, wp_call_format_sql_result. cbv beta iota.
    apply wp_bind, wp_show_result. cbv beta iota.
    apply wp_bind, wp_first_text. rewrite Ecr. cbv beta iota.
    apply wp_ret. reflexivity. }
  unfold wp in Hwp.
  destruct (process_query_tool (toolUse u) ml s) as [o s2 evs].
  simpl in Hwp. rewrite Hwp.
  destruct r as [res | e]; [| reflexivity].
  destruct (cr_content res); reflexivity.
Qed.


Lemma wp_any {A} (m : M A) (Q : outcome A -> State -> list event -> Prop) s :
  (forall o s2 evs, Q o s2 evs) -> wp m Q s.
Proof. intros HQ. apply HQ. Qed.

(** X7: in every iteration of [process_query] the texts of the reply of
    the gateway are shown right after the call, each under a rule and in
    the order of the blocks, before the stop reason is looked at: the
    texts of the terminal reply are shown although its message is never
    appended to the transcript.  A failed gateway call shows nothing. *)
Theorem process_query_shows_reply_texts :
  forall tools system_prompt ml s,
    match converse (world s) (mkRequest model_id ml system_prompt tools) with
    | (Ok response, w) =>
        exists rest,
          events (process_query_turn tools system_prompt ml s)
          = Converse (mkRequest model_id ml system_prompt tools) (Ok response)
              :: shown_texts (content (output_message response)) ++ rest /\
          (stopReason response <> "tool_use"%string ->
           rest = [] /\
           result (process_query_turn tools system_prompt ml s)
           = Returns (Break ml))
    | (Fail e, w) =>
        events (process_query_turn tools system_prompt ml s)
        = [Converse (mkRequest model_id ml system_prompt tools) (Fail e)] /\
        result (process_query_turn tools system_prompt ml s) = Raises e
    end.
Proof.
  intros tools sp ml s.
  destruct (converse (world s) _) as [r w] eqn:Ec.
  assert (Hwp : wp (process_query_turn tools sp ml)
                   (fun o _ evs =>
                      match r with
                      | Ok response =>
                          exists rest,
                            evs = Converse (mkRequest model_id ml sp tools)
                                           (Ok response)
                                    :: shown_texts
                                         (content (output_message response))
                                    ++ rest /\
                            (stopReason response <> "tool_use"%string ->
                             rest = [] /\ o = Returns (Break ml))
                      | Fail e =>
                          evs = [Converse (mkRequest model_id ml sp tools)
                                          (Fail e)] /\
                          o = Raises e
                      end) s).
  { unfold process_query_turn. apply wp_bind. unfold bedrock_converse.
    eapply wp_request_known; [exact Ec |].
    destruct r as [response | e]; cbv beta iota delta [of_reply]; [| auto].
    apply wp_bind, wp_show_texts_events. cbv beta iota.
    destruct (stopReason response =? "tool_use")%string eqn:Es;
      cbv beta iota delta [negb].
    - apply wp_any. intros o s2 evs. exists evs. split; [reflexivity |].
      apply String.eqb_eq in Es. intros Hne. now destruct Hne.
    - apply wp_ret. exists []. now rewrite !app_nil_r. }
  exact Hwp.
Qed.

Lemma wp_process_query_tools_refused blocks u later e ml
      (Q : outcome (list Message) -> State -> list event -> Prop) s :
  tool_uses blocks = u :: later ->
  sql_error (input u) = Some e ->
  Q (Raises e) s [Display (StMarkdown "---");
                  Display (StMarkdown "### 실행 쿼리")] ->
  wp (for_each process_query_tool blocks ml) Q s.
Proof.
  intros Hu He. revert Q.
  induction blocks as [| b blocks IH]; intros Q HQ; [discriminate Hu |].
  change (for_each process_query_tool (b :: blocks) ml)
    with (l <- process_query_tool b ml ;;
          for_each process_query_tool blocks l).
  apply wp_bind. destruct b as [t | u' | r].
  - apply wp_ret. cbv beta iota. apply IH; [exact Hu | exact HQ].
  - injection Hu as -> _. unfold process_query_tool.
    apply wp_bind, wp_emit. cbv beta iota.
    apply wp_bind, wp_emit. cbv beta iota.
    apply wp_bind, wp_subscript. unfold sql_error in He.
    destruct (input u) as [ | | | | | | members];
      try (injection He as <-; exact HQ).
    destruct (Json.dict_get "sql" members); [discriminate He |].
    injection He as <-. exact HQ.
  - apply wp_ret. cbv beta iota. apply IH; [exact Hu | exact HQ].
Qed.

(** X8: [process_query] reads [tool_input['sql']] to show the query
    before it calls the executor.  So when the first reply of the gateway
    asks, with stop reason [tool_use], for a tool whose input has no
    [sql] entry, the function raises [KeyError] (or [TypeError] when the
    input is no dict at all) after that one gateway call, and the
    executor is never called. *)
Theorem process_query_raises_without_sql :
  forall fuel prompt tools system_prompt s response w u later e,
    prompt <> ""%string ->
    converse (world s) (mkRequest model_id [user_text prompt]
                                  system_prompt tools)
    = (Ok response, w) ->
    stopReason response = "tool_use"%string ->
    tool_uses (content (output_message response)) = u :: later ->
    sql_error (input u) = Some e ->
    result (process_query (S fuel) prompt tools system_prompt s) = Raises e /\
    gateway_calls (events (process_query (S fuel) prompt tools
                                         system_prompt s))
    = [mkRequest model_id [user_text prompt] system_prompt tools] /\
    executor_calls (events (process_query (S fuel) prompt tools
                                          system_prompt s)) = [].
Proof.
  intros fuel prompt tools sp s response w u later e Hp Hc Hstop Hu He.
  apply String.eqb_eq in Hstop. apply String.eqb_neq in Hp.
  change (wp (process_query (S fuel) prompt tools sp)
             (fun o _ evs =>
                o = Raises e /\
                gateway_calls evs
                = [mkRequest model_id [user_text prompt] sp tools] /\
                executor_calls evs = []) s).
  unfold process_query, process_query_loop. rewrite Hp.
  apply wp_bind. apply wp_bind.
  change (while_true ?b (S fuel) ?l)
    with (c <- b l ;; match c with
                      | Break l' => ret l'
                      | Continue l' => while_true b fuel l'
                      end).
  apply wp_bind. unfold process_query_turn.
  apply wp_bind. unfold bedrock_converse.
  eapply wp_request_known; [exact Hc |].
  cbv beta iota delta [of_reply].
  apply wp_bind, wp_show_texts. intros evs Hev.
  rewrite Hstop. cbv beta iota delta [negb].
  apply wp_bind.
  eapply wp_process_query_tools_refused; [exact Hu | exact He |].
  destruct (no_request_no_call _ Hev) as [Hg Hx].
  rewrite !gateway_calls_app, !executor_calls_app, Hg, Hx.
  repeat split.
Qed.


(* ----------------------------------------------------------------- *)
(** *** One run of [main], taken apart *)

Lemma wp_run_eq {A} (m : M A) s (r : run A) :
  wp m (fun o s2 evs => mkRun o s2 evs = r) s -> m s = r.
Proof. unfold wp. now destruct (m s). Qed.

Lemma wp_call {A} (m : M A) (Q : outcome A -> State -> list event -> Prop) s :
  Q (result (m s)) (state_after (m s)) (events (m s)) -> wp m Q s.
Proof. exact (fun HQ => HQ). Qed.

Lemma with_mcp_client_unfold {A} (block : M A) s :
  with_mcp_client block s
  = match mcp_enter (world s) with
    | (Fail e, w) =>
        mkRun (Raises e) (mkState w (session s)) [McpEnter (Fail e)]
    | (Ok _, w) =>
        let r := block (mkState w (session s)) in
        match result r with
        | OutOfFuel =>
            mkRun OutOfFuel (state_after r) (McpEnter (Ok tt) :: events r)
        | o =>
            mkRun o (state_after r)
                  (McpEnter (Ok tt) :: events r ++ [McpExit])
        end
    end.
Proof.
  unfold with_mcp_client, bind, request.
  destruct (mcp_enter (world s)) as [[[] | e] w]; simpl; [| reflexivity].
  destruct (result (block _)) eqn:E; simpl; rewrite ?E; reflexivity.
Qed.

(** The block between the two checkpoints and after them, when no
    cancellation is pending. *)
Lemma run_block_unfold fuel query tools s :
  should_cancel (session s) = Some false ->
  let r1 := get_table_info fuel tools query s in
  (cancel <- read_flag should_cancel ;;
   if cancel then cancelled
   else
     table_info <- get_table_info fuel tools query ;;
     cancel <- read_flag should_cancel ;;
     if cancel then cancelled
     else
       emit (Display (StMarkdown "---")) ;;
       emit (Display (StMarkdown "### 테이블 구조")) ;;
       emit (Display (StCode (JStr table_info))) ;;
       process_query fuel query tools (query_system_prompt table_info) ;;
       set_is_running false ;;
       st_rerun) s
  = match result r1 with
    | Raises e => mkRun (Raises e) (state_after r1) (events r1)
    | OutOfFuel => mkRun OutOfFuel (state_after r1) (events r1)
    | Returns table_info =>
        let r2 := process_query fuel query tools
                                (query_system_prompt table_info)
                                (state_after r1) in
        match result r2 with
        | Returns _ =>
            mkRun (Raises RerunException)
                  (mkState (world (state_after r2))
                           (mkSession (Some false) (Some false)))
                  (events r1 ++ shown_table_info table_info ++ events r2
                   ++ [Display StRerun])
        | Raises e =>
            mkRun (Raises e) (state_after r2)
                  (events r1 ++ shown_table_info table_info ++ events r2)
        | OutOfFuel =>
            mkRun OutOfFuel (state_after r2)
                  (events r1 ++ shown_table_info table_info ++ events r2)
        end
    end.
Proof.
  intros Hc r1. apply wp_run_eq.
  apply wp_bind, wp_read_flag. rewrite Hc. cbv beta iota.
  apply wp_bind, wp_call. fold r1.
  assert (Hs1 : session (state_after r1) = session s).
  { apply (only_get_table_info service_event); intros; exact I. }
  destruct (result r1) as [table_info | e |]; [| reflexivity | reflexivity].
  apply wp_bind, wp_read_flag. rewrite Hs1, Hc. cbv beta iota.
  apply wp_bind, wp_emit. cbv beta iota.
  apply wp_bind, wp_emit. cbv beta iota.
  apply wp_bind, wp_emit. cbv beta iota zeta.
  apply wp_bind, wp_call.
  set (r2 := process_query fuel query tools (query_system_prompt table_info)
                           (state_after r1)).
  assert (Hs2 : session (state_after r2) = session s).
  { rewrite <- Hs1. apply (only_process_query loop_event); intros; exact I. }
  destruct (result r2) as [[] | e |].
  - apply wp_bind, wp_set_is_running. cbv beta iota.
    apply wp_st_rerun. rewrite Hs2, Hc. simpl.
    now rewrite ?app_nil_r.
  - simpl. now rewrite ?app_nil_r.
  - simpl. now rewrite ?app_nil_r.
Qed.


Lemma run_eta {A} (r : run A) :
  r = mkRun (result r) (state_after r) (events r).
Proof. now destruct r. Qed.

Lemma bind_list_tools_unfold {B} (k : list ToolSpec -> M B) s :
  (tools <- mcp_list_all_tools ;; k tools) s
  = match list_all_tools (world s) with
    | (Ok tools, w) =>
        let r := k tools (mkState w (session s)) in
        mkRun (result r) (state_after r) (ListTools (Ok tools) :: events r)
    | (Fail e, w) =>
        mkRun (Raises e) (mkState w (session s)) [ListTools (Fail e)]
    end.
Proof.
  unfold bind, mcp_list_all_tools, request.
  destruct (list_all_tools (world s)) as [[tools | e] w]; reflexivity.
Qed.

(** The block under the [if]: the client is opened, the tools are listed
    once, and the two loops are run one after the other; the client is
    closed however the block ends. *)
Lemma run_body_unfold fuel query s :
  should_cancel (session s) = Some false ->
  run_body fuel query s
  = match mcp_enter (world s) with
    | (Fail e, w1) =>
        mkRun (Raises e) (mkState w1 (session s)) [McpEnter (Fail e)]
    | (Ok _, w1) =>
        match list_all_tools w1 with
        | (Fail e, w2) =>
            mkRun (Raises e) (mkState w2 (session s))
                  [McpEnter (Ok tt); ListTools (Fail e); McpExit]
        | (Ok tools, w2) =>
            let r1 := get_table_info fuel tools query
                                     (mkState w2 (session s)) in
            match result r1 with
            | Raises e =>
                mkRun (Raises e) (state_after r1)
                      (McpEnter (Ok tt) :: ListTools (Ok tools)
                       :: events r1 ++ [McpExit])
            | OutOfFuel =>
                mkRun OutOfFuel (state_after r1)
                      (McpEnter (Ok tt) :: ListTools (Ok tools) :: events r1)
            | Returns table_info =>
                let r2 := process_query fuel query tools
                                        (query_system_prompt table_info)
                                        (state_after r1) in
                match result r2 with
                | Returns _ =>
                    mkRun (Raises RerunException)
                          (mkState (world (state_after r2))
                                   (mkSession (Some false) (Some false)))
                          (McpEnter (Ok tt) :: ListTools (Ok tools)
                           :: events r1 ++ shown_table_info table_info
                           ++ events r2 ++ [Display StRerun; McpExit])
                | Raises e =>
                    mkRun (Raises e) (state_after r2)
                          (McpEnter (Ok tt) :: ListTools (Ok tools)
                           :: events r1 ++ shown_table_info table_info
                           ++ events r2 ++ [McpExit])
                | OutOfFuel =>
                    mkRun OutOfFuel (state_after r2)
                          (McpEnter (Ok tt) :: ListTools (Ok tools)
                           :: events r1 ++ shown_table_info table_info
                           ++ events r2)
                end
            end
        end
    end.
Proof.
  intros Hc. unfold run_body. rewrite with_mcp_client_unfold.
  destruct (mcp_enter (world s)) as [[[] | e] w1]; [| reflexivity].
  cbv zeta. rewrite bind_list_tools_unfold. cbn [world session].
  destruct (list_all_tools w1) as [[tools | e] w2]; [| reflexivity].
  cbv zeta.
  rewrite (run_block_unfold fuel query tools (mkState w2 (session s)) Hc).
  cbv zeta.
  destruct (result (get_table_info fuel tools query _)) as [ti | e |];
    try reflexivity.
  destruct (result (process_query fuel query tools _ _)) as [[] | e |];
    unfold shown_table_info; cbn [result state_after events app];
    repeat (rewrite <- app_assoc; cbn [app]); reflexivity.
Qed.

(** One run of [main]: the two buttons, then the block. *)
Lemma main_unfold fuel widgets s :
  let ss := initialized (session s) in
  let running := is_set (is_running ss) in
  main fuel widgets s
  = if run_clicked widgets && negb running then
      mkRun (Raises RerunException)
            (mkState (world s) (mkSession (Some true) (Some false)))
            [banner; Display StRerun]
    else if running && cancel_clicked widgets then
      mkRun (Raises RerunException)
            (mkState (world s) (mkSession (Some false) (Some true)))
            [banner; Display StRerun]
    else if running && negb (query_text widgets =? "")%string then
      let r := run_body fuel (query_text widgets) (mkState (world s) ss) in
      mkRun (result r) (state_after r) (banner :: events r)
    else mkRun (Returns tt) (mkState (world s) ss) [banner].
Proof.
  destruct widgets as [query run_click cancel_click].
  destruct s as [w [running cancel]].
  cbv zeta. apply wp_run_eq. unfold main.
  cbv beta iota zeta delta [query_text run_clicked cancel_clicked].
  do 4 wp_step.
  destruct running as [[|] |]; destruct run_click; destruct cancel_click;
    repeat wp_step; try reflexivity;
    (destruct (query =? "")%string;
     cbv beta iota delta [andb negb]; [wp_step; reflexivity |];
     apply wp_call; reflexivity).
Qed.


(* ----------------------------------------------------------------- *)
(** *** The two buttons *)

Lemma is_set_initialized ss :
  is_set (is_running (initialized ss)) = true <-> is_running ss = Some true.
Proof.
  unfold initialized, is_set. simpl.
  destruct (is_running ss) as [[|] |]; split; congruence.
Qed.

Lemma not_running_initialized ss :
  is_running ss <> Some true -> is_set (is_running (initialized ss)) = false.
Proof.
  intros Hn. destruct (is_set (is_running (initialized ss))) eqn:E;
    [| reflexivity].
  now apply is_set_initialized in E.
Qed.

(** X9: a click on the run button while no run is in progress starts
    nothing by itself: [main] sets [is_running], clears [should_cancel]
    and asks for a rerun, whatever the query is (even empty); the MCP
    client is not opened and no service is called in that run. *)
Theorem run_click_sets_flags_and_reruns :
  forall fuel widgets s,
    is_running (session s) <> Some true ->
    run_clicked widgets = true ->
    main fuel widgets s
    = mkRun (Raises RerunException)
            (mkState (world s) (mkSession (Some true) (Some false)))
            [banner; Display StRerun].
Proof.
  intros fuel widgets s Hn Hclick. rewrite main_unfold. cbv zeta.
  now rewrite Hclick, (not_running_initialized _ Hn).
Qed.

(** X10: while a run is in progress the run button is disabled: a click
    on it changes nothing of what [main] does. *)
Theorem run_click_ignored_while_running :
  forall fuel query run_click cancel_click s,
    is_running (session s) = Some true ->
    main fuel (mkWidgets query run_click cancel_click) s
    = main fuel (mkWidgets query false cancel_click) s.
Proof.
  intros fuel query run_click cancel_click s Hr.
  rewrite !main_unfold. cbv zeta.
  cbn [run_clicked cancel_clicked query_text].
  apply is_set_initialized in Hr. rewrite Hr.
  now rewrite andb_false_r.
Qed.

(** X11: a click on the cancel button while a run is in progress sets
    [should_cancel], clears [is_running] in the same run and asks for a
    rerun; the MCP client is not opened and no service is called. *)
Theorem cancel_click_sets_flags_and_reruns :
  forall fuel widgets s,
    is_running (session s) = Some true ->
    cancel_clicked widgets = true ->
    main fuel widgets s
    = mkRun (Raises RerunException)
            (mkState (world s) (mkSession (Some false) (Some true)))
            [banner; Display StRerun].
Proof.
  intros fuel widgets s Hr Hclick. rewrite main_unfold. cbv zeta.
  apply is_set_initialized in Hr. rewrite Hr, Hclick.
  now rewrite andb_false_r.
Qed.

(** X12: without an effective click, [main] does nothing when no run is
    in progress, and also when a run is in progress on an empty query:
    it returns having only set the missing session keys.  In the second
    case [is_running] stays set, so a run started on an empty query never
    ends by itself. *)
Theorem idle_run_changes_nothing :
  forall fuel widgets s,
    (is_running (session s) <> Some true /\ run_clicked widgets = false) \/
    (is_running (session s) = Some true /\ cancel_clicked widgets = false /\
     query_text widgets = ""%string) ->
    main fuel widgets s
    = mkRun (Returns tt) (mkState (world s) (initialized (session s)))
            [banner].
Proof.
  intros fuel widgets s [[Hn Hclick] | (Hr & Hclick & Hq)];
    rewrite main_unfold; cbv zeta.
  - now rewrite Hclick, (not_running_initialized _ Hn).
  - apply is_set_initialized in Hr. rewrite Hr, Hclick, Hq.
    now rewrite andb_false_r.
Qed.


(* ----------------------------------------------------------------- *)
(** *** The run block: release, flags, composition *)

Lemma with_mcp_client_releases {A} (block : M A) s :
  result (with_mcp_client block s) <> OutOfFuel ->
  In (McpEnter (Ok tt)) (events (with_mcp_client block s)) ->
  exists pre, events (with_mcp_client block s) = pre ++ [McpExit].
Proof.
  rewrite with_mcp_client_unfold.
  destruct (mcp_enter (world s)) as [[[] | e] w]; simpl.
  - destruct (result (block _)) as [a | e |]; simpl; intros Hr _.
    + now exists (McpEnter (Ok tt) :: events (block (mkState w (session s)))).
    + now exists (McpEnter (Ok tt) :: events (block (mkState w (session s)))).
    + now destruct Hr.
  - intros _ [Hin | []]. discriminate Hin.
Qed.

(** X13: in every run of [main] that ends, if the MCP client was
    entered, then leaving it is the last thing the run does, whether the
    block under it returned, raised (a failure of a service, or the
    rerun request) or was cancelled: the client is always released. *)
Theorem mcp_client_is_released :
  forall fuel widgets s,
    result (main fuel widgets s) <> OutOfFuel ->
    In (McpEnter (Ok tt)) (events (main fuel widgets s)) ->
    exists pre, events (main fuel widgets s) = pre ++ [McpExit].
Proof.
  intros fuel widgets s. rewrite main_unfold. cbv zeta.
  destruct (run_clicked widgets && negb _);
    [intros _ [Hin | [Hin | []]]; discriminate Hin |].
  destruct (_ && cancel_clicked widgets);
    [intros _ [Hin | [Hin | []]]; discriminate Hin |].
  destruct (_ && negb _); [| intros _ [Hin | []]; discriminate Hin].
  cbn [result events]. intros Hr [Hin | Hin]; [discriminate Hin |].
  destruct (with_mcp_client_releases _ _ Hr Hin) as (pre & Hpre).
  exists (banner :: pre). cbn [app]. f_equal. exact Hpre.
Qed.

Lemma get_table_info_facts fuel tools query_request s :
  session (state_after (get_table_info fuel tools query_request s))
  = session s /\
  Forall service_event (events (get_table_info fuel tools query_request s)) /\
  Forall (asks_with table_info_system_prompt tools)
         (events (get_table_info fuel tools query_request s)).
Proof.
  split; [| split].
  - apply (only_get_table_info service_event); intros; exact I.
  - apply (only_get_table_info service_event); intros; exact I.
  - apply (only_get_table_info (asks_with table_info_system_prompt tools));
      intros; simpl; auto.
Qed.

Lemma process_query_facts fuel prompt tools system_prompt s :
  session (state_after (process_query fuel prompt tools system_prompt s))
  = session s /\
  Forall loop_event
         (events (process_query fuel prompt tools system_prompt s)) /\
  Forall (asks_with system_prompt tools)
         (events (process_query fuel prompt tools system_prompt s)).
Proof.
  split; [| split].
  - apply (only_process_query loop_event); intros; exact I.
  - apply (only_process_query loop_event); intros; exact I.
  - apply (only_process_query (asks_with system_prompt tools));
      intros; simpl; auto.
Qed.

Lemma Forall_not_in (P : event -> Prop) (evs : list event) ev :
  Forall P evs -> ~ P ev -> ~ In ev evs.
Proof.
  intros Hall Hn Hin. apply Hn. rewrite Forall_forall in Hall. auto.
Qed.

Lemma service_is_loop_event (evs : list event) :
  Forall service_event evs -> Forall loop_event evs.
Proof.
  apply Forall_impl. intros ev Hs. destruct ev; try exact I; destruct Hs.
Qed.

(** X14: how [main] puts the two loops together.  When no cancellation
    is pending, the client opens and the catalog is listed, the block
    under the [if] runs [get_table_info] on the query with that catalog;
    when it returns [table_info], the block shows it and runs
    [process_query] on the same query, with the same catalog, with the
    system prompt built around [table_info], from the state
    [get_table_info] left; when that returns, the block clears
    [is_running], asks for a rerun and the client is closed. *)
Theorem run_body_runs_both_loops :
  forall fuel query s w1 tools w2 table_info,
    should_cancel (session s) = Some false ->
    mcp_enter (world s) = (Ok tt, w1) ->
    list_all_tools w1 = (Ok tools, w2) ->
    result (get_table_info fuel tools query (mkState w2 (session s)))
    = Returns table_info ->
    result (process_query fuel query tools (query_system_prompt table_info)
              (state_after
                 (get_table_info fuel tools query (mkState w2 (session s)))))
    = Returns tt ->
    run_body fuel query s
    = mkRun (Raises RerunException)
            (mkState
               (world
                  (state_after
                     (process_query fuel query tools
                        (query_system_prompt table_info)
                        (state_after
                           (get_table_info fuel tools query
                              (mkState w2 (session s)))))))
               (mkSession (Some false) (Some false)))
            (McpEnter (Ok tt) :: ListTools (Ok tools)
             :: events (get_table_info fuel tools query
                          (mkState w2 (session s)))
             ++ shown_table_info table_info
             ++ events (process_query fuel query tools
                          (query_system_prompt table_info)
                          (state_after
                             (get_table_info fuel tools query
                                (mkState w2 (session s)))))
             ++ [Display StRerun; McpExit]).
Proof.
  intros fuel query s w1 tools w2 ti Hc He Hl H1 H2.
  rewrite (run_body_unfold fuel query s Hc), He, Hl. cbv zeta.
  now rewrite H1, H2.
Qed.


Ltac body_cases fuel query s Hc :=
  rewrite (run_body_unfold fuel query s Hc);
  destruct (mcp_enter (world s)) as [[[] | ?e] ?w];
  [ destruct (list_all_tools _) as [[?tools | ?e] ?w];
    [ cbv zeta;
      lazymatch goal with
      | |- context [get_table_info fuel ?t query ?s1] =>
          let Hs1 := fresh "Hs1" in
          let Hk1 := fresh "Hk1" in
          let Ha1 := fresh "Ha1" in
          pose proof (get_table_info_facts fuel t query s1)
            as (Hs1 & Hk1 & Ha1);
          let r1 := fresh "r1" in
          set (r1 := get_table_info fuel t query s1) in *;
          let ti := fresh "ti" in
          destruct (result r1) as [ti | ?e |];
          [ let Hs2 := fresh "Hs2" in
            let Hk2 := fresh "Hk2" in
            let Ha2 := fresh "Ha2" in
            pose proof (process_query_facts fuel query t
                          (query_system_prompt ti) (state_after r1))
              as (Hs2 & Hk2 & Ha2);
            let r2 := fresh "r2" in
            set (r2 := process_query fuel query t (query_system_prompt ti)
                                     (state_after r1)) in *;
            destruct (result r2) as [[] | ?e |]
          | | ]
      end
    | ]
  | ];
  cbn [result state_after events world session] in *.

Lemma loop_event_not_warning (evs : list event) :
  Forall loop_event evs -> Forall not_warning evs.
Proof.
  apply Forall_impl. intros ev Hl. destruct ev as [ | | | | | d]; try exact I.
  now destruct d.
Qed.

Ltac calm :=
  unfold shown_table_info;
  repeat first
         [ apply Forall_nil
         | apply Forall_cons; [exact I |]
         | apply Forall_app; split
         | apply loop_event_not_warning; assumption
         | apply loop_event_not_warning, service_is_loop_event; assumption ].

(** The block never warns when no cancellation is pending. *)
Lemma run_body_calm fuel query s :
  should_cancel (session s) = Some false ->
  Forall not_warning (events (run_body fuel query s)).
Proof.
  intros Hc. body_cases fuel query s Hc; calm.
Qed.

Ltac now_absent :=
  let Hin := fresh "Hin" in
  unfold shown_table_info; intros Hin;
  repeat (rewrite in_app_iff in Hin || simpl in Hin);
  decompose [or] Hin; try congruence; try contradiction.

(** How the block leaves the flags. *)
Lemma run_body_flags fuel query s :
  should_cancel (session s) = Some false ->
  result (run_body fuel query s) <> OutOfFuel ->
  (In (Display StRerun) (events (run_body fuel query s)) /\
   session (state_after (run_body fuel query s))
   = mkSession (Some false) (Some false) /\
   result (run_body fuel query s) = Raises RerunException)
  \/
  (~ In (Display StRerun) (events (run_body fuel query s)) /\
   session (state_after (run_body fuel query s)) = session s /\
   exists e, result (run_body fuel query s) = Raises e).
Proof.
  intros Hc.
  assert (Hk : forall evs : list event,
             Forall loop_event evs -> ~ In (Display StRerun) evs).
  { intros evs Hall. apply (Forall_not_in loop_event); [exact Hall |].
    intros []. }
  body_cases fuel query s Hc; intros Hr; try (now destruct Hr).
  - left. repeat split. right. right.
    rewrite !in_app_iff. right. right. right. now left.
  - right. apply service_is_loop_event, Hk in Hk1. apply Hk in Hk2.
    split; [now_absent | split; [congruence | eauto]].
  - right. apply service_is_loop_event, Hk in Hk1.
    split; [now_absent | split; [congruence | eauto]].
  - right. split; [now_absent | split; [reflexivity | eauto]].
  - right. split; [now_absent | split; [reflexivity | eauto]].
Qed.


Lemma get_table_info_last_text fuel tools query_request s table_info :
  result (get_table_info fuel tools query_request s) = Returns table_info ->
  table_info
  = last (tool_result_texts
            (events (get_table_info fuel tools query_request s))) ""%string.
Proof.
  intros Hr. destruct (get_table_info_run fuel tools query_request s)
    as [Hres Hevs].
  rewrite Hres in Hr. rewrite Hevs.
  destruct (result (get_table_info_loop fuel tools query_request s))
    as [l' | |] eqn:El; try discriminate Hr.
  injection Hr as <-.
  exact (while_true_returns keeps_last_text (get_table_info_turn tools)
           keeps_last_text_trans (get_table_info_turn_last tools)
           fuel _ s l' El).
Qed.

Lemma asks_with_in (evs : list event) system_prompt tools req reply :
  Forall (asks_with system_prompt tools) evs ->
  In (Converse req reply) evs ->
  modelId req = model_id /\ system req = system_prompt /\
  toolConfig req = tools.
Proof.
  intros Hall Hin. rewrite Forall_forall in Hall. exact (Hall _ Hin).
Qed.

(** Every gateway call of the block, when no cancellation is pending. *)
Lemma run_body_requests fuel query s req reply :
  should_cancel (session s) = Some false ->
  In (Converse req reply) (events (run_body fuel query s)) ->
  modelId req = model_id /\
  exists tools,
    In (ListTools (Ok tools)) (events (run_body fuel query s)) /\
    toolConfig req = tools /\
    (system req = table_info_system_prompt \/
     exists pre post,
       events (run_body fuel query s)
       = pre ++ shown_table_info (last (tool_result_texts pre) ""%string)
             ++ post /\
       In (Converse req reply) post /\
       system req
       = query_system_prompt (last (tool_result_texts pre) ""%string)).
Proof.
  intros Hc.
  rewrite (run_body_unfold fuel query s Hc).
  destruct (mcp_enter (world s)) as [[[] | e1] w1];
    [| intros [Hin | []]; discriminate Hin].
  destruct (list_all_tools w1) as [[tools | e2] w2];
    [| intros Hin; simpl in Hin; decompose [or] Hin;
       try discriminate; contradiction].
  cbv zeta.
  pose proof (get_table_info_facts fuel tools query (mkState w2 (session s)))
    as (Hs1 & Hk1 & Ha1).
  pose proof (get_table_info_last_text fuel tools query
                (mkState w2 (session s))) as Hlast.
  set (r1 := get_table_info fuel tools query (mkState w2 (session s))) in *.
  destruct (result r1) as [ti | e |].
  - specialize (Hlast ti eq_refl).
    pose proof (process_query_facts fuel query tools (query_system_prompt ti)
                  (state_after r1)) as (Hs2 & Hk2 & Ha2).
    set (r2 := process_query fuel query tools (query_system_prompt ti)
                             (state_after r1)) in *.
    assert (Hboth :
              forall tail : list event,
                (forall rq rp, ~ In (Converse rq rp) tail) ->
                In (Converse req reply)
                   (McpEnter (Ok tt) :: ListTools (Ok tools)
                    :: events r1 ++ shown_table_info ti ++ events r2 ++ tail)
                -> modelId req = model_id /\
                   exists tools0,
                     In (ListTools (Ok tools0))
                        (McpEnter (Ok tt) :: ListTools (Ok tools)
                         :: events r1 ++ shown_table_info ti ++ events r2
                         ++ tail) /\
                     toolConfig req = tools0 /\
                     (system req = table_info_system_prompt \/
                      exists pre post,
                        McpEnter (Ok tt) :: ListTools (Ok tools)
                        :: events r1 ++ shown_table_info ti ++ events r2
                        ++ tail
                        = pre ++ shown_table_info
                                   (last (tool_result_texts pre) ""%string)
                              ++ post /\
                        In (Converse req reply) post /\
                        system req
                        = query_system_prompt
                            (last (tool_result_texts pre) ""%string))).
    { intros tail Htail Hin.
      destruct Hin as [Hin | [Hin | Hin]]; try discriminate Hin.
      apply in_app_or in Hin. destruct Hin as [Hin | Hin].
      - destruct (asks_with_in _ _ _ _ _ Ha1 Hin) as (Hm & Hsys & Ht).
        split; [exact Hm |]. exists tools. split; [right; now left |].
        split; [exact Ht | now left].
      - assert (Hin2 : In (Converse req reply) (events r2)).
        { unfold shown_table_info in Hin. simpl in Hin.
          destruct Hin as [Hin | [Hin | [Hin | Hin]]];
            try discriminate Hin.
          apply in_app_or in Hin. destruct Hin as [Hin | Hin];
            [exact Hin | now apply Htail in Hin]. }
        destruct (asks_with_in _ _ _ _ _ Ha2 Hin2) as (Hm & Hsys & Ht).
        split; [exact Hm |]. exists tools. split; [right; now left |].
        split; [exact Ht |]. right.
        exists (McpEnter (Ok tt) :: ListTools (Ok tools) :: events r1),
          (events r2 ++ tail).
        change (tool_result_texts
                  (McpEnter (Ok tt) :: ListTools (Ok tools) :: events r1))
          with (tool_result_texts (events r1)).
        rewrite <- Hlast.
        split; [reflexivity |]. split.
        + apply in_or_app. now left.
        + exact Hsys. }
    destruct (result r2) as [[] | e |]; cbn [events];
      [| | rewrite <- (app_nil_r (events r2))]; apply Hboth;
      intros rq rp Hin; simpl in Hin; decompose [or] Hin;
      try discriminate; try contradiction.
  - cbn [events]. intros Hin.
    assert (Hin1 : In (Converse req reply) (events r1)).
    { destruct Hin as [Hin | [Hin | Hin]]; try discriminate Hin.
      apply in_app_or in Hin. destruct Hin as [Hin | [Hin | []]];
        [exact Hin | discriminate Hin]. }
    destruct (asks_with_in _ _ _ _ _ Ha1 Hin1) as (Hm & Hsys & Ht).
    split; [exact Hm |]. exists tools. split; [right; now left |].
    split; [exact Ht | now left].
  - cbn [events]. intros Hin.
    assert (Hin1 : In (Converse req reply) (events r1)).
    { destruct Hin as [Hin | [Hin | Hin]]; try discriminate Hin.
      exact Hin. }
    destruct (asks_with_in _ _ _ _ _ Ha1 Hin1) as (Hm & Hsys & Ht).
    split; [exact Hm |]. exists tools. split; [right; now left |].
    split; [exact Ht | now left].
Qed.


(** The block touches the flags only to clear both. *)
Lemma run_body_session fuel query s :
  should_cancel (session s) = Some false ->
  session (state_after (run_body fuel query s)) = session s \/
  session (state_after (run_body fuel query s))
  = mkSession (Some false) (Some false).
Proof.
  intros Hc. body_cases fuel query s Hc;
    first [ now right | left; congruence ].
Qed.

(** X15: a run of [main] that enters the block under the [if] (a run in
    progress, no cancellation pending, no click on cancel, a query that
    is not empty) never returns normally.  Either both loops returned:
    then [is_running] and [should_cancel] are cleared, a rerun is asked
    for and the run ends by it.  Or something raised on the way (the MCP
    client, the tool catalog, the gateway, the executor, a missing
    [sql]): then no rerun is asked for and the flags stay as they were,
    [is_running] still set. *)
Theorem entered_run_ends_by_rerun_or_exception :
  forall fuel widgets s,
    is_running (session s) = Some true ->
    should_cancel (session s) = Some false ->
    cancel_clicked widgets = false ->
    query_text widgets <> ""%string ->
    result (main fuel widgets s) <> OutOfFuel ->
    (result (main fuel widgets s) = Raises RerunException /\
     In (Display StRerun) (events (main fuel widgets s)) /\
     session (state_after (main fuel widgets s))
     = mkSession (Some false) (Some false))
    \/
    (exists e, result (main fuel widgets s) = Raises e /\
               ~ In (Display StRerun) (events (main fuel widgets s)) /\
               session (state_after (main fuel widgets s)) = session s).
Proof.
  intros fuel widgets [w [running cancel]] Hr Hc Hclick Hq.
  cbn [session is_running should_cancel] in Hr, Hc. subst running cancel.
  rewrite main_unfold. cbv zeta.
  cbn [session world].
  change (initialized (mkSession (Some true) (Some false)))
    with (mkSession (Some true) (Some false)).
  cbn [is_running is_set].
  apply String.eqb_neq in Hq. rewrite Hclick, Hq, andb_false_r.
  cbn [andb negb result events state_after]. intros Hfuel.
  destruct (run_body_flags fuel (query_text widgets)
              (mkState w (mkSession (Some true) (Some false)))
              eq_refl Hfuel)
    as [(Hin & Hs & Hres) | (Hnin & Hs & e & Hres)].
  - left. split; [exact Hres |]. split; [now right | exact Hs].
  - right. exists e. split; [exact Hres |]. split; [| exact Hs].
    intros [Hb | Hin]; [discriminate Hb | now apply Hnin].
Qed.

Lemma no_gateway_call (evs : list event) req reply :
  gateway_calls evs = [] -> ~ In (Converse req reply) evs.
Proof.
  intros Hg Hin.
  assert (Hin' : In req (gateway_calls evs)).
  { unfold gateway_calls. apply in_flat_map.
    exists (Converse req reply). split; [exact Hin | now left]. }
  rewrite Hg in Hin'. destruct Hin'.
Qed.

(** X16: every gateway call of every run of [main] names the model of
    the program and sends the tool catalog the MCP client listed in that
    same run.  Its system prompt is either the fixed prompt of
    [get_table_info], or the query prompt built around the table
    structure the run showed before that call, which is the text of the
    last tool result the run had received until then: [process_query]
    works from what [get_table_info] found. *)
Theorem main_gateway_calls_use_listed_catalog :
  forall fuel widgets s req reply,
    In (Converse req reply) (events (main fuel widgets s)) ->
    modelId req = model_id /\
    exists tools,
      In (ListTools (Ok tools)) (events (main fuel widgets s)) /\
      toolConfig req = tools /\
      (system req = table_info_system_prompt \/
       exists pre post,
         events (main fuel widgets s)
         = pre ++ shown_table_info (last (tool_result_texts pre) ""%string)
               ++ post /\
         In (Converse req reply) post /\
         system req
         = query_system_prompt (last (tool_result_texts pre) ""%string)).
Proof.
  intros fuel widgets [w [running cancel]] req reply.
  rewrite main_unfold. cbv zeta.
  destruct (run_clicked widgets && negb _);
    [intros [Hin | [Hin | []]]; discriminate Hin |].
  destruct (_ && cancel_clicked widgets);
    [intros [Hin | [Hin | []]]; discriminate Hin |].
  destruct (_ && negb _); [| intros [Hin | []]; discriminate Hin].
  unfold initialized. cbn [events world session is_running should_cancel].
  intros [Hin | Hin]; [discriminate Hin |].
  destruct cancel as [[|] |].
  - exfalso.
    pose proof (run_body_cancelled fuel (query_text widgets) w
                  (match running with
                   | Some b => Some b
                   | None => Some false
                   end))
      as Hno.
    unfold wp, no_call_made in Hno. destruct Hno as (Hg & _).
    exact (no_gateway_call _ req reply Hg Hin).
  - lazymatch type of Hin with
    | In _ (events (run_body _ _ ?s0)) =>
        destruct (run_body_requests fuel (query_text widgets) s0 req reply
                    eq_refl Hin) as (Hm & tools & Hl & Ht & Hsys)
    end.
    split; [exact Hm |]. exists tools. split; [now right |].
    split; [exact Ht |].
    destruct Hsys as [Hsys | (pre & post & Hev & Hp & Hsys)];
      [now left | right].
    exists (banner :: pre), post.
    change (tool_result_texts (banner :: pre))
      with (tool_result_texts pre).
    cbn [app]. rewrite <- Hev.
    split; [reflexivity |]. split; [exact Hp | exact Hsys].
  - lazymatch type of Hin with
    | In _ (events (run_body _ _ ?s0)) =>
        destruct (run_body_requests fuel (query_text widgets) s0 req reply
                    eq_refl Hin) as (Hm & tools & Hl & Ht & Hsys)
    end.
    split; [exact Hm |]. exists tools. split; [now right |].
    split; [exact Ht |].
    destruct Hsys as [Hsys | (pre & post & Hev & Hp & Hsys)];
      [now left | right].
    exists (banner :: pre), post.
    change (tool_result_texts (banner :: pre))
      with (tool_result_texts pre).
    cbn [app]. rewrite <- Hev.
    split; [reflexivity |]. split; [exact Hp | exact Hsys].
Qed.

(** X17: the two flags are never both set.  A fresh session is in that
    condition, every run of [main] keeps it, and a run that starts in it
    never shows the cancellation warning: a click on cancel clears
    [is_running] in the run that records it, so the block under the [if]
    is not entered again before a click on run has cleared
    [should_cancel], and neither of its two checkpoints ever fires. *)
Theorem flags_never_both_set :
  consistent (mkSession None None) /\
  forall fuel widgets s,
    consistent (session s) ->
    consistent (session (state_after (main fuel widgets s))) /\
    Forall not_warning (events (main fuel widgets s)).
Proof.
  split; [intros [Hr _]; discriminate Hr |].
  intros fuel widgets [w [running cancel]]. unfold consistent.
  cbn [session is_running should_cancel]. intros Hcons.
  rewrite main_unfold. cbv zeta.
  unfold initialized. cbn [session world is_running should_cancel].
  destruct (run_clicked widgets && negb _).
  { split; [intros [_ Hc]; discriminate Hc | repeat constructor]. }
  destruct (is_set _ && cancel_clicked widgets).
  { split; [intros [Hr _]; discriminate Hr | repeat constructor]. }
  destruct (is_set _ && negb _) eqn:Ego.
  - apply andb_prop in Ego. destruct Ego as [Ego _].
    assert (Hrun : running = Some true).
    { destruct running as [[|] |]; try discriminate Ego; reflexivity. }
    subst running.
    assert (Hc : match cancel with
                 | Some b => Some b
                 | None => Some false
                 end = Some false).
    { destruct cancel as [[|] |]; try reflexivity.
      exfalso. now apply Hcons. }
    rewrite Hc. cbn [state_after events].
    split.
    + destruct (run_body_session fuel (query_text widgets)
                  (mkState w (mkSession (Some true) (Some false))) eq_refl)
        as [Hs | Hs]; rewrite Hs;
        cbn [session is_running should_cancel];
        intros [_ Hx]; discriminate Hx.
    + apply Forall_cons; [exact I |].
      now apply run_body_calm.
  - cbn [state_after events session is_running should_cancel]. split.
    + intros [Hr Hc]. apply Hcons.
      destruct running as [[|] |]; try discriminate Hr.
      destruct cancel as [[|] |]; try discriminate Hc. now split.
    + repeat constructor.
Qed.

End Proofs.

(* ================================================================= *)
(** ** Concrete runs *)

Lemma tool_results_one_message_each_witness :
  (exists req response results,
      let uses := tool_uses (content (output_message response)) in
      requests (events (@get_table_info_turn rows scripted []
                          (q_transcript, ""%string) two_tools_state))
      = Converse req (Ok response)
          :: map answered_call (combine uses results) /\
      messages req = q_transcript /\
      length results = length uses /\
      two_tools_transcript
      = q_transcript ++ output_message response
                     :: answer_messages uses results)
  /\
  (exists req response results,
      let uses := tool_uses (content (output_message response)) in
      requests (events (@process_query_turn rows scripted [] "sys"
                          q_transcript two_tools_state))
      = Converse req (Ok response)
          :: map answered_call (combine uses results) /\
      messages req = q_transcript /\
      length results = length uses /\
      two_tools_transcript
      = q_transcript ++ output_message response
                     :: answer_messages uses results).
Proof.
  split.
  - apply (proj1 (@tool_results_one_message_each rows scripted)
                 [] q_transcript ""%string two_tools_state
                 two_tools_transcript "second"%string).
    reflexivity.
  - apply (proj2 (@tool_results_one_message_each rows scripted)
                 [] "sys"%string q_transcript two_tools_state
                 two_tools_transcript).
    reflexivity.
Defined.

(** C1, as stated, fails: the gateway asks for two tools in one turn,
    and each loop appends two user messages, one per result, where the
    claim has a single message with both results. *)
Lemma two_results_in_two_messages :
  result (@get_table_info_turn rows scripted [] (q_transcript, ""%string)
            two_tools_state)
  = Returns (Continue (two_tools_transcript, "second"%string)) /\
  result (@process_query_turn rows scripted [] "sys" q_transcript
            two_tools_state)
  = Returns (Continue two_tools_transcript) /\
  ~ results_bundled q_transcript two_tools_message two_tools_transcript.
Proof.
  split; [reflexivity | split; [reflexivity |]].
  intros (texts & _ & Heq). apply (f_equal (@length Message)) in Heq.
  discriminate Heq.
Qed.

Lemma executor_failure_propagates_witness :
  (@nil (@event rows) = [] /\
   result (@get_table_info rows scripted 5 [] "q" failing_tool_state)
   = Raises (ServiceError "connection lost"))
  /\
  (@nil (@event rows) = [] /\
   result (@process_query rows scripted 5 "q" [] "sys" failing_tool_state)
   = Raises (ServiceError "connection lost")).
Proof.
  split.
  - apply (proj1 (@executor_failure_propagates rows scripted)
                 5 [] "q"%string failing_tool_state
                 (firstn 1 (requests
                              (events (@get_table_info rows scripted 5 []
                                         "q" failing_tool_state))))
                 "query"%string (sql_input "SELECT 1")).
    reflexivity.
  - apply (proj2 (@executor_failure_propagates rows scripted)
                 5 "q"%string [] "sys"%string failing_tool_state
                 (firstn 1 (requests
                              (events (@process_query rows scripted 5 "q" []
                                         "sys" failing_tool_state))))
                 "query"%string (sql_input "SELECT 1")).
    reflexivity.
Defined.

Lemma base_case_one_gateway_call_witness :
  (result (@get_table_info rows scripted 1 [] "q" no_tool_state)
   = Returns ""%string /\
   gateway_calls (events (@get_table_info rows scripted 1 [] "q"
                            no_tool_state))
   = [mkRequest model_id [user_text (table_info_request "q")]
                table_info_system_prompt []] /\
   executor_calls (events (@get_table_info rows scripted 1 [] "q"
                             no_tool_state)) = [])
  /\
  (result (@process_query rows scripted 1 "q" [] "sys" no_tool_state)
   = Returns tt /\
   gateway_calls (events (@process_query rows scripted 1 "q" [] "sys"
                            no_tool_state))
   = [mkRequest model_id q_transcript "sys" []] /\
   executor_calls (events (@process_query rows scripted 1 "q" [] "sys"
                             no_tool_state)) = []).
Proof.
  split.
  - eapply (proj1 (@base_case_one_gateway_call rows scripted)
                  0 [] "q"%string no_tool_state).
    + reflexivity.
    + discriminate.
  - eapply (proj2 (@base_case_one_gateway_call rows scripted)
                  0 "q"%string [] "sys"%string no_tool_state).
    + discriminate.
    + reflexivity.
    + discriminate.
Defined.

Lemma terminal_message_not_appended_witness :
  result (@get_table_info_turn rows scripted [] (q_transcript, ""%string)
            no_tool_state)
  = Returns (Break (q_transcript, ""%string))
  /\
  result (@process_query_turn rows scripted [] "sys" q_transcript
            no_tool_state)
  = Returns (Break q_transcript)
  /\
  (exists req response rest answers,
      requests (events (@get_table_info_turn rows scripted []
                          (q_transcript, ""%string) two_tools_state))
      = Converse req (Ok response) :: rest /\
      stopReason response = "tool_use"%string /\
      two_tools_transcript = q_transcript ++ output_message response :: answers)
  /\
  (exists req response rest answers,
      requests (events (@process_query_turn rows scripted [] "sys"
                          q_transcript two_tools_state))
      = Converse req (Ok response) :: rest /\
      stopReason response = "tool_use"%string /\
      two_tools_transcript = q_transcript ++ output_message response :: answers)
  /\
  (exists pre req response,
      requests (events (@get_table_info_loop rows scripted 5 [] "q"
                          two_tools_state))
      = pre ++ [Converse req (Ok response)] /\
      stopReason response <> "tool_use"%string /\
      messages req
      = user_text (table_info_request "q") :: tl two_tools_transcript)
  /\
  (exists pre req response,
      requests (events (@process_query_loop rows scripted 5 "q" [] "sys"
                          two_tools_state))
      = pre ++ [Converse req (Ok response)] /\
      stopReason response <> "tool_use"%string /\
      messages req = two_tools_transcript).
Proof.
  pose proof (@terminal_message_not_appended rows scripted)
    as (Hbreak1 & Hbreak2 & Hnext1 & Hnext2 & Hloop1 & Hloop2).
  split; [| split; [| split; [| split; [| split]]]].
  - eapply (Hbreak1 [] q_transcript ""%string no_tool_state).
    + reflexivity.
    + discriminate.
  - eapply (Hbreak2 [] "sys"%string q_transcript no_tool_state).
    + reflexivity.
    + discriminate.
  - apply (Hnext1 [] q_transcript ""%string two_tools_state
                  two_tools_transcript "second"%string).
    reflexivity.
  - apply (Hnext2 [] "sys"%string q_transcript two_tools_state
                  two_tools_transcript).
    reflexivity.
  - apply (Hloop1 5 [] "q"%string two_tools_state _ "second"%string).
    reflexivity.
  - apply (Hloop2 5 "q"%string [] "sys"%string two_tools_state).
    reflexivity.
Defined.

(** C4, as stated, fails: the gateway stops at once, each loop ends with
    the transcript it started with, and the terminal assistant message
    is not in it. *)
Lemma terminal_message_missing :
  result (@get_table_info_loop rows scripted 5 [] "q" no_tool_state)
  = Returns ([user_text (table_info_request "q")], ""%string) /\
  ~ In final_message [user_text (table_info_request "q")] /\
  result (@process_query_loop rows scripted 5 "q" [] "sys" no_tool_state)
  = Returns (Some q_transcript) /\
  ~ In final_message q_transcript.
Proof.
  repeat split; try reflexivity.
  - intros [Heq | []]. discriminate Heq.
  - intros [Heq | []]. discriminate Heq.
Qed.

Lemma table_info_is_last_tool_result_witness :
  "second"%string
  = last (tool_result_texts
            (events (@get_table_info rows scripted 5 [] "q" two_tools_state)))
         ""%string
  /\
  (executor_calls (events (@get_table_info rows scripted 5 [] "q"
                             two_tools_state)) = []
   -> "second"%string = ""%string).
Proof.
  apply (@table_info_is_last_tool_result rows scripted
           5 [] "q"%string two_tools_state "second"%string).
  reflexivity.
Defined.

Lemma cancelled_run_makes_no_call_witness :
  gateway_calls (events (@main rows scripted 5 q_widgets cancelled_state))
  = [] /\
  executor_calls (events (@main rows scripted 5 q_widgets cancelled_state))
  = [] /\
  result (@main rows scripted 5 q_widgets cancelled_state) <> OutOfFuel /\
  (forall tools,
      In (ListTools (Ok tools))
         (events (@main rows scripted 5 q_widgets cancelled_state)) ->
      result (@main rows scripted 5 q_widgets cancelled_state)
      = Raises RerunException /\
      In (Display (StWarning "쿼리 실행이 취소되었습니다."))
         (events (@main rows scripted 5 q_widgets cancelled_state))).
Proof.
  apply (@cancelled_run_makes_no_call rows scripted
           5 q_widgets cancelled_state).
  reflexivity.
Defined.

Lemma tool_requests_answered_before_next_call_witness :
  (tool_result_ids (messages second_table_info_request)
   = tool_use_ids (messages second_table_info_request) /\
   length (answers_to (toolUseId first_tool_use)
                      (messages second_table_info_request)) = 1)
  /\
  (tool_result_ids (messages second_query_request)
   = tool_use_ids (messages second_query_request) /\
   length (answers_to (toolUseId first_tool_use)
                      (messages second_query_request)) = 1).
Proof.
  split.
  - apply (proj1 (@tool_requests_answered_before_next_call rows scripted)
                 5 [] "q"%string two_tools_state
                 second_table_info_request final_reply first_tool_use).
    + vm_compute. repeat constructor.
    + vm_compute. repeat (first [left; reflexivity | right]).
    + vm_compute. repeat constructor; simpl; intuition discriminate.
    + vm_compute. left. reflexivity.
  - apply (proj2 (@tool_requests_answered_before_next_call rows scripted)
                 5 "q"%string [] "sys"%string two_tools_state
                 second_query_request final_reply first_tool_use).
    + vm_compute. repeat constructor.
    + vm_compute. repeat (first [left; reflexivity | right]).
    + vm_compute. repeat constructor; simpl; intuition discriminate.
    + vm_compute. left. reflexivity.
Defined.

Lemma only_first_content_element_is_read_witness :
  result (@get_table_info_tool rows scripted (toolUse first_tool_use)
            (q_transcript, ""%string) two_elements_state)
  = Returns (q_transcript
             ++ [mkMessage user [toolResult (mkToolResult "t1" ["first"])]],
             "first"%string)
  /\
  result (@process_query_tool rows scripted (toolUse first_tool_use)
            q_transcript two_elements_state)
  = Returns (q_transcript
             ++ [mkMessage user [toolResult (mkToolResult "t1" ["first"])]]).
Proof.
  split.
  - apply (proj1 (@only_first_content_element_is_read rows scripted)
                 first_tool_use q_transcript ""%string two_elements_state
                 (mkCallToolResult ["first"; "more"]%string)).
    left. reflexivity.
  - apply (proj2 (@only_first_content_element_is_read rows scripted)
                 first_tool_use q_transcript two_elements_state
                 (mkCallToolResult ["first"; "more"]%string)).
    vm_compute. repeat (first [left; reflexivity | right]).
Defined.

(* ----------------------------------------------------------------- *)
(** *** Runs of [process_query] and of [main] *)

Lemma process_query_tool_shows_witness :
  @process_query_tool rows scripted (toolUse first_tool_use) q_transcript
                      two_tools_state
  = mkRun (Returns (q_transcript ++ [tool_result_message "t1" "first"]))
          (start_state
             (mkScript (gateway_script two_tools_world)
                       [text_result "second"] (Ok []))
             idle)
          [Display (StMarkdown "---");
           Display (StMarkdown "### 실행 쿼리");
           Display (StCode (JStr "SELECT 1"));
           CallTool "query" (sql_input "SELECT 1")
                    (Ok (mkCallToolResult ["first"%string]));
           Display (StMarkdown "---");
           Display (StMarkdown "### 실행 결과");
           Display (StWrite (Text "first"))].
Proof.
  exact (@process_query_tool_shows rows scripted
           first_tool_use q_transcript two_tools_state
           [("sql"%string, JStr "SELECT 1")] (JStr "SELECT 1")
           eq_refl eq_refl).
Defined.

Lemma process_query_raises_without_sql_witness :
  result (@process_query rows scripted 5 "q" [] "sys" no_sql_state)
  = Raises KeyError /\
  gateway_calls (events (@process_query rows scripted 5 "q" [] "sys"
                           no_sql_state))
  = [mkRequest model_id [user_text "q"] "sys" []] /\
  executor_calls (events (@process_query rows scripted 5 "q" [] "sys"
                            no_sql_state)) = [].
Proof.
  apply (@process_query_raises_without_sql rows scripted
           4 "q"%string [] "sys"%string no_sql_state
           (mkResponse "tool_use" no_sql_message)
           (mkScript [Ok (mkResponse "end_turn" final_message)]
                     [text_result "first"] (Ok []))
           (mkToolUse "t1" "list_tables" (JObj [])) [] KeyError).
  - discriminate.
  - reflexivity.
  - reflexivity.
  - reflexivity.
  - reflexivity.
Defined.

Lemma run_click_sets_flags_and_reruns_witness :
  @main rows scripted 5 (mkWidgets "" true false) two_tools_state
  = mkRun (Raises RerunException)
          (running_state two_tools_world)
          [banner; Display StRerun].
Proof.
  apply (@run_click_sets_flags_and_reruns rows scripted
           5 (mkWidgets "" true false) two_tools_state).
  - discriminate.
  - reflexivity.
Defined.

Lemma run_click_ignored_while_running_witness :
  @main rows scripted 5 (mkWidgets "q" true false)
        (running_state full_run_world)
  = @main rows scripted 5 (mkWidgets "q" false false)
          (running_state full_run_world).
Proof.
  apply (@run_click_ignored_while_running rows scripted
           5 "q"%string true false (running_state full_run_world)).
  reflexivity.
Defined.

Lemma cancel_click_sets_flags_and_reruns_witness :
  @main rows scripted 5 (mkWidgets "q" false true)
        (running_state full_run_world)
  = mkRun (Raises RerunException)
          (start_state full_run_world (mkSession (Some false) (Some true)))
          [banner; Display StRerun].
Proof.
  apply (@cancel_click_sets_flags_and_reruns rows scripted
           5 (mkWidgets "q" false true) (running_state full_run_world)).
  - reflexivity.
  - reflexivity.
Defined.

Lemma idle_run_changes_nothing_witness :
  @main rows scripted 5 q_widgets (start_state full_run_world
                                     (mkSession None None))
  = mkRun (Returns tt) (start_state full_run_world idle) [banner]
  /\
  @main rows scripted 5 (mkWidgets "" false false)
        (running_state full_run_world)
  = mkRun (Returns tt) (running_state full_run_world) [banner].
Proof.
  split.
  - apply (@idle_run_changes_nothing rows scripted
             5 q_widgets (start_state full_run_world (mkSession None None))).
    left. split; [discriminate | reflexivity].
  - apply (@idle_run_changes_nothing rows scripted
             5 (mkWidgets "" false false) (running_state full_run_world)).
    right. split; [reflexivity | split; reflexivity].
Defined.

Lemma mcp_client_is_released_witness :
  exists pre,
    events (@main rows scripted 5 q_widgets (running_state full_run_world))
    = pre ++ [McpExit].
Proof.
  apply (@mcp_client_is_released rows scripted
           5 q_widgets (running_state full_run_world)).
  - vm_compute. discriminate.
  - vm_compute. right. left. reflexivity.
Defined.

Lemma run_body_runs_both_loops_witness :
  @run_body rows scripted 5 "q" (running_state full_run_world)
  = mkRun (Raises RerunException)
          (start_state spent_world idle)
          (McpEnter (Ok tt) :: ListTools (Ok [])
           :: events (@get_table_info rows scripted 5 [] "q"
                        (running_state full_run_world))
           ++ shown_table_info "second"
           ++ events (@process_query rows scripted 5 "q" []
                        (query_system_prompt "second")
                        (running_state query_phase_world))
           ++ [Display StRerun; McpExit]).
Proof.
  exact (@run_body_runs_both_loops rows scripted
           5 "q"%string (running_state full_run_world)
           full_run_world [] full_run_world "second"%string
           eq_refl eq_refl eq_refl eq_refl eq_refl).
Defined.

Lemma entered_run_ends_by_rerun_or_exception_witness :
  (result (@main rows scripted 5 q_widgets (running_state full_run_world))
   = Raises RerunException /\
   In (Display StRerun)
      (events (@main rows scripted 5 q_widgets
                 (running_state full_run_world))) /\
   session (state_after (@main rows scripted 5 q_widgets
                           (running_state full_run_world)))
   = mkSession (Some false) (Some false))
  \/
  (exists e,
      result (@main rows scripted 5 q_widgets (running_state full_run_world))
      = Raises e /\
      ~ In (Display StRerun)
           (events (@main rows scripted 5 q_widgets
                      (running_state full_run_world))) /\
      session (state_after (@main rows scripted 5 q_widgets
                              (running_state full_run_world)))
      = session (running_state full_run_world)).
Proof.
  apply (@entered_run_ends_by_rerun_or_exception rows scripted
           5 q_widgets (running_state full_run_world)).
  - reflexivity.
  - reflexivity.
  - reflexivity.
  - discriminate.
  - vm_compute. discriminate.
Defined.

Lemma main_gateway_calls_use_listed_catalog_witness :
  modelId (mkRequest model_id q_transcript (query_system_prompt "second") [])
  = model_id /\
  exists tools,
    In (ListTools (Ok tools))
       (events (@main rows scripted 5 q_widgets
                  (running_state full_run_world))) /\
    toolConfig (mkRequest model_id q_transcript
                          (query_system_prompt "second") [])
    = tools /\
    (system (mkRequest model_id q_transcript
                       (query_system_prompt "second") [])
     = table_info_system_prompt \/
     exists pre post,
       events (@main rows scripted 5 q_widgets
                 (running_state full_run_world))
       = pre ++ shown_table_info (last (tool_result_texts pre) ""%string)
             ++ post /\
       In (Converse (mkRequest model_id q_transcript
                               (query_system_prompt "second") [])
                    final_reply) post /\
       system (mkRequest model_id q_transcript
                         (query_system_prompt "second") [])
       = query_system_prompt (last (tool_result_texts pre) ""%string)).
Proof.
  apply (@main_gateway_calls_use_listed_catalog rows scripted
           5 q_widgets (running_state full_run_world)
           (mkRequest model_id q_transcript
                      (query_system_prompt "second") [])
           final_reply).
  vm_compute. repeat (first [left; reflexivity | right]).
Defined.

Lemma flags_never_both_set_witness :
  consistent
    (session (state_after (@main rows scripted 5 q_widgets
                             (running_state full_run_world)))) /\
  Forall not_warning
         (events (@main rows scripted 5 q_widgets
                    (running_state full_run_world))).
Proof.
  apply (proj2 (@flags_never_both_set rows scripted)
               5 q_widgets (running_state full_run_world)).
  intros [_ Hc]. discriminate Hc.
Defined.
